(** * KalshiMarketMaker: the quoting engine, the order reconciler and the
      venue gateway, embedded from [mm.py] and [kalshi_api.py].

    Number model.  Python [int] is [Z].  Python [float] is a real number
    ([R]).  In the quoting engine, whose results are prices and spreads, the
    arithmetic is exact: rounding in the last place, overflow, infinities and
    NaN are outside the model, and so is the rounding of the mid price in
    [get_price].  Where a float computation decides between two behaviours
    or is truncated to an integer, each operation is rounded to binary64 by
    [Py.b64] (nearest, ties to even): the test of line 139 of [mm.py], which
    keeps or cancels an order, the product of line 101, whose truncation is
    the size of the position buffer, and the product of line 271 of
    [kalshi_api.py], whose truncation is the number of cents sent.  A float
    argument given there as
    a real that is not a binary64 number is read as Python reads a literal:
    as the binary64 number nearest to it.  What Python raises is kept:
    [ZeroDivisionError] for a zero divisor and [ValueError] for [math.log] of
    a non-positive argument.  [max] and [min] follow the builtin's rule (the
    first argument wins unless the second is strictly better).  The rounded
    tests of the concrete runs below are evaluated again on primitive floats
    in [Binary64]. *)

From Stdlib Require Import Reals Lra Lia ZArith String Ascii List Bool.
From Stdlib Require Import DecimalString.
From Stdlib Require PrimFloat.
Import ListNotations.

Set Implicit Arguments.

(** ** Python values and exceptions *)

Module Py.

Inductive exn : Type :=
| ZeroDivisionError
| ValueError
| TypeError
| KeyError
| NameError
| RequestException (msg : string).

Inductive result (A : Type) : Type :=
| Ret (a : A)
| Raise (e : exn).

Arguments Ret {A} a.
Arguments Raise {A} e.

Definition bind {A B : Type} (m : result A) (f : A -> result B) : result B :=
  match m with
  | Ret a => f a
  | Raise e => Raise e
  end.

Definition returns {A : Type} (m : result A) (P : A -> Prop) : Prop :=
  match m with
  | Ret a => P a
  | Raise _ => False
  end.

Definition raises {A : Type} (m : result A) : Prop :=
  match m with
  | Ret _ => False
  | Raise _ => True
  end.

(** A Python number as it is passed around untyped: [int] or [float]. *)
Inductive num : Type :=
| PInt (z : Z)
| PFloat (r : R).

Open Scope R_scope.

(** [a / b] on floats (or an [int] divided into a float). *)
Definition div (a b : R) : result R :=
  if Req_dec_T b 0 then Raise ZeroDivisionError else Ret (a / b).

(** [math.log(x)]. *)
Definition log (x : R) : result R :=
  if Rlt_dec 0 x then Ret (ln x) else Raise ValueError.

(** [max(a, b)]: [b] only when [b > a]. *)
Definition max (a b : R) : R := if Rlt_dec a b then b else a.

(** [min(a, b)]: [b] only when [b < a]. *)
Definition min (a b : R) : R := if Rlt_dec b a then b else a.

(** [int(x)] on a float: truncation toward zero. *)
Definition int (x : R) : Z := if Rle_dec 0 x then Zfloor x else Zceil x.

(** The integer nearest to an exact value, ties to the even one. *)
Definition round_half_even (y : R) : Z :=
  let f := Zfloor y in
  if Rlt_dec (y - IZR f) (1 / 2) then f
  else if Rlt_dec (1 / 2) (y - IZR f) then (f + 1)%Z
  else if Z.even f then f else (f + 1)%Z.

(** The binary exponent of a non-zero value: [2^mag x <= |x| < 2^(mag x + 1)]. *)
Definition mag (x : R) : Z := Zfloor (ln (Rabs x) / ln 2).

(** The binary64 number nearest to an exact value, ties to even: a
    significand of 53 bits at the value's exponent, which is not taken below
    that of the subnormal numbers.  Overflow is outside the model. *)
Definition b64 (x : R) : R :=
  if Req_dec_T x 0 then 0
  else
    let e := Z.max (mag x) (-1022) in
    IZR (round_half_even (x * powerRZ 2 (52 - e))) * powerRZ 2 (e - 52).

(** [x * 100] and [int(x)] on an untyped number.  The float product is
    rounded; its operand is a float, which [b64] leaves as it is, any other
    real being read as the float Python holds for it. *)
Definition num_times_100 (x : num) : num :=
  match x with
  | PInt z => PInt (z * 100)
  | PFloat r => PFloat (b64 (b64 r * 100))
  end.

Definition num_int (x : num) : Z :=
  match x with
  | PInt z => z
  | PFloat r => int r
  end.

(** [str(n)] for an [int]. *)
Definition str (n : Z) : string := NilZero.string_of_int (Z.to_int n).

End Py.

Import Py.

Declare Scope py_scope.
Delimit Scope py_scope with py.
Notation "x <- m ;; k" := (Py.bind m (fun x => k))
  (at level 61, m at next level, right associativity) : py_scope.

Open Scope R_scope.

(** A computation over a state [S] that may raise: the shape of every
    method that talks to the venue. *)
Definition io (S A : Type) : Type := S -> result A * S.

Definition io_ret {S A : Type} (a : A) : io S A := fun s => (Ret a, s).

Definition io_raise {S A : Type} (e : exn) : io S A := fun s => (Raise e, s).

Definition io_lift {S A : Type} (m : result A) : io S A := fun s => (m, s).

Definition io_bind {S A B : Type} (m : io S A) (f : A -> io S B) : io S B :=
  fun s =>
    match m s with
    | (Ret a, s') => f a s'
    | (Raise e, s') => (Raise e, s')
    end.

(** [try: body  except Exception as e: handler]. *)
Definition try_except {S A : Type} (body : io S A) (handler : exn -> io S A)
  : io S A :=
  fun s =>
    match body s with
    | (Ret a, s') => (Ret a, s')
    | (Raise e, s') => handler e s'
    end.

Declare Scope io_scope.
Delimit Scope io_scope with io.
Notation "x <~ m ;; k" := (io_bind m (fun x => k))
  (at level 61, m at next level, right associativity) : io_scope.

(** ** [kalshi_api.py]: the trading interface and the venue client *)

Module KalshiApi.

(** An open order as the venue lists it: the keys the strategy reads. *)
Record order : Type := {
  order_id : string;
  side : string;
  action : string;
  yes_price : Z;
  no_price : Z;
  remaining_count : Z
}.

(** What [get_price] hands back: [{"yes": y, "no": n}] or [None]. *)
Definition price_reply : Type := option (R * R).

(** What [get_position] hands back: the net position, or the list [[]]. *)
Inductive position_reply : Type :=
| PosInt (total_position : Z)
| PosEmptyList.

(** [AbstractTradingAPI]: the five abstract methods, with the positional
    parameters of their declarations. *)
Record AbstractTradingAPI (W : Type) : Type := {
  get_price : io W price_reply;
  place_order :
    forall (action side : string) (price quantity : num)
           (expiration_ts : option Z), io W (option string);
  cancel_order : forall (order_id : string), io W bool;
  get_position : io W position_reply;
  get_orders : io W (list order)
}.

(** Values stored in the order payload. *)
Inductive jvalue : Type :=
| JStr (s : string)
| JNum (n : num).

Definition dict : Type := list (string * jvalue).

(** [d[key] = v]: overwrite in place, or append a new key. *)
Fixpoint dict_set (d : dict) (key : string) (v : jvalue) : dict :=
  match d with
  | [] => [(key, v)]
  | (key', v') :: d' =>
      if String.eqb key' key then (key, v) :: d'
      else (key', v') :: dict_set d' key v
  end.

Fixpoint dict_get (d : dict) (key : string) : option jvalue :=
  match d with
  | [] => None
  | (key', v') :: d' => if String.eqb key' key then Some v' else dict_get d' key
  end.

(** [s.lower()] on the ASCII letters. *)
Definition lower_ascii (c : ascii) : ascii :=
  let n := nat_of_ascii c in
  if (Nat.leb 65 n && Nat.leb n 90)%bool then ascii_of_nat (n + 32) else c.

Fixpoint lower (s : string) : string :=
  match s with
  | EmptyString => EmptyString
  | String c s' => String (lower_ascii c) (lower s')
  end.

(** [s.split(sep)[0]]: the text before the first [sep]. *)
Fixpoint split_head (sep : ascii) (s : string) : string :=
  match s with
  | EmptyString => EmptyString
  | String c s' => if Ascii.eqb c sep then EmptyString else String c (split_head sep s')
  end.

(** [round(x, 2)] on an exact value: nearest hundredth, ties to the even one. *)
Definition round2 (x : R) : R := IZR (round_half_even (x * 100)) / 100.

(** The decoded body of a venue response, by endpoint. *)
Record position_entry : Type := { ticker : string; position : Z }.

Inductive body : Type :=
| PositionsBody (market_positions : option (list position_entry))
| MarketBody (yes_bid yes_ask no_bid no_ask : Z)
| OrdersBody (orders : option (list order))
| OrderBody (order_id : string)
| OtherBody.

Record request : Type := {
  method : string;
  url : string;
  headers : list (string * string);
  json : option dict
}.

(** The attributes of a [KalshiTradingAPI] instance. *)
Record client : Type := {
  market_ticker : string;
  api_key_id : string;
  base_url : string
}.

(** The message of lines 133-137: [timestamp_str + method + path_without_query]. *)
Definition msg_string (timestamp_str method path : string) : string :=
  let path_without_query := split_head "?" path in
  (timestamp_str ++ method ++ path_without_query)%string.

Section KalshiTradingAPI.

(** The outside world of the client: the clock, the RSA-PSS signer of
    [_sign_pss_text] and the [requests] transport (send, [raise_for_status],
    [response.json()]). *)
Variable W : Type.
Variable clock : W -> R.
Variable _sign_pss_text : string -> W -> result string.
Variable send : request -> io W body.

Variable self : client.

Open Scope io_scope.

Definition _get_signed_headers (method path : string)
  : io W (list (string * string)) :=
  fun w =>
    let timestamp := clock w in
    let current_time_milliseconds := Py.int (timestamp * 1000) in
    let timestamp_str := Py.str current_time_milliseconds in
    (sig <~ io_lift (_sign_pss_text (msg_string timestamp_str method path) w) ;;
     io_ret [("KALSHI-ACCESS-KEY", api_key_id self);
             ("KALSHI-ACCESS-SIGNATURE", sig);
             ("KALSHI-ACCESS-TIMESTAMP", timestamp_str)]%string) w.

(** [KalshiTradingAPI.get_position]. *)
Definition kalshi_get_position : io W position_reply :=
  let path := "/trade-api/v2/portfolio/positions"%string in
  let url := (base_url self ++ path)%string in
  try_except
    (headers <~ _get_signed_headers "GET" path ;;
     data <~ send (Build_request "GET" url headers None) ;;
     let positions :=
       match data with
       | PositionsBody (Some l) => l
       | _ => []
       end in
     let total_position :=
       fold_left
         (fun total p =>
            if String.eqb (ticker p) (market_ticker self)
            then (total + position p)%Z else total)
         positions 0%Z in
     io_ret (PosInt total_position))
    (fun e => io_ret PosEmptyList).

(** [KalshiTradingAPI.get_price]. *)
Definition kalshi_get_price : io W price_reply :=
  let path := ("/trade-api/v2/markets/" ++ market_ticker self ++ "/")%string in
  let url := (base_url self ++ path)%string in
  try_except
    (headers <~ _get_signed_headers "GET" path ;;
     data <~ send (Build_request "GET" url headers None) ;;
     match data with
     | MarketBody yes_bid yes_ask no_bid no_ask =>
         let yes_bid := IZR yes_bid / 100 in
         let yes_ask := IZR yes_ask / 100 in
         let no_bid := IZR no_bid / 100 in
         let no_ask := IZR no_ask / 100 in
         let yes_mid_price := round2 ((yes_bid + yes_ask) / 2) in
         let no_mid_price := round2 ((no_bid + no_ask) / 2) in
         io_ret (Some (yes_mid_price, no_mid_price))
     | _ => io_raise KeyError
     end)
    (* the handler formats the undefined name [ticker] *)
    (fun e => io_raise NameError).

(** Lines 263-278: the payload, from the parameters in the order
    [place_order] declares them: [action, side, count, price]. *)
Definition place_order_payload (action side : string) (count price : num)
  (expiration_ts : option Z) : dict :=
  let payload :=
    [("ticker", JStr (market_ticker self));
     ("action", JStr (lower action));
     ("side", JStr side);
     ("count", JNum count);
     ("type", JStr "limit")]%string in
  let price_to_send := Py.num_int (Py.num_times_100 price) in
  let payload :=
    if String.eqb side "yes"
    then dict_set payload "yes_price" (JNum (PInt price_to_send))
    else dict_set payload "no_price" (JNum (PInt price_to_send)) in
  match expiration_ts with
  | Some ts => dict_set payload "expiration_ts" (JNum (PInt ts))
  | None => payload
  end.

(** [KalshiTradingAPI.place_order]. *)
Definition kalshi_place_order (action side : string) (count price : num)
  (expiration_ts : option Z) : io W (option string) :=
  let path := "/trade-api/v2/portfolio/orders"%string in
  let url := (base_url self ++ path)%string in
  let payload := place_order_payload action side count price expiration_ts in
  try_except
    (headers <~ _get_signed_headers "POST" path ;;
     data <~ send (Build_request "POST" url headers (Some payload)) ;;
     match data with
     | OrderBody order_id => io_ret (Some order_id)
     | _ => io_raise KeyError
     end)
    (fun e => io_ret None).

(** [KalshiTradingAPI.cancel_order]. *)
Definition kalshi_cancel_order (order_id : string) : io W bool :=
  let path := ("/trade-api/v2/portfolio/orders/" ++ order_id)%string in
  let url := (base_url self ++ path)%string in
  try_except
    (headers <~ _get_signed_headers "DELETE" path ;;
     _response <~ send (Build_request "DELETE" url headers None) ;;
     io_ret true)
    (fun e => io_ret false).

(** [KalshiTradingAPI.get_orders]. *)
Definition kalshi_get_orders : io W (list order) :=
  let path := "/trade-api/v2/portfolio/orders"%string in
  let url := (base_url self ++ path)%string in
  try_except
    (headers <~ _get_signed_headers "GET" path ;;
     data <~ send (Build_request "GET" url headers None) ;;
     let orders :=
       match data with
       | OrdersBody (Some l) => l
       | _ => []
       end in
     io_ret orders)
    (fun e => io_ret []).

(** [class KalshiTradingAPI(AbstractTradingAPI)]: the methods fill the
    interface's positional slots in the order of their own parameters. *)
Definition KalshiTradingAPI : AbstractTradingAPI W := {|
  get_price := kalshi_get_price;
  place_order := kalshi_place_order;
  cancel_order := kalshi_cancel_order;
  get_position := kalshi_get_position;
  get_orders := kalshi_get_orders
|}.

End KalshiTradingAPI.

End KalshiApi.

(** ** [mm.py]: the quoting engine *)

Module MM.

(** The attributes set by [AvellanedaMarketMaker.__init__]. *)
Record params : Type := {
  base_gamma : R;
  k : R;
  sigma : R;
  T : R;
  max_position : Z;
  order_expiration : Z;
  min_spread : R;
  position_limit_buffer : R;
  inventory_skew_factor : R;
  trade_side : string
}.

Section QuoteEngine.

Variable self : params.

Open Scope py_scope.

Definition calculate_dynamic_gamma (inventory : Z) : result R :=
  position_ratio <- Py.div (IZR inventory) (IZR (max_position self)) ;;
  Ret (base_gamma self * exp (- Rabs position_ratio)).

Definition calculate_reservation_price (mid_price : R) (inventory : Z) (t : R)
  : result R :=
  dynamic_gamma <- calculate_dynamic_gamma inventory ;;
  let inventory_skew := IZR inventory * inventory_skew_factor self * mid_price in
  elapsed <- Py.div t (T self) ;;
  Ret (mid_price + inventory_skew
       - IZR inventory * dynamic_gamma * (sigma self ^ 2) * (1 - elapsed)).

Definition calculate_optimal_spread (t : R) (inventory : Z) : result R :=
  dynamic_gamma <- calculate_dynamic_gamma inventory ;;
  elapsed <- Py.div t (T self) ;;
  two_over_gamma <- Py.div 2 dynamic_gamma ;;
  gamma_over_k <- Py.div dynamic_gamma (k self) ;;
  log_term <- Py.log (1 + gamma_over_k) ;;
  let base_spread :=
    dynamic_gamma * (sigma self ^ 2) * (1 - elapsed) + two_over_gamma * log_term in
  position_ratio <- Py.div (IZR (Z.abs inventory)) (IZR (max_position self)) ;;
  let spread_adjustment := 1 - position_ratio ^ 2 in
  Ret (Py.max (base_spread * spread_adjustment * 0.01) (min_spread self)).

(** The locals of [calculate_asymmetric_quotes] before the final clamping
    (lines 64-75): the reservation price and the two half-spreads. *)
Definition asymmetric_spreads (mid_price : R) (inventory : Z) (t : R)
  : result (R * R * R) :=
  reservation_price <- calculate_reservation_price mid_price inventory t ;;
  base_spread <- calculate_optimal_spread t inventory ;;
  position_ratio <- Py.div (IZR inventory) (IZR (max_position self)) ;;
  let spread_adjustment := base_spread * Rabs position_ratio * 3 in
  if (0 <? inventory)%Z then
    let bid_spread := base_spread / 2 + spread_adjustment in
    let ask_spread := Py.max (base_spread / 2 - spread_adjustment) (min_spread self / 2) in
    Ret (reservation_price, bid_spread, ask_spread)
  else
    let bid_spread := Py.max (base_spread / 2 - spread_adjustment) (min_spread self / 2) in
    let ask_spread := base_spread / 2 + spread_adjustment in
    Ret (reservation_price, bid_spread, ask_spread).

Definition calculate_asymmetric_quotes (mid_price : R) (inventory : Z) (t : R)
  : result (R * R) :=
  locals <- asymmetric_spreads mid_price inventory t ;;
  let '(reservation_price, bid_spread, ask_spread) := locals in
  let bid_price := Py.max 0 (Py.min mid_price (reservation_price - bid_spread)) in
  let ask_price := Py.min 1 (Py.max mid_price (reservation_price + ask_spread)) in
  Ret (bid_price, ask_price).

(** The product of line 101, an [int] by a float, is rounded to binary64
    before [int] truncates it. *)
Definition calculate_order_sizes (inventory : Z) : Z * Z :=
  let remaining_capacity := (max_position self - Z.abs inventory)%Z in
  let buffer_size :=
    Py.int (Py.b64 (Py.b64 (IZR (max_position self))
                    * Py.b64 (position_limit_buffer self))) in
  if (0 <? inventory)%Z then
    let buy_size := Z.max 1 (Z.min buffer_size remaining_capacity) in
    let sell_size := Z.max 1 (max_position self) in
    (buy_size, sell_size)
  else
    let buy_size := Z.max 1 (max_position self) in
    let sell_size := Z.max 1 (Z.min buffer_size remaining_capacity) in
    (buy_size, sell_size).

End QuoteEngine.


(** ** [mm.py]: the order reconciler and one tick of the strategy loop *)

(** A call made on the trading interface, with its positional arguments. *)
Inductive api_call : Type :=
| GetPrice
| GetPosition
| GetOrders
| CancelOrder (order_id : string)
| PlaceOrder (action side : string) (price quantity : num)
             (expiration_ts : option Z).

Section Strategy.

Import KalshiApi.

Variable W : Type.
(** [time.time()]. *)
Variable clock : W -> R.
Variable api : AbstractTradingAPI W.
Variable self : params.

(** The venue's world together with the calls made on [self.api] so far. *)
Record state : Type := { calls : list api_call; world : W }.

(** Run a method of [self.api] and record the call. *)
Definition call {A : Type} (c : api_call) (m : io W A) : io state A :=
  fun st =>
    let (r, w') := m (world st) in
    (r, {| calls := calls st ++ [c]; world := w' |}).

Open Scope io_scope.

(** [mid_prices[self.trade_side]]. *)
Definition subscript (mid_prices : price_reply) (key : string) : result R :=
  match mid_prices with
  | None => Raise TypeError
  | Some (yes, no) =>
      if String.eqb key "yes" then Ret yes
      else if String.eqb key "no" then Ret no
      else Raise KeyError
  end.

(** Line 138: the price of an open order on the traded side,
    [float(order['yes_price']) / 100] in binary64. *)
Definition order_price (order : order) : R :=
  if String.eqb (trade_side self) "yes"
  then Py.b64 (Py.b64 (IZR (yes_price order)) / 100)
  else Py.b64 (Py.b64 (IZR (no_price order)) / 100).

(** [abs(current_price - desired_price) < 0.01] on two floats: the
    difference is rounded and the literal is the float nearest to 0.01. *)
Definition within_cent (current_price desired_price : R) : bool :=
  if Rlt_dec (Rabs (Py.b64 (current_price - desired_price))) (Py.b64 0.01)
  then true else false.

(** The test of line 139 on one order, [keep_order is None] apart.  The
    desired price is a float: [Py.b64] leaves a binary64 number as it is and
    reads any other real as the float Python holds for it. *)
Definition matches (desired_price : R) (desired_size : Z) (order : order) : bool :=
  within_cent (order_price order) (Py.b64 desired_price)
  && (remaining_count order =? desired_size)%Z.

(** Lines 136-144: the loop over the orders of one side. *)
Fixpoint scan_orders (orders : list order) (desired_price : R) (desired_size : Z)
  (keep_order : option order) : io state (option order) :=
  match orders with
  | [] => io_ret keep_order
  | order :: rest =>
      match keep_order with
      | None =>
          if matches desired_price desired_size order
          then scan_orders rest desired_price desired_size (Some order)
          else
            _ok <~ call (CancelOrder (order_id order))
                        (cancel_order api (order_id order)) ;;
            scan_orders rest desired_price desired_size keep_order
      | Some _ =>
          _ok <~ call (CancelOrder (order_id order))
                      (cancel_order api (order_id order)) ;;
          scan_orders rest desired_price desired_size keep_order
      end
  end.

(** The condition of line 148. *)
Definition improves (action : string) (desired_price current_price : R) : bool :=
  (String.eqb action "buy" && if Rlt_dec desired_price current_price then true else false)
  || (String.eqb action "sell" && if Rlt_dec current_price desired_price then true else false).

Definition handle_order_side (action : string) (orders : list order)
  (desired_price : R) (desired_size : Z) : io state unit :=
  keep_order <~ scan_orders orders desired_price desired_size None ;;
  mid_prices <~ call GetPrice (get_price api) ;;
  current_price <~ io_lift (subscript mid_prices (trade_side self)) ;;
  match keep_order with
  | Some _ => io_ret tt
  | None =>
      if improves action desired_price current_price
      then
        try_except
          (fun st =>
             let expiration_ts := (Py.int (clock (world st)) + order_expiration self)%Z in
             (_order_id <~ call (PlaceOrder action (trade_side self)
                                   (PFloat desired_price) (PInt desired_size)
                                   (Some expiration_ts))
                                (place_order api action (trade_side self)
                                   (PFloat desired_price) (PInt desired_size)
                                   (Some expiration_ts)) ;;
              io_ret tt) st)
          (fun e => io_ret tt)
      else io_ret tt
  end.

Definition manage_orders (bid_price ask_price : R) (buy_size sell_size : Z)
  : io state unit :=
  current_orders <~ call GetOrders (get_orders api) ;;
  let on_side :=
    filter (fun order => String.eqb (side order) (trade_side self)) current_orders in
  let buy_orders := filter (fun order => String.eqb (action order) "buy") on_side in
  let sell_orders :=
    filter (fun order => negb (String.eqb (action order) "buy")
                         && String.eqb (action order) "sell") on_side in
  _b <~ handle_order_side "buy" buy_orders bid_price buy_size ;;
  handle_order_side "sell" sell_orders ask_price sell_size.

(** [inventory / self.max_position] and [abs(inventory)] need a number. *)
Definition as_number (inventory : position_reply) : result Z :=
  match inventory with
  | PosInt n => Ret n
  | PosEmptyList => Raise TypeError
  end.

(** Lines 42-57: the body of the loop of [run], at elapsed time [current_time]. *)
Definition tick (current_time : R) : io state unit :=
  mid_prices <~ call GetPrice (get_price api) ;;
  mid_price <~ io_lift (subscript mid_prices (trade_side self)) ;;
  inventory <~ call GetPosition (get_position api) ;;
  inventory <~ io_lift (as_number inventory) ;;
  _reservation_price <~
    io_lift (calculate_reservation_price self mid_price inventory current_time) ;;
  quotes <~ io_lift (calculate_asymmetric_quotes self mid_price inventory current_time) ;;
  let '(bid_price, ask_price) := quotes in
  let '(buy_size, sell_size) := calculate_order_sizes self inventory in
  manage_orders bid_price ask_price buy_size sell_size.

End Strategy.

End MM.

Import KalshiApi MM.

(** ** Scenario data *)

(** The parameters of the quoting scenario: [gamma=0.1], [k=1.5],
    [sigma=0.02], [T=60], [max_position=100], [min_spread=0.01] and the
    defaults of [__init__]. *)
Definition scenario_params : params := {|
  base_gamma := 0.1;
  k := 1.5;
  sigma := 0.02;
  T := 60;
  max_position := 100;
  order_expiration := 3600;
  min_spread := 0.01;
  position_limit_buffer := 0.1;
  inventory_skew_factor := 0.01;
  trade_side := "yes"
|}.

(** The same parameters with a zero horizon. *)
Definition zero_horizon_params : params := {|
  base_gamma := 0.1;
  k := 1.5;
  sigma := 0.02;
  T := 0;
  max_position := 100;
  order_expiration := 3600;
  min_spread := 0.01;
  position_limit_buffer := 0.1;
  inventory_skew_factor := 0.01;
  trade_side := "yes"
|}.

(** The spread of line 93 under [scenario_params] at [t = 0] and a flat
    inventory, written out. *)
Definition scenario_gamma : R := 0.1 * exp (- Rabs (0 / 100)).

Definition scenario_spread : R :=
  Py.max
    ((scenario_gamma * (0.02 ^ 2) * (1 - 0 / 60)
      + 2 / scenario_gamma * ln (1 + scenario_gamma / 1.5))
     * (1 - (0 / 100) ^ 2) * 0.01)
    0.01.

(** A transport that records every request it is given and answers with an
    empty body, a clock stopped at [1700000000] seconds and a signer that
    always succeeds. *)
Definition recording_send : request -> io (list request) body :=
  fun rq sent => (Ret OtherBody, sent ++ [rq]).

Definition stopped_clock (W : Type) : W -> R := fun _ => 1700000000.

Definition constant_signer (W : Type) : string -> W -> result string :=
  fun _ _ => Ret "c2ln"%string.

Definition demo_client : client := {|
  market_ticker := "KXDEMO";
  api_key_id := "key-id";
  base_url := "https://api.elections.kalshi.com"
|}.

Definition recording_api : AbstractTradingAPI (list request) :=
  KalshiTradingAPI (@stopped_clock _) (@constant_signer _) recording_send demo_client.

(** The calls a strategy step adds to the record when run from [st]. *)
Definition issued (W A : Type) (m : io (state W) A) (st : state W) : list api_call :=
  skipn (length (calls st)) (calls (snd (m st))).

Definition cancel_of (order : order) : api_call := CancelOrder (order_id order).

Definition is_place (c : api_call) : bool :=
  match c with
  | PlaceOrder _ _ _ _ _ => true
  | _ => false
  end.

Definition is_cancel (c : api_call) : bool :=
  match c with
  | CancelOrder _ => true
  | _ => false
  end.

(** The order the loop of [handle_order_side] keeps and the orders it hands
    to [cancel_order], read off the list alone. *)
Fixpoint kept (self : params) (desired_price : R) (desired_size : Z)
  (keep_order : option order) (orders : list order) : option order :=
  match orders with
  | [] => keep_order
  | order :: rest =>
      match keep_order with
      | None =>
          if matches self desired_price desired_size order
          then kept self desired_price desired_size (Some order) rest
          else kept self desired_price desired_size None rest
      | Some _ => kept self desired_price desired_size keep_order rest
      end
  end.

Fixpoint extraneous (self : params) (desired_price : R) (desired_size : Z)
  (keep_order : option order) (orders : list order) : list order :=
  match orders with
  | [] => []
  | order :: rest =>
      match keep_order with
      | None =>
          if matches self desired_price desired_size order
          then extraneous self desired_price desired_size (Some order) rest
          else order :: extraneous self desired_price desired_size None rest
      | Some _ => order :: extraneous self desired_price desired_size keep_order rest
      end
  end.

(** The state after the price is fetched again at [st1] (line 146). *)
Definition refetched (W : Type) (api : AbstractTradingAPI W) (st1 : state W)
  : result price_reply * state W :=
  let (r, w2) := get_price api (world st1) in
  (r, {| calls := calls st1 ++ [GetPrice]; world := w2 |}).

(** At [w] no signed request can complete: the signer raises on every
    message, or the transport raises on every request. *)
Definition request_fails (W : Type) (sign : string -> W -> result string)
  (send : request -> io W body) (w : W) : Prop :=
  (forall msg, raises (sign msg w)) \/ (forall rq, raises (fst (send rq w))).

(** An interface method that always hands back a value. *)
Definition never_raises (W A : Type) (m : io W A) : Prop :=
  forall w, exists a w', m w = (Ret a, w').

(** A venue that is up: mid price 0.50 on both sides, every call succeeds. *)
Definition live_api : AbstractTradingAPI unit := {|
  get_price := io_ret (Some (0.5, 0.5));
  place_order := fun _ _ _ _ _ => io_ret (Some "order-1"%string);
  cancel_order := fun _ => io_ret true;
  get_position := io_ret (PosInt 0);
  get_orders := io_ret []
|}.

Definition start : state unit := {| calls := []; world := tt |}.

(** A resting buy of 10 contracts at the given price in cents. *)
Definition resting_buy (id : string) (cents : Z) : order := {|
  order_id := id;
  side := "yes";
  action := "buy";
  yes_price := cents;
  no_price := 100 - cents;
  remaining_count := 10
|}.

(** A transport on which every request fails. *)
Definition failing_send : request -> io unit body :=
  fun _ w => (Raise (RequestException "connection refused"), w).

Definition offline_api : AbstractTradingAPI unit :=
  KalshiTradingAPI (@stopped_clock _) (@constant_signer _) failing_send demo_client.

(** A transport that serves the market endpoint and fails on the rest. *)
Definition market_only_send : request -> io unit body :=
  fun rq w =>
    if String.eqb (url rq)
         "https://api.elections.kalshi.com/trade-api/v2/markets/KXDEMO/"
    then (Ret (MarketBody 49 51 49 51), w)
    else (Raise (RequestException "connection refused"), w).

Definition market_only_api : AbstractTradingAPI unit :=
  KalshiTradingAPI (@stopped_clock _) (@constant_signer _) market_only_send demo_client.

(** The float Python holds for the literal [0.45]. *)
Definition float_0_45 : R := 8106479329266893 / 18014398509481984.

(** The signed request each method of the client makes inside its [try]:
    the headers of [_get_signed_headers], then the transport. *)
Definition signed_request (W : Type) (clock : W -> R)
  (sign : string -> W -> result string) (send : request -> io W body)
  (self : client) (method path : string) (payload : option dict) : io W body :=
  io_bind (_get_signed_headers clock sign self method path)
    (fun headers =>
       send (Build_request method (base_url self ++ path) headers payload)).

(** The reservation price of line 85 under [scenario_params] at the
    position limit ([inventory = 100]), [mid_price = 0.5] and [t = 30]. *)
Definition limit_reservation : R :=
  0.5 + 100 * 0.01 * 0.5
  - 100 * (0.1 * exp (- Rabs (100 / 100))) * (0.02 ^ 2) * (1 - 30 / 60).

(** ** More of [kalshi_api.py] and [mm.py] *)

(** [s.rstrip(c)] for a single character [c]. *)
Fixpoint rstrip (c : ascii) (s : string) : string :=
  match s with
  | EmptyString => EmptyString
  | String a s' =>
      match rstrip c s' with
      | EmptyString => if Ascii.eqb a c then EmptyString else String a EmptyString
      | String b r => String a (String b r)
      end
  end.

(** Lines 51-54 of [KalshiTradingAPI.__init__]: the attributes kept from
    the arguments. *)
Definition init_client (market_ticker api_key_id base_url : string) : client := {|
  market_ticker := market_ticker;
  api_key_id := api_key_id;
  base_url := rstrip "/" base_url
|}.

(** [n] copies of a character. *)
Fixpoint replicate (n : nat) (c : ascii) : string :=
  match n with
  | O => EmptyString
  | S n' => String c (replicate n' c)
  end.

(** The net position of a ticker, as a sum over its entries. *)
Definition net_position (market : string) (positions : list position_entry) : Z :=
  fold_right Z.add 0%Z
    (map position (filter (fun p => String.eqb (ticker p) market) positions)).

(** A strategy step only ever appends to the record of calls. *)
Definition extends (W A : Type) (m : io (state W) A) : Prop :=
  forall st, exists new, calls (snd (m st)) = calls st ++ new.

Definition is_get_price (c : api_call) : bool :=
  match c with
  | GetPrice => true
  | _ => false
  end.

Section StrategyLoop.

Variable W : Type.
Variable clock : W -> R.
(** The time that passes before a reading of the clock. *)
Variable elapse : W -> W.
(** [time.sleep(dt)]. *)
Variable sleep : R -> W -> W.
Variable api : AbstractTradingAPI W.
Variable self : params.

Open Scope io_scope.

(** [time.time()] as a statement of [run]: some time passes, then the clock
    is read. *)
Definition time_time : io (state W) R :=
  fun st =>
    let w := elapse (world st) in
    (Ret (clock w), {| calls := calls st; world := w |}).

Definition time_sleep (dt : R) : io (state W) unit :=
  fun st => (Ret tt, {| calls := calls st; world := sleep dt (world st) |}).

(** The [while] of [run] (lines 41-59), unrolled at most [fuel] times;
    [Ret None] marks the fuel running out, [Ret (Some tt)] the loop's exit. *)
Fixpoint run_loop (fuel : nat) (start_time dt : R) : io (state W) (option unit) :=
  match fuel with
  | O => io_ret None
  | S fuel' =>
      now <~ time_time ;;
      if Rlt_dec (now - start_time) (T self)
      then
        now' <~ time_time ;;
        let current_time := now' - start_time in
        _done <~ tick clock api self current_time ;;
        _slept <~ time_sleep dt ;;
        run_loop fuel' start_time dt
      else io_ret (Some tt)
  end.

Definition run (fuel : nat) (dt : R) : io (state W) (option unit) :=
  start_time <~ time_time ;;
  run_loop fuel start_time dt.

End StrategyLoop.

(** A venue that answers but whose price is always the null sentinel. *)
Definition null_price_api : AbstractTradingAPI unit := {|
  get_price := io_ret None;
  place_order := fun _ _ _ _ _ => io_ret None;
  cancel_order := fun _ => io_ret false;
  get_position := io_ret (PosInt 0);
  get_orders := io_ret []
|}.

(** A world that neither sleeping nor waiting changes. *)
Definition no_sleep (W : Type) : R -> W -> W := fun _ w => w.
Definition no_elapse (W : Type) : W -> W := fun w => w.

(** A venue whose [cancel_order] raises. *)
Definition cancel_raises_api : AbstractTradingAPI unit := {|
  get_price := io_ret (Some (0.5, 0.5));
  place_order := fun _ _ _ _ _ => io_ret (Some "order-1"%string);
  cancel_order := fun _ => io_raise (RequestException "timeout");
  get_position := io_ret (PosInt 0);
  get_orders := io_ret []
|}.

(** Parameters with a zero position limit. *)
Definition zero_limit_params : params := {|
  base_gamma := 0.1;
  k := 1.5;
  sigma := 0.02;
  T := 60;
  max_position := 0;
  order_expiration := 3600;
  min_spread := 0.01;
  position_limit_buffer := 0.1;
  inventory_skew_factor := 0.01;
  trade_side := "yes"
|}.

(** The scenario's parameters with the side written in capitals. *)
Definition capital_side_params : params := {|
  base_gamma := 0.1;
  k := 1.5;
  sigma := 0.02;
  T := 60;
  max_position := 100;
  order_expiration := 3600;
  min_spread := 0.01;
  position_limit_buffer := 0.1;
  inventory_skew_factor := 0.01;
  trade_side := "YES"
|}.

(** A transport that answers every request with the same body. *)
Definition constant_send (data : body) : request -> io unit body :=
  fun _ w => (Ret data, w).

(** An order resting on the other side of the market. *)
Definition other_side_order : order := {|
  order_id := "N";
  side := "no";
  action := "buy";
  yes_price := 40;
  no_price := 60;
  remaining_count := 10
|}.

(** A live venue that lists one order on each side. *)
Definition book_api : AbstractTradingAPI unit := {|
  get_price := io_ret (Some (0.5, 0.5));
  place_order := fun _ _ _ _ _ => io_ret (Some "order-1"%string);
  cancel_order := fun _ => io_ret true;
  get_position := io_ret (PosInt 0);
  get_orders := io_ret [other_side_order; resting_buy "A" 40]
|}.

(** The quote of the scenario, written out (lines 77-78). *)
Definition scenario_bid : R := Py.max 0 (Py.min 0.5 (0.5 - scenario_spread / 2)).
Definition scenario_ask : R := Py.min 1 (Py.max 0.5 (0.5 + scenario_spread / 2)).

(** ** The float tests of the scenarios, on binary64 *)

Module Binary64.

Import PrimFloat.

(** Line 138, [float(order['yes_price']) / 100]. *)
Definition order_price (cents : float) : float := (cents / 100)%float.

(** Line 139, [abs(current_price - desired_price) < 0.01]; the literal is
    the double nearest to 0.01. *)
Definition within_cent (current_price desired_price : float) : bool :=
  (abs (current_price - desired_price) <? 0x1.47ae147ae147bp-7)%float.

(** Line 101, [self.max_position * self.position_limit_buffer]. *)
Definition buffer (max_position position_limit_buffer : float) : float :=
  (max_position * position_limit_buffer)%float.

(** Line 271, [price * 100]. *)
Definition cents (price : float) : float := (price * 100)%float.

(** The doubles nearest to 0.45, 0.1, 0.05 and 0.29. *)
Definition d0_45 : float := 0x1.ccccccccccccdp-2%float.
Definition d0_1 : float := 0x1.999999999999ap-4%float.
Definition d0_05 : float := 0x1.999999999999ap-5%float.
Definition d0_29 : float := 0x1.28f5c28f5c28fp-2%float.

End Binary64.

(** ** The Python primitives *)

Lemma div_ret (a b : R) : b <> 0 -> Py.div a b = Ret (a / b).
Proof.
  intros Hb. unfold Py.div. destruct (Req_dec_T b 0) as [E | _]; [contradiction | reflexivity].
Qed.

Lemma div_zero (a : R) : Py.div a 0 = Raise ZeroDivisionError.
Proof.
  unfold Py.div. destruct (Req_dec_T 0 0) as [_ | N]; [reflexivity | now elim N].
Qed.

Lemma log_ret (x : R) : 0 < x -> Py.log x = Ret (ln x).
Proof.
  intros Hx. unfold Py.log. destruct (Rlt_dec 0 x); [reflexivity | contradiction].
Qed.

Lemma max_lower_l (a b : R) : a <= Py.max a b.
Proof. unfold Py.max. destruct (Rlt_dec a b); lra. Qed.

Lemma max_lower_r (a b : R) : b <= Py.max a b.
Proof. unfold Py.max. destruct (Rlt_dec a b); lra. Qed.

Lemma max_upper (a b c : R) : a <= c -> b <= c -> Py.max a b <= c.
Proof. unfold Py.max. destruct (Rlt_dec a b); lra. Qed.

Lemma max_left (a b : R) : b <= a -> Py.max a b = a.
Proof. unfold Py.max. destruct (Rlt_dec a b); [lra | reflexivity]. Qed.

Lemma max_right (a b : R) : a < b -> Py.max a b = b.
Proof. unfold Py.max. destruct (Rlt_dec a b); [reflexivity | lra]. Qed.

Lemma min_upper_l (a b : R) : Py.min a b <= a.
Proof. unfold Py.min. destruct (Rlt_dec b a); lra. Qed.

Lemma min_upper_r (a b : R) : Py.min a b <= b.
Proof. unfold Py.min. destruct (Rlt_dec b a); lra. Qed.

Lemma min_lower (a b c : R) : c <= a -> c <= b -> c <= Py.min a b.
Proof. unfold Py.min. destruct (Rlt_dec b a); lra. Qed.

Lemma int_of_Z (z : Z) (x : R) : (0 <= z)%Z -> IZR z <= x < IZR z + 1 -> Py.int x = z.
Proof.
  intros Hz Hx. unfold Py.int.
  assert (0 <= IZR z) by (apply IZR_le; exact Hz).
  destruct (Rle_dec 0 x) as [_ | N]; [apply Zfloor_eq; exact Hx | lra].
Qed.

(** ** Binary64 rounding *)

Lemma ln_2_pos : 0 < ln 2.
Proof. pose proof ln_lt_2. lra. Qed.

Lemma ln_powerRZ_2 (e : Z) : ln (powerRZ 2 e) = IZR e * ln 2.
Proof. rewrite powerRZ_Rpower by lra. unfold Rpower. apply ln_exp. Qed.

(** The exponent of a value is the one whose binade holds it. *)
Lemma mag_unique (x : R) (e : Z) :
  powerRZ 2 e <= Rabs x < powerRZ 2 (e + 1) -> Py.mag x = e.
Proof.
  intros [Hl Hu]. unfold Py.mag. apply Zfloor_eq.
  pose proof ln_2_pos as H2.
  assert (Hp : 0 < powerRZ 2 e) by (apply powerRZ_lt; lra).
  assert (Hx : 0 < Rabs x) by lra.
  assert (H1 : IZR e * ln 2 <= ln (Rabs x)).
  { rewrite <- ln_powerRZ_2. destruct Hl as [Hl | Hl].
    - left. apply ln_increasing; assumption.
    - rewrite Hl. right. reflexivity. }
  assert (H3 : ln (Rabs x) < (IZR e + 1) * ln 2).
  { rewrite <- plus_IZR, <- ln_powerRZ_2. apply ln_increasing; assumption. }
  split.
  - apply Rmult_le_reg_r with (ln 2); [exact H2 |].
    unfold Rdiv. rewrite Rmult_assoc, Rinv_l by lra. lra.
  - apply Rmult_lt_reg_r with (ln 2); [exact H2 |].
    unfold Rdiv. rewrite Rmult_assoc, Rinv_l by lra. lra.
Qed.

(** A value less than a half away from an integer rounds to it. *)
Lemma round_half_even_near (y : R) (m : Z) :
  Rabs (y - IZR m) < 1 / 2 -> round_half_even y = m.
Proof.
  intros H.
  assert (Hb : - (1 / 2) < y - IZR m < 1 / 2)
    by (unfold Rabs in H; destruct (Rcase_abs (y - IZR m)); lra).
  unfold round_half_even. pose proof (Zfloor_bound y) as [Hl Hu].
  assert (Hf : Zfloor y = m \/ Zfloor y = (m - 1)%Z).
  { assert ((Zfloor y < m + 1)%Z) by (apply lt_IZR; rewrite plus_IZR; lra).
    assert ((m - 2 < Zfloor y)%Z) by (apply lt_IZR; rewrite minus_IZR; lra).
    lia. }
  destruct Hf as [Hf | Hf]; rewrite Hf in *.
  - destruct (Rlt_dec (y - IZR m) (1 / 2)); [reflexivity | lra].
  - rewrite minus_IZR in *.
    destruct (Rlt_dec (y - (IZR m - 1)) (1 / 2)); [lra |].
    destruct (Rlt_dec (1 / 2) (y - (IZR m - 1))); [lia | lra].
Qed.

Lemma powerRZ_2_pos (k n : Z) :
  (0 <= k)%Z -> n = (2 ^ k)%Z -> powerRZ 2 k = IZR n.
Proof.
  intros Hk ->. destruct k as [| p | p]; [reflexivity | | lia].
  change (2 ^ Z.pos p)%Z with (Z.pow_pos 2 p).
  rewrite Zpower_pos_powerRZ. reflexivity.
Qed.

Lemma powerRZ_2_neg (k n : Z) :
  (0 <= k)%Z -> n = (2 ^ k)%Z -> powerRZ 2 (- k) = / IZR n.
Proof.
  intros Hk Hn. rewrite powerRZ_neg'. now rewrite (@powerRZ_2_pos k n).
Qed.

(** [b64] at a value whose exponent [e] is known: with [n = 2^(52 - e)],
    the significand is the integer [m] nearest to [x * n]. *)
Lemma b64_eval (x : R) (e k n m : Z) :
  (-1022 <= e)%Z -> k = (52 - e)%Z -> (0 <= k)%Z -> n = (2 ^ k)%Z ->
  4503599627370496 <= Rabs x * IZR n < 9007199254740992 ->
  Rabs (x * IZR n - IZR m) < 1 / 2 ->
  Py.b64 x = IZR m / IZR n.
Proof.
  intros He Hk Hk0 Hn Hrange Hm.
  assert (Hnpos : 0 < IZR n).
  { rewrite <- (@powerRZ_2_pos k n Hk0 Hn). apply powerRZ_lt. lra. }
  assert (Hx : x <> 0).
  { intros ->. rewrite Rabs_R0 in Hrange. lra. }
  assert (Hmag : Py.mag x = e).
  { apply mag_unique.
    assert (He1 : powerRZ 2 e = 4503599627370496 / IZR n).
    { replace e with (52 + - k)%Z by lia.
      rewrite powerRZ_add by lra.
      rewrite (@powerRZ_2_pos 52 4503599627370496) by (try lia; reflexivity).
      rewrite (@powerRZ_2_neg k n Hk0 Hn). reflexivity. }
    assert (He2 : powerRZ 2 (e + 1) = 9007199254740992 / IZR n).
    { replace (e + 1)%Z with (53 + - k)%Z by lia.
      rewrite powerRZ_add by lra.
      rewrite (@powerRZ_2_pos 53 9007199254740992) by (try lia; reflexivity).
      rewrite (@powerRZ_2_neg k n Hk0 Hn). reflexivity. }
    rewrite He1, He2. split.
    - apply Rmult_le_reg_r with (IZR n); [exact Hnpos |].
      unfold Rdiv. rewrite Rmult_assoc, Rinv_l by lra. lra.
    - apply Rmult_lt_reg_r with (IZR n); [exact Hnpos |].
      unfold Rdiv. rewrite Rmult_assoc, Rinv_l by lra. lra. }
  unfold Py.b64. destruct (Req_dec_T x 0) as [E | _]; [contradiction |].
  cbv zeta. rewrite Hmag. rewrite Z.max_l by lia.
  rewrite <- Hk.
  replace (e - 52)%Z with (- k)%Z by lia.
  rewrite (@powerRZ_2_pos k n Hk0 Hn), (@powerRZ_2_neg k n Hk0 Hn).
  rewrite (@round_half_even_near _ m Hm). reflexivity.
Qed.

Lemma b64_0 : Py.b64 0 = 0.
Proof.
  unfold Py.b64. destruct (Req_dec_T 0 0) as [_ | N]; [reflexivity | now elim N].
Qed.

(** [float(z)] is exact on the integers below [2^53]. *)
Lemma b64_nat_exact (z : Z) :
  (0 <= z < 9007199254740992)%Z -> Py.b64 (IZR z) = IZR z.
Proof.
  intros [Hz0 Hz1].
  destruct (Z.eq_dec z 0) as [-> | Hnz]; [apply b64_0 |].
  assert (Hpos : (0 < z)%Z) by lia.
  pose proof (Z.log2_spec z Hpos) as [Hlo Hhi].
  pose proof (Z.log2_nonneg z) as He0.
  set (e := Z.log2 z) in *.
  assert (He : (e < 53)%Z).
  { apply (Z.pow_lt_mono_r_iff 2); [lia | lia |].
    change (2 ^ 53)%Z with 9007199254740992%Z. lia. }
  assert (Hmag : Py.mag (IZR z) = e).
  { apply mag_unique. rewrite Rabs_pos_eq by (apply IZR_le; lia).
    rewrite (@powerRZ_2_pos e (2 ^ e) He0 eq_refl).
    rewrite (@powerRZ_2_pos (e + 1) (2 ^ (e + 1))) by (try lia; reflexivity).
    split; [apply IZR_le; exact Hlo | apply IZR_lt].
    rewrite <- Z.add_1_r in Hhi. exact Hhi. }
  assert (Hp : (0 < 2 ^ (52 - e))%Z) by (apply Z.pow_pos_nonneg; lia).
  unfold Py.b64. destruct (Req_dec_T (IZR z) 0) as [E | _].
  { apply eq_IZR_R0 in E. contradiction. }
  cbv zeta. rewrite Hmag, Z.max_l by lia.
  rewrite (@powerRZ_2_pos (52 - e) (2 ^ (52 - e))) by (try lia; reflexivity).
  rewrite <- mult_IZR.
  rewrite (@round_half_even_near _ (z * 2 ^ (52 - e))).
  2:{ replace (IZR (z * 2 ^ (52 - e)) - IZR (z * 2 ^ (52 - e))) with 0 by ring.
      rewrite Rabs_R0. lra. }
  replace (e - 52)%Z with (- (52 - e))%Z by lia.
  rewrite (@powerRZ_2_neg (52 - e) (2 ^ (52 - e))) by (try lia; reflexivity).
  rewrite mult_IZR. field.
  intros E. apply eq_IZR_R0 in E. lia.
Qed.

Ltac abs_bounds := unfold Rabs; repeat destruct (Rcase_abs _); lra.

(** Settle [b64 x = m / n] from the exponent [e] and [k = 52 - e]. *)
Ltac b64_at e k n m :=
  apply (@b64_eval _ e k n m);
  [ lia | reflexivity | lia | reflexivity | abs_bounds | abs_bounds ].

(** The floats Python holds for the literals and quotients of the
    scenarios. *)
Lemma b64_0_01 : Py.b64 0.01 = 5764607523034235 / 576460752303423488.
Proof. b64_at (-7)%Z 59%Z 576460752303423488%Z 5764607523034235%Z. Qed.

Lemma b64_0_45 : Py.b64 0.45 = 8106479329266893 / 18014398509481984.
Proof. b64_at (-2)%Z 54%Z 18014398509481984%Z 8106479329266893%Z. Qed.

Lemma b64_0_05 : Py.b64 0.05 = 7205759403792794 / 144115188075855872.
Proof. b64_at (-5)%Z 57%Z 144115188075855872%Z 7205759403792794%Z. Qed.

Lemma b64_0_29 : Py.b64 0.29 = 5224175567749775 / 18014398509481984.
Proof. b64_at (-2)%Z 54%Z 18014398509481984%Z 5224175567749775%Z. Qed.

Lemma b64_0_1 : Py.b64 0.1 = 7205759403792794 / 72057594037927936.
Proof. b64_at (-4)%Z 56%Z 72057594037927936%Z 7205759403792794%Z. Qed.

Lemma b64_0_5 : Py.b64 0.5 = 4503599627370496 / 9007199254740992.
Proof. b64_at (-1)%Z 53%Z 9007199254740992%Z 4503599627370496%Z. Qed.

Lemma b64_44_cents : Py.b64 (44 / 100) = 7926335344172073 / 18014398509481984.
Proof. b64_at (-2)%Z 54%Z 18014398509481984%Z 7926335344172073%Z. Qed.

Lemma b64_4_cents : Py.b64 (4 / 100) = 5764607523034235 / 144115188075855872.
Proof. b64_at (-5)%Z 57%Z 144115188075855872%Z 5764607523034235%Z. Qed.

Lemma b64_49_cents : Py.b64 (49 / 100) = 8827055269646172 / 18014398509481984.
Proof. b64_at (-2)%Z 54%Z 18014398509481984%Z 8827055269646172%Z. Qed.

Lemma b64_51_cents : Py.b64 (51 / 100) = 4593671619917906 / 9007199254740992.
Proof. b64_at (-1)%Z 53%Z 9007199254740992%Z 4593671619917906%Z. Qed.

Lemma b64_46_cents : Py.b64 (46 / 100) = 8286623314361713 / 18014398509481984.
Proof. b64_at (-2)%Z 54%Z 18014398509481984%Z 8286623314361713%Z. Qed.

Lemma b64_45_cents : Py.b64 (45 / 100) = 8106479329266893 / 18014398509481984.
Proof. b64_at (-2)%Z 54%Z 18014398509481984%Z 8106479329266893%Z. Qed.

Lemma b64_40_cents : Py.b64 (40 / 100) = 7205759403792794 / 18014398509481984.
Proof. b64_at (-2)%Z 54%Z 18014398509481984%Z 7205759403792794%Z. Qed.

Lemma b64_6_cents : Py.b64 (6 / 100) = 8646911284551352 / 144115188075855872.
Proof. b64_at (-5)%Z 57%Z 144115188075855872%Z 8646911284551352%Z. Qed.

Lemma b64_5_cents : Py.b64 (5 / 100) = 7205759403792794 / 144115188075855872.
Proof. b64_at (-5)%Z 57%Z 144115188075855872%Z 7205759403792794%Z. Qed.

(** A binary64 number is its own rounding: Python's 0.45. *)
Lemma b64_float_0_45 :
  Py.b64 (8106479329266893 / 18014398509481984)
  = 8106479329266893 / 18014398509481984.
Proof. b64_at (-2)%Z 54%Z 18014398509481984%Z 8106479329266893%Z. Qed.

(** [0.45 * 100] is 45.0 and [0.29 * 100] is 28.999999999999996. *)
Lemma b64_0_45_times_100 : Py.b64 (Py.b64 0.45 * 100) = 45.
Proof.
  rewrite b64_0_45.
  rewrite (@b64_eval _ 5 47 140737488355328 6333186975989760);
    [lra | lia | reflexivity | lia | reflexivity | abs_bounds | abs_bounds].
Qed.

Lemma b64_0_29_times_100 :
  Py.b64 (Py.b64 0.29 * 100) = 8162774324609023 / 281474976710656.
Proof.
  rewrite b64_0_29.
  b64_at 4%Z 48%Z 281474976710656%Z 8162774324609023%Z.
Qed.

(** [100 * 0.1] is 10.0 and [100 * 0.29] is 28.999999999999996. *)
Lemma b64_100_times_0_1 : Py.b64 (100 * Py.b64 0.1) = 10.
Proof.
  rewrite b64_0_1.
  rewrite (@b64_eval _ 3 49 562949953421312 5629499534213120);
    [lra | lia | reflexivity | lia | reflexivity | abs_bounds | abs_bounds].
Qed.

Lemma b64_100_times_0_29 :
  Py.b64 (100 * Py.b64 0.29) = 8162774324609023 / 281474976710656.
Proof.
  rewrite b64_0_29.
  b64_at 4%Z 48%Z 281474976710656%Z 8162774324609023%Z.
Qed.

(** The rounded differences of line 139. *)
Lemma b64_46_minus_45 :
  Py.b64 (8286623314361713 / 18014398509481984
          - 8106479329266893 / 18014398509481984)
  = 5764607523034240 / 576460752303423488.
Proof. b64_at (-7)%Z 59%Z 576460752303423488%Z 5764607523034240%Z. Qed.

Lemma b64_40_minus_45 :
  Py.b64 (7205759403792794 / 18014398509481984
          - 8106479329266893 / 18014398509481984)
  = IZR (-7205759403792792) / 144115188075855872.
Proof. b64_at (-5)%Z 57%Z 144115188075855872%Z (-7205759403792792)%Z. Qed.

Lemma b64_44_minus_45 :
  Py.b64 (7926335344172073 / 18014398509481984
          - 8106479329266893 / 18014398509481984)
  = IZR (-5764607523034240) / 576460752303423488.
Proof. b64_at (-7)%Z 59%Z 576460752303423488%Z (-5764607523034240)%Z. Qed.

Lemma b64_4_minus_5 :
  Py.b64 (5764607523034235 / 144115188075855872
          - 7205759403792794 / 144115188075855872)
  = IZR (-5764607523034236) / 576460752303423488.
Proof. b64_at (-7)%Z 59%Z 576460752303423488%Z (-5764607523034236)%Z. Qed.

Lemma b64_49_minus_50 :
  Py.b64 (8827055269646172 / 18014398509481984
          - 4503599627370496 / 9007199254740992)
  = IZR (-5764607523034240) / 576460752303423488.
Proof. b64_at (-7)%Z 59%Z 576460752303423488%Z (-5764607523034240)%Z. Qed.

Lemma b64_51_minus_50 :
  Py.b64 (4593671619917906 / 9007199254740992
          - 4503599627370496 / 9007199254740992)
  = 5764607523034240 / 576460752303423488.
Proof. b64_at (-7)%Z 59%Z 576460752303423488%Z 5764607523034240%Z. Qed.

Lemma b64_6_minus_5 :
  Py.b64 (8646911284551352 / 144115188075855872
          - 7205759403792794 / 144115188075855872)
  = 5764607523034232 / 576460752303423488.
Proof. b64_at (-7)%Z 59%Z 576460752303423488%Z 5764607523034232%Z. Qed.

(** [mag] brackets a non-zero value between two powers of two. *)
Lemma mag_spec (x : R) :
  x <> 0 -> powerRZ 2 (Py.mag x) <= Rabs x < powerRZ 2 (Py.mag x + 1).
Proof.
  intros Hx. unfold Py.mag.
  pose proof ln_2_pos as H2.
  assert (Hpos : 0 < Rabs x) by (apply Rabs_pos_lt; exact Hx).
  pose proof (Zfloor_bound (ln (Rabs x) / ln 2)) as [Hl Hu].
  set (e := Zfloor (ln (Rabs x) / ln 2)) in *.
  assert (Hmul : ln (Rabs x) / ln 2 * ln 2 = ln (Rabs x)) by (field; lra).
  assert (H1 : IZR e * ln 2 <= ln (Rabs x)).
  { rewrite <- Hmul. apply Rmult_le_compat_r; lra. }
  assert (H3 : ln (Rabs x) < IZR (e + 1) * ln 2).
  { rewrite <- Hmul, plus_IZR. apply Rmult_lt_compat_r; lra. }
  rewrite <- (exp_ln (Rabs x) Hpos) at 1 2.
  rewrite !powerRZ_Rpower by lra. unfold Rpower. split.
  - destruct H1 as [H1 | H1]; [left; apply exp_increasing; exact H1 |].
    right. rewrite H1. reflexivity.
  - apply exp_increasing. exact H3.
Qed.

Lemma round_half_even_IZR (m : Z) : round_half_even (IZR m) = m.
Proof.
  apply round_half_even_near.
  replace (IZR m - IZR m) with 0 by ring. rewrite Rabs_R0. lra.
Qed.

Lemma round_half_even_close (y : R) :
  Rabs (IZR (round_half_even y) - y) <= 1 / 2.
Proof.
  unfold round_half_even. pose proof (Zfloor_bound y) as [Hl Hu].
  destruct (Rlt_dec (y - IZR (Zfloor y)) (1 / 2)) as [H1 | H1].
  - rewrite Rabs_left1; lra.
  - assert (Hup : Rabs (IZR (Zfloor y + 1) - y) <= 1 / 2).
    { rewrite plus_IZR. rewrite Rabs_pos_eq; lra. }
    destruct (Rlt_dec (1 / 2) (y - IZR (Zfloor y))) as [H2 | H2]; [exact Hup |].
    destruct (Z.even (Zfloor y)); [| exact Hup].
    rewrite Rabs_left1; lra.
Qed.

(** Rounding keeps a value between two integers that bracket it. *)
Lemma round_half_even_between (y : R) (a b : Z) :
  IZR a <= y <= IZR b -> (a <= round_half_even y <= b)%Z.
Proof.
  intros [Ha Hb].
  pose proof (round_half_even_close y) as Hc.
  assert (Hc' : - (1 / 2) <= IZR (round_half_even y) - y <= 1 / 2)
    by (unfold Rabs in Hc; destruct (Rcase_abs _); lra).
  split.
  - assert ((a - 1 < round_half_even y)%Z)
      by (apply lt_IZR; rewrite minus_IZR; lra).
    lia.
  - assert ((round_half_even y < b + 1)%Z)
      by (apply lt_IZR; rewrite plus_IZR; lra).
    lia.
Qed.

Lemma powerRZ_2_split (a b : Z) : powerRZ 2 (a + b) = powerRZ 2 a * powerRZ 2 b.
Proof. apply powerRZ_add. lra. Qed.

Lemma powerRZ_2_small :
  powerRZ 2 0 = 1 /\ powerRZ 2 1 = 2 /\ powerRZ 2 (-1) = / 2.
Proof.
  split; [reflexivity |]. split.
  - change (powerRZ 2 1) with (2 ^ 1). ring.
  - change (powerRZ 2 (-1)) with (/ 2 ^ 1). f_equal. ring.
Qed.

Lemma powerRZ_2_le (a b : Z) : (a <= b)%Z -> powerRZ 2 a <= powerRZ 2 b.
Proof.
  intros H.
  assert (E : b = (a + (b - a))%Z) by lia. rewrite E.
  rewrite powerRZ_2_split.
  rewrite (@powerRZ_2_pos (b - a) (2 ^ (b - a))) by (try lia; reflexivity).
  assert (1 <= IZR (2 ^ (b - a))).
  { apply IZR_le. pose proof (Z.pow_pos_nonneg 2 (b - a)). lia. }
  pose proof (powerRZ_lt 2 a). nra.
Qed.

(** [b64] of an integer significand below [2^53] at an exponent that is not
    below the smallest one is that very number. *)
Lemma b64_significand (M e : Z) :
  (-1022 <= e)%Z ->
  (Z.abs M <= 9007199254740992)%Z ->
  (e = (-1022)%Z \/ (4503599627370496 <= Z.abs M)%Z) ->
  Py.b64 (IZR M * powerRZ 2 (e - 52)) = IZR M * powerRZ 2 (e - 52).
Proof.
  intros He HM Hnorm.
  set (y := IZR M * powerRZ 2 (e - 52)).
  destruct (Z.eq_dec M 0) as [HM0 | HM0].
  { unfold y. rewrite HM0. rewrite Rmult_0_l. apply b64_0. }
  assert (Hp : forall z, 0 < powerRZ 2 z) by (intros z; apply powerRZ_lt; lra).
  assert (Hy0 : y <> 0).
  { unfold y. apply Rmult_integral_contrapositive_currified.
    - intros E. apply eq_IZR_R0 in E. contradiction.
    - pose proof (Hp (e - 52)%Z). lra. }
  assert (Habs : Rabs y = IZR (Z.abs M) * powerRZ 2 (e - 52)).
  { unfold y. rewrite Rabs_mult, <- abs_IZR.
    rewrite (Rabs_pos_eq (powerRZ 2 (e - 52))) by (left; apply Hp). reflexivity. }
  assert (H52 : powerRZ 2 52 = 4503599627370496)
    by (apply powerRZ_2_pos; [lia | reflexivity]).
  assert (H53 : powerRZ 2 53 = 9007199254740992)
    by (apply powerRZ_2_pos; [lia | reflexivity]).
  assert (He52 : powerRZ 2 e = 4503599627370496 * powerRZ 2 (e - 52)).
  { rewrite <- H52, <- powerRZ_2_split. f_equal. lia. }
  assert (He53 : powerRZ 2 (e + 1) = 9007199254740992 * powerRZ 2 (e - 52)).
  { rewrite <- H53, <- powerRZ_2_split. f_equal. lia. }
  pose proof (Hp (e - 52)%Z) as Hq.
  pose proof (mag_spec Hy0) as [Hlo Hhi].
  (* the exponent [b64] uses for [y] *)
  assert (Hexp : Z.max (Py.mag y) (-1022) = e
                 \/ (Z.abs M = 9007199254740992%Z
                     /\ Z.max (Py.mag y) (-1022) = (e + 1)%Z)).
  { destruct (Z.eq_dec (Z.abs M) 9007199254740992) as [Htop | Htop].
    - right. split; [exact Htop |].
      assert (Hm : Py.mag y = (e + 1)%Z).
      { apply mag_unique. rewrite Habs, Htop, He53. split; [lra |].
        replace (e + 1 + 1)%Z with (1 + (e + 1))%Z by lia.
        rewrite powerRZ_2_split, He53.
        rewrite (proj1 (proj2 powerRZ_2_small)). lra. }
      rewrite Hm. lia.
    - left.
      assert (Hlt : IZR (Z.abs M) < 9007199254740992) by (apply IZR_lt; lia).
      destruct Hnorm as [Hsub | Hnorm].
      + (* at the smallest exponent *)
        assert (Hm : (Py.mag y <= e)%Z).
        { apply Z.lt_succ_r. apply Z.nle_gt. intros Hge.
          assert (powerRZ 2 (e + 1) <= powerRZ 2 (Py.mag y)).
          { apply powerRZ_2_le; lia. }
          rewrite Habs, He53 in *. nra. }
        lia.
      + assert (Hm : Py.mag y = e).
        { apply mag_unique. rewrite Habs, He52, He53.
          apply IZR_le in Hnorm. split; nra. }
        rewrite Hm. lia. }
  unfold Py.b64. destruct (Req_dec_T y 0) as [E | _]; [contradiction |]. cbv zeta.
  destruct Hexp as [-> | [Htop ->]].
  - replace (y * powerRZ 2 (52 - e)) with (IZR M).
    2:{ unfold y. rewrite Rmult_assoc, <- powerRZ_2_split.
        replace (e - 52 + (52 - e))%Z with 0%Z by lia.
        rewrite (proj1 powerRZ_2_small). ring. }
    rewrite round_half_even_IZR. reflexivity.
  - assert (Hhalf : exists h, M = (2 * h)%Z).
    { assert (Hc : M = 9007199254740992%Z \/ M = (-9007199254740992)%Z) by lia.
      destruct Hc as [-> | ->];
        [exists 4503599627370496%Z | exists (-4503599627370496)%Z]; reflexivity. }
    destruct Hhalf as [h Hh].
    replace (y * powerRZ 2 (52 - (e + 1))) with (IZR h).
    2:{ unfold y. rewrite Rmult_assoc, <- powerRZ_2_split.
        replace (e - 52 + (52 - (e + 1)))%Z with (-1)%Z by lia.
        rewrite Hh, mult_IZR, (proj2 (proj2 powerRZ_2_small)). field. }
    rewrite round_half_even_IZR.
    unfold y. rewrite Hh, mult_IZR.
    replace (e + 1 - 52)%Z with (1 + (e - 52))%Z by lia.
    rewrite powerRZ_2_split, (proj1 (proj2 powerRZ_2_small)). ring.
Qed.

(** A binary64 number is its own rounding. *)
Lemma b64_idempotent (x : R) : Py.b64 (Py.b64 x) = Py.b64 x.
Proof.
  destruct (Req_dec_T x 0) as [-> | Hx]; [rewrite b64_0; apply b64_0 |].
  set (e := Z.max (Py.mag x) (-1022)).
  assert (Hval : Py.b64 x
                 = IZR (round_half_even (x * powerRZ 2 (52 - e)))
                   * powerRZ 2 (e - 52)).
  { unfold Py.b64. destruct (Req_dec_T x 0) as [E | _]; [contradiction |].
    reflexivity. }
  rewrite Hval.
  assert (Hp : forall z, 0 < powerRZ 2 z) by (intros z; apply powerRZ_lt; lra).
  pose proof (mag_spec Hx) as [Hlo Hhi].
  assert (H52 : powerRZ 2 52 = 4503599627370496)
    by (apply powerRZ_2_pos; [lia | reflexivity]).
  assert (H53 : powerRZ 2 53 = 9007199254740992)
    by (apply powerRZ_2_pos; [lia | reflexivity]).
  set (s := x * powerRZ 2 (52 - e)).
  assert (Hs : Rabs s = Rabs x * powerRZ 2 (52 - e)).
  { unfold s. rewrite Rabs_mult.
    rewrite (Rabs_pos_eq (powerRZ 2 (52 - e))) by (left; apply Hp). reflexivity. }
  assert (Hupper : Rabs s <= 9007199254740992).
  { rewrite Hs, <- H53.
    replace 53%Z with (e + 1 + (52 - e))%Z by lia. rewrite powerRZ_2_split.
    apply Rmult_le_compat_r; [left; apply Hp |].
    apply Rle_trans with (powerRZ 2 (Py.mag x + 1)); [lra |].
    apply powerRZ_2_le; unfold e; lia. }
  assert (HM : (Z.abs (round_half_even s) <= 9007199254740992)%Z).
  { assert (Hb : (-9007199254740992 <= round_half_even s <= 9007199254740992)%Z).
    { apply round_half_even_between.
      unfold Rabs in Hupper. destruct (Rcase_abs s); split; lra. }
    lia. }
  apply b64_significand; [unfold e; lia | exact HM |].
  destruct (Z_le_gt_dec (Py.mag x) (-1022)) as [Hsub | Hnorm].
  - left. unfold e. lia.
  - right.
    assert (He : e = Py.mag x) by (unfold e; lia).
    assert (Hlower : 4503599627370496 <= Rabs s).
    { rewrite Hs, <- H52.
      replace 52%Z with (e + (52 - e))%Z at 1 by lia. rewrite powerRZ_2_split.
      apply Rmult_le_compat_r; [left; apply Hp |]. rewrite He. exact Hlo. }
    unfold Rabs in Hlower. destruct (Rcase_abs s) as [Hneg | Hnonneg].
    + assert (Hb : (-9007199254740992 <= round_half_even s <= -4503599627370496)%Z).
      { apply round_half_even_between. unfold Rabs in Hupper.
        destruct (Rcase_abs s); split; lra. }
      lia.
    + assert (Hb : (4503599627370496 <= round_half_even s <= 9007199254740992)%Z).
      { apply round_half_even_between. unfold Rabs in Hupper.
        destruct (Rcase_abs s); split; lra. }
      lia.
Qed.

(** ** The quoting engine *)

Section QuoteEngineFacts.

Variable self : params.

Hypothesis max_position_nonzero : max_position self <> 0%Z.

Lemma max_position_real : IZR (max_position self) <> 0.
Proof. intros E. apply eq_IZR_R0 in E. contradiction. Qed.

Lemma dynamic_gamma_returns (inventory : Z) :
  calculate_dynamic_gamma self inventory
  = Ret (base_gamma self
         * exp (- Rabs (IZR inventory / IZR (max_position self)))).
Proof.
  unfold calculate_dynamic_gamma. rewrite div_ret by exact max_position_real.
  reflexivity.
Qed.

Hypothesis horizon_nonzero : T self <> 0.
Hypothesis gamma_positive : 0 < base_gamma self.
Hypothesis k_positive : 0 < k self.

Lemma dynamic_gamma_positive (inventory : Z) :
  0 < base_gamma self * exp (- Rabs (IZR inventory / IZR (max_position self))).
Proof. apply Rmult_lt_0_compat; [exact gamma_positive | apply exp_pos]. Qed.

(** Under these parameters [calculate_optimal_spread] returns, and what it
    returns is the floored expression of line 93. *)
Lemma optimal_spread_returns (t : R) (inventory : Z) :
  exists base_spread,
    calculate_optimal_spread self t inventory
    = Ret (Py.max (base_spread
                   * (1 - (IZR (Z.abs inventory) / IZR (max_position self)) ^ 2)
                   * 0.01)
                  (min_spread self)).
Proof.
  unfold calculate_optimal_spread.
  rewrite dynamic_gamma_returns. cbn [Py.bind].
  pose proof (dynamic_gamma_positive inventory) as Hg.
  set (g := base_gamma self * exp (- Rabs (IZR inventory / IZR (max_position self)))) in *.
  rewrite (div_ret t horizon_nonzero). cbn [Py.bind].
  rewrite (div_ret 2) by lra. cbn [Py.bind].
  rewrite (div_ret g) by lra. cbn [Py.bind].
  rewrite log_ret.
  2:{ assert (0 < g / k self) by (apply Rdiv_lt_0_compat; lra). lra. }
  cbn [Py.bind].
  rewrite div_ret by exact max_position_real. cbn [Py.bind].
  eexists. reflexivity.
Qed.

Lemma reservation_price_returns (mid_price : R) (inventory : Z) (t : R) :
  exists r, calculate_reservation_price self mid_price inventory t = Ret r.
Proof.
  unfold calculate_reservation_price.
  rewrite dynamic_gamma_returns. cbn [Py.bind].
  rewrite (div_ret t horizon_nonzero). cbn [Py.bind].
  eexists. reflexivity.
Qed.

Lemma asymmetric_spreads_returns (mid_price : R) (inventory : Z) (t : R) :
  exists locals, asymmetric_spreads self mid_price inventory t = Ret locals.
Proof.
  unfold asymmetric_spreads.
  destruct (reservation_price_returns mid_price inventory t) as [r ->].
  destruct (optimal_spread_returns t inventory) as [b ->].
  cbn [Py.bind]. rewrite div_ret by exact max_position_real. cbn [Py.bind].
  destruct (0 <? inventory)%Z; eexists; reflexivity.
Qed.

End QuoteEngineFacts.

(** The clamps of lines 77-78 keep the quote around the mid price. *)
Lemma bid_clamp (mid_price x : R) :
  0 <= mid_price -> 0 <= Py.max 0 (Py.min mid_price x) <= mid_price.
Proof.
  intros Hm. split.
  - apply max_lower_l.
  - apply max_upper; [exact Hm | apply min_upper_l].
Qed.

Lemma ask_clamp (mid_price y : R) :
  mid_price <= 1 -> mid_price <= Py.min 1 (Py.max mid_price y) <= 1.
Proof.
  intros Hm. split.
  - apply min_lower; [exact Hm | apply max_lower_l].
  - apply min_upper_l.
Qed.

(** What a returned spread tells about the parameters. *)
Lemma optimal_spread_inv (self : params) (t : R) (inventory : Z) (s : R) :
  calculate_optimal_spread self t inventory = Ret s ->
  IZR (max_position self) <> 0 /\ T self <> 0 /\ min_spread self <= s.
Proof.
  unfold calculate_optimal_spread, calculate_dynamic_gamma.
  unfold Py.div at 1.
  destruct (Req_dec_T (IZR (max_position self)) 0) as [E | Hm]; [discriminate |].
  cbn [Py.bind]. unfold Py.div at 1.
  destruct (Req_dec_T (T self) 0) as [E | Ht]; [discriminate |].
  cbn [Py.bind].
  destruct (Py.div 2 _) as [a |]; [| discriminate]. cbn [Py.bind].
  destruct (Py.div _ (k self)) as [b |]; [| discriminate]. cbn [Py.bind].
  destruct (Py.log _) as [c |]; [| discriminate]. cbn [Py.bind].
  destruct (Py.div _ _) as [d |]; [| discriminate]. cbn [Py.bind].
  intros H. injection H as <-.
  repeat split; try assumption. apply max_lower_r.
Qed.

(** C5. For a mid price in [0,1], an inventory within the position limit and
    an elapsed time in [0,T], with [max_position >= 1], [T > 0], [gamma > 0],
    [k > 0] and [min_spread > 0], [calculate_asymmetric_quotes] returns a bid
    and an ask with [bid <= mid_price <= ask], both in [0,1]. *)
Theorem quotes_bracket_mid (self : params) (mid_price : R) (inventory : Z) (t : R) :
  0 <= mid_price <= 1 ->
  (- max_position self <= inventory <= max_position self)%Z ->
  0 <= t <= T self ->
  (1 <= max_position self)%Z ->
  0 < T self ->
  0 < base_gamma self ->
  0 < k self ->
  0 < min_spread self ->
  exists bid ask,
    calculate_asymmetric_quotes self mid_price inventory t = Ret (bid, ask)
    /\ bid <= mid_price <= ask
    /\ 0 <= bid <= 1
    /\ 0 <= ask <= 1.
Proof.
  intros Hmid _ _ Hmax HT Hg Hk _.
  assert (Hm : max_position self <> 0%Z) by lia.
  assert (HT' : T self <> 0) by lra.
  destruct (@asymmetric_spreads_returns self Hm HT' Hg Hk mid_price inventory t)
    as [[[r bs] asp] E].
  unfold calculate_asymmetric_quotes. rewrite E. cbn [Py.bind].
  do 2 eexists. split; [reflexivity |].
  pose proof (bid_clamp (r - bs) (proj1 Hmid)) as Hb.
  pose proof (ask_clamp (r + asp) (proj2 Hmid)) as Ha.
  lra.
Qed.

Lemma quotes_bracket_mid_scenario :
  exists bid ask,
    calculate_asymmetric_quotes scenario_params 0.5 0 0 = Ret (bid, ask)
    /\ bid <= 0.5 <= ask
    /\ 0 <= bid <= 1
    /\ 0 <= ask <= 1.
Proof.
  apply (@quotes_bracket_mid scenario_params 0.5 0%Z 0); cbn; try lra; lia.
Defined.

(** C6, amended. For an elapsed time in [0,T] and an inventory within the
    position limit, with [gamma > 0], [k > 0], [max_position >= 1],
    [min_spread > 0] and a horizon [T > 0], [calculate_optimal_spread]
    returns a spread that is at least [min_spread]. *)
Theorem optimal_spread_floor (self : params) (t : R) (inventory : Z) :
  0 <= t <= T self ->
  (- max_position self <= inventory <= max_position self)%Z ->
  0 < base_gamma self ->
  0 < k self ->
  (1 <= max_position self)%Z ->
  0 < min_spread self ->
  0 < T self ->
  exists s,
    calculate_optimal_spread self t inventory = Ret s /\ min_spread self <= s.
Proof.
  intros _ _ Hg Hk Hmax _ HT.
  assert (Hm : max_position self <> 0%Z) by lia.
  assert (HT' : T self <> 0) by lra.
  destruct (@optimal_spread_returns self Hm HT' Hg Hk t inventory) as [b E].
  eexists. split; [exact E |]. apply max_lower_r.
Qed.

Lemma optimal_spread_floor_scenario :
  exists s,
    calculate_optimal_spread scenario_params 30 (-40) = Ret s
    /\ min_spread scenario_params <= s.
Proof.
  apply (@optimal_spread_floor scenario_params 30 (-40)%Z); cbn; try lra; lia.
Defined.

(** C6, as stated, fails at a zero horizon: with [T = 0] the only elapsed
    time in [0,T] is [0], every listed condition holds, and [t / self.T]
    raises [ZeroDivisionError]. *)
Lemma optimal_spread_zero_horizon :
  0 <= 0 <= T zero_horizon_params
  /\ (- max_position zero_horizon_params <= 0 <= max_position zero_horizon_params)%Z
  /\ 0 < base_gamma zero_horizon_params
  /\ 0 < k zero_horizon_params
  /\ (1 <= max_position zero_horizon_params)%Z
  /\ 0 < min_spread zero_horizon_params
  /\ calculate_optimal_spread zero_horizon_params 0 0 = Raise ZeroDivisionError.
Proof.
  cbn [zero_horizon_params T max_position base_gamma k min_spread].
  repeat split; try lra; try lia.
  unfold calculate_optimal_spread, calculate_dynamic_gamma.
  cbn [zero_horizon_params T max_position base_gamma k min_spread sigma].
  rewrite div_ret by lra. cbn [Py.bind].
  rewrite div_zero. reflexivity.
Qed.

(** C10, amended. With [gamma > 0], [k > 0], [min_spread > 0],
    [max_position >= 1] and a horizon [T > 0], for an elapsed time in [0,T]
    and [|inventory| = max_position], [calculate_optimal_spread] returns
    exactly [min_spread]. *)
Theorem optimal_spread_at_limit (self : params) (t : R) (inventory : Z) :
  0 <= t <= T self ->
  0 < base_gamma self ->
  0 < k self ->
  0 < min_spread self ->
  (1 <= max_position self)%Z ->
  Z.abs inventory = max_position self ->
  0 < T self ->
  calculate_optimal_spread self t inventory = Ret (min_spread self).
Proof.
  intros _ Hg Hk Hs Hmax Habs HT.
  assert (Hm : max_position self <> 0%Z) by lia.
  assert (HT' : T self <> 0) by lra.
  destruct (@optimal_spread_returns self Hm HT' Hg Hk t inventory) as [b E].
  rewrite E. f_equal.
  rewrite Habs.
  replace (IZR (max_position self) / IZR (max_position self)) with 1
    by (field; apply (@max_position_real self Hm)).
  replace (b * (1 - 1 ^ 2) * 0.01) with 0 by ring.
  apply max_right. exact Hs.
Qed.

Lemma optimal_spread_at_limit_scenario :
  calculate_optimal_spread scenario_params 30 (-100)
  = Ret (min_spread scenario_params).
Proof.
  apply (@optimal_spread_at_limit scenario_params 30 (-100)%Z); cbn; try lra; lia.
Defined.

(** C10, as stated, fails at a zero horizon: [|inventory| = max_position],
    every listed condition holds, and the call raises [ZeroDivisionError]
    instead of returning [min_spread]. *)
Lemma optimal_spread_at_limit_zero_horizon :
  0 <= 0 <= T zero_horizon_params
  /\ 0 < base_gamma zero_horizon_params
  /\ 0 < k zero_horizon_params
  /\ 0 < min_spread zero_horizon_params
  /\ (1 <= max_position zero_horizon_params)%Z
  /\ Z.abs 100 = max_position zero_horizon_params
  /\ calculate_optimal_spread zero_horizon_params 0 100 = Raise ZeroDivisionError.
Proof.
  cbn [zero_horizon_params T max_position base_gamma k min_spread].
  repeat split; try lra; try lia.
  unfold calculate_optimal_spread, calculate_dynamic_gamma.
  cbn [zero_horizon_params T max_position base_gamma k min_spread sigma].
  rewrite div_ret by lra. cbn [Py.bind].
  rewrite div_zero. reflexivity.
Qed.

Lemma scenario_spread_returned :
  calculate_optimal_spread scenario_params 0 0 = Ret scenario_spread.
Proof.
  assert (Hg : 0 < scenario_gamma).
  { unfold scenario_gamma. apply Rmult_lt_0_compat; [lra | apply exp_pos]. }
  unfold calculate_optimal_spread, calculate_dynamic_gamma.
  cbn [scenario_params T max_position base_gamma k min_spread sigma Z.abs].
  rewrite div_ret by lra. cbn [Py.bind]. fold scenario_gamma.
  rewrite div_ret by lra. cbn [Py.bind].
  rewrite div_ret by lra. cbn [Py.bind].
  rewrite div_ret by lra. cbn [Py.bind].
  rewrite log_ret.
  2:{ assert (0 < scenario_gamma / 1.5) by (apply Rdiv_lt_0_compat; lra). lra. }
  cbn [Py.bind].
  reflexivity.
Qed.

(** With no skew the floored half-spread is the plain half. *)
Lemma flat_half_spread (s floor : R) :
  floor <= s -> Py.max (s / 2 - s * 0 * 3) (floor / 2) = s / 2.
Proof.
  intros Hs. replace (s / 2 - s * 0 * 3) with (s / 2) by ring.
  apply max_left. lra.
Qed.

(** Lines 64-75 in the scenario. *)
Lemma scenario_spreads :
  asymmetric_spreads scenario_params 0.5 0 0
  = Ret (0.5, scenario_spread / 2, scenario_spread / 2).
Proof.
  assert (Hs : 0.01 <= scenario_spread) by (unfold scenario_spread; apply max_lower_r).
  unfold asymmetric_spreads, calculate_reservation_price, calculate_dynamic_gamma.
  rewrite scenario_spread_returned.
  cbn [scenario_params T max_position base_gamma sigma min_spread
       inventory_skew_factor].
  rewrite (@div_ret 0 100) by lra. cbn [Py.bind].
  rewrite (@div_ret 0 60) by lra. cbn [Py.bind].
  replace (0 <? 0)%Z with false by reflexivity.
  replace (0 / 100) with 0 by lra. rewrite Rabs_R0.
  rewrite (flat_half_spread Hs).
  f_equal. f_equal; [f_equal |]; lra.
Qed.

(** C9. With a flat inventory the two half-spreads that
    [calculate_asymmetric_quotes] computes before clamping are both half of
    what [calculate_optimal_spread(t, 0)] returns, around a reservation price
    equal to the mid price; this holds for every mid price and every elapsed
    time. *)
Theorem flat_inventory_symmetric (self : params) (mid_price t s : R) :
  calculate_optimal_spread self t 0 = Ret s ->
  asymmetric_spreads self mid_price 0 t = Ret (mid_price, s / 2, s / 2).
Proof.
  intros H. destruct (optimal_spread_inv _ _ _ H) as (Hm & HT & Hs).
  unfold asymmetric_spreads, calculate_reservation_price, calculate_dynamic_gamma.
  rewrite H.
  rewrite (div_ret 0 Hm). cbn [Py.bind].
  rewrite (div_ret t HT). cbn [Py.bind].
  replace (0 <? 0)%Z with false by reflexivity.
  replace (0 / IZR (max_position self)) with 0 by (field; exact Hm).
  rewrite Rabs_R0.
  rewrite (flat_half_spread Hs).
  replace (s / 2 + s * 0 * 3) with (s / 2) by ring.
  f_equal. f_equal. f_equal. ring.
Qed.

Lemma flat_inventory_symmetric_scenario :
  asymmetric_spreads scenario_params 0.5 0 0
  = Ret (0.5, scenario_spread / 2, scenario_spread / 2).
Proof.
  apply (@flat_inventory_symmetric scenario_params 0.5 0 scenario_spread).
  exact scenario_spread_returned.
Defined.

Lemma scenario_order_sizes :
  calculate_order_sizes scenario_params 0 = (100, 10)%Z.
Proof.
  unfold calculate_order_sizes.
  cbn [scenario_params max_position position_limit_buffer].
  rewrite (@b64_nat_exact 100) by lia.
  rewrite b64_100_times_0_1.
  rewrite (@int_of_Z 10 10) by (try lia; lra).
  reflexivity.
Qed.

(** With a buffer of 0.29 the product of line 101 is 28.999999999999996 and
    the buffer size 28. *)
Lemma buffer_size_truncated :
  Py.int (Py.b64 (Py.b64 100 * Py.b64 0.29)) = 28%Z.
Proof.
  rewrite (@b64_nat_exact 100) by lia.
  rewrite b64_100_times_0_29.
  apply int_of_Z; [lia | lra].
Qed.

(** C3, amended. In the scenario ([mid_yes = 0.50], flat inventory, [t = 0],
    [T = 60], [gamma = 0.1], [k = 1.5], [sigma = 0.02], [max_position = 100],
    [min_spread = 0.01], default buffer and skew) the quote satisfies
    [bid < 0.50 < ask], and [calculate_order_sizes(0)] returns
    [buy_size = max_position = 100] and [sell_size = 10], the position
    buffer [int(max_position * position_limit_buffer)]. *)
Theorem scenario_quote_and_sizes :
  exists bid ask,
    calculate_asymmetric_quotes scenario_params 0.5 0 0 = Ret (bid, ask)
    /\ bid < 0.5 < ask
    /\ calculate_order_sizes scenario_params 0
       = (max_position scenario_params, 10%Z)
    /\ Py.int (IZR (max_position scenario_params)
               * position_limit_buffer scenario_params) = 10%Z.
Proof.
  unfold calculate_asymmetric_quotes.
  rewrite scenario_spreads.
  cbn [Py.bind].
  assert (Hs : 0.01 <= scenario_spread) by (unfold scenario_spread; apply max_lower_r).
  do 2 eexists. split; [reflexivity |].
  repeat split.
  - unfold Py.max, Py.min.
    destruct (Rlt_dec (0.5 - scenario_spread / 2) 0.5);
      destruct (Rlt_dec 0 _); lra.
  - unfold Py.max, Py.min.
    destruct (Rlt_dec 0.5 (0.5 + scenario_spread / 2)); [| lra].
    destruct (Rlt_dec _ 1); lra.
  - exact scenario_order_sizes.
  - cbn [scenario_params max_position position_limit_buffer].
    apply int_of_Z; [lia | lra].
Qed.

(** C3, as stated, fails on the sizes: at a flat inventory the sell size is
    the position buffer, 10, not [max_position]. *)
Lemma scenario_sell_size_is_buffer :
  ~ (fst (calculate_order_sizes scenario_params 0)
     = snd (calculate_order_sizes scenario_params 0)
     /\ snd (calculate_order_sizes scenario_params 0)
        = max_position scenario_params).
Proof.
  rewrite scenario_order_sizes. cbn. intros [H _]. discriminate H.
Qed.

(** ** The venue client *)

Lemma split_head_no_sep (sep : ascii) (s : string) :
  ~ In sep (list_ascii_of_string (split_head sep s)).
Proof.
  induction s as [| c s IH]; cbn; [tauto |].
  destruct (Ascii.eqb_spec c sep) as [E | N]; cbn; [tauto |].
  intros [H | H]; [contradiction | exact (IH H)].
Qed.

Lemma split_head_prefix (sep : ascii) (s : string) :
  s = split_head sep s
  \/ exists rest, s = (split_head sep s ++ String sep rest)%string.
Proof.
  induction s as [| c s IH]; cbn; [left; reflexivity |].
  destruct (Ascii.eqb_spec c sep) as [E | N].
  - right. exists s. subst c. reflexivity.
  - destruct IH as [IH | [rest IH]].
    + left. congruence.
    + right. exists rest. cbn. congruence.
Qed.

(** [_get_signed_headers] hands [_sign_pss_text] the message [msg_string]
    built from the clock's milliseconds, the method and the path. *)
Lemma signed_headers_message (W : Type) (clock : W -> R)
  (sign : string -> W -> result string) (self : client)
  (method path : string) (w : W) :
  _get_signed_headers clock sign self method path w
  = (let timestamp_str := Py.str (Py.int (clock w * 1000)) in
     match sign (msg_string timestamp_str method path) w with
     | Ret sig =>
         Ret [("KALSHI-ACCESS-KEY", api_key_id self);
              ("KALSHI-ACCESS-SIGNATURE", sig);
              ("KALSHI-ACCESS-TIMESTAMP", timestamp_str)]%string
     | Raise e => Raise e
     end, w).
Proof.
  unfold _get_signed_headers, io_bind, io_lift, io_ret. cbn zeta.
  destruct (sign _ w); reflexivity.
Qed.

(** C7. The signed message is the timestamp string, the method and the path
    up to its first question mark, concatenated: the kept part contains no
    question mark, and the path is either that part alone or that part
    followed by a question mark and a query.  For timestamp
    1700000000000, method GET and path
    /trade-api/v2/portfolio/balance?x=1 the message is
    1700000000000GET/trade-api/v2/portfolio/balance. *)
Theorem signed_message_strips_query :
  (forall timestamp_str method path : string,
     exists path_without_query : string,
       msg_string timestamp_str method path
       = (timestamp_str ++ method ++ path_without_query)%string
       /\ ~ In "?"%char (list_ascii_of_string path_without_query)
       /\ (path = path_without_query
           \/ exists query,
                path = (path_without_query ++ String "?" query)%string))
  /\ msg_string "1700000000000" "GET" "/trade-api/v2/portfolio/balance?x=1"
     = "1700000000000GET/trade-api/v2/portfolio/balance"%string.
Proof.
  split; [| reflexivity].
  intros timestamp_str method path. exists (split_head "?" path).
  split; [reflexivity |]. split.
  - apply split_head_no_sep.
  - apply split_head_prefix.
Qed.

(** The payload when the arguments arrive in the order [place_order]
    itself declares ([count] before [price]). *)
Lemma place_order_payload_own_order (self : client) :
  place_order_payload self "BUY" "yes" (PInt 10) (PFloat 0.45) None
  = [("ticker", JStr (market_ticker self));
     ("action", JStr "buy");
     ("side", JStr "yes");
     ("count", JNum (PInt 10));
     ("type", JStr "limit");
     ("yes_price", JNum (PInt 45))]%string.
Proof.
  unfold place_order_payload. cbn [Py.num_times_100 Py.num_int].
  rewrite b64_0_45_times_100.
  rewrite (@int_of_Z 45 45) by (try lia; lra).
  reflexivity.
Qed.

(** C1, on the code. The call [place_order('buy', 'yes', 0.45, 10)] made
    through the interface (price third, quantity fourth) reaches the venue
    client with [count = 0.45] and [price = 10]: the one request sent is a
    POST whose payload has [count = 0.45] and [yes_price = 1000], beside
    [action = 'buy'] and [type = 'limit']. *)
Theorem interface_place_order_payload :
  map (fun rq => (method rq, json rq))
      (snd (place_order recording_api "buy" "yes" (PFloat 0.45) (PInt 10) None []))
  = [("POST"%string,
      Some [("ticker", JStr "KXDEMO");
            ("action", JStr "buy");
            ("side", JStr "yes");
            ("count", JNum (PFloat 0.45));
            ("type", JStr "limit");
            ("yes_price", JNum (PInt 1000))]%string)].
Proof. reflexivity. Qed.

(** ** The order reconciler *)

Section ReconcilerFacts.

Variable W : Type.
Variable clock : W -> R.
Variable api : AbstractTradingAPI W.
Variable self : params.

Lemma call_step (A : Type) (c : api_call) (m : io W A) (st : state W)
  (r : result A) (w' : W) :
  m (world st) = (r, w') ->
  call c m st = (r, {| calls := calls st ++ [c]; world := w' |}).
Proof. intros E. unfold call. rewrite E. reflexivity. Qed.

Lemma issued_app (A : Type) (m : io (state W) A) (st : state W) (new : list api_call) :
  calls (snd (m st)) = calls st ++ new -> issued m st = new.
Proof.
  intros E. unfold issued. rewrite E.
  rewrite skipn_app, skipn_all, Nat.sub_diag. reflexivity.
Qed.

Variable desired_price : R.
Variable desired_size : Z.

Abbreviation scan := (scan_orders api self).
Abbreviation kept_of := (kept self desired_price desired_size).
Abbreviation extraneous_of := (extraneous self desired_price desired_size).

(** The loop cancels the extraneous orders in list order; it returns the
    kept order once all of them are cancelled, and stops at the first
    [cancel_order] that raises. *)
Lemma scan_orders_spec (orders : list order) :
  forall (keep_order : option order) (st : state W),
    match scan orders desired_price desired_size keep_order st with
    | (Ret k, st') =>
        k = kept_of keep_order orders
        /\ calls st' = calls st ++ map cancel_of (extraneous_of keep_order orders)
    | (Raise e, st') =>
        exists n,
          (n < length (extraneous_of keep_order orders))%nat
          /\ calls st'
             = calls st
               ++ map cancel_of (firstn (S n) (extraneous_of keep_order orders))
    end.
Proof.
  assert (Hcancel :
    forall order rest keep,
      (forall keep_order st,
         match scan rest desired_price desired_size keep_order st with
         | (Ret k, st') =>
             k = kept_of keep_order rest
             /\ calls st' = calls st ++ map cancel_of (extraneous_of keep_order rest)
         | (Raise e, st') =>
             exists n,
               (n < length (extraneous_of keep_order rest))%nat
               /\ calls st'
                  = calls st
                    ++ map cancel_of (firstn (S n) (extraneous_of keep_order rest))
         end) ->
      forall st,
        match (io_bind (call (CancelOrder (order_id order))
                             (cancel_order api (order_id order)))
                       (fun _ => scan rest desired_price desired_size keep)) st with
        | (Ret k, st') =>
            k = kept_of keep rest
            /\ calls st' = calls st ++ map cancel_of (order :: extraneous_of keep rest)
        | (Raise e, st') =>
            exists n,
              (n < length (order :: extraneous_of keep rest))%nat
              /\ calls st'
                 = calls st
                   ++ map cancel_of (firstn (S n) (order :: extraneous_of keep rest))
        end).
  { intros order rest keep IH st. unfold io_bind.
    destruct (cancel_order api (order_id order) (world st)) as [r w'] eqn:E.
    rewrite (call_step _ _ _ E).
    destruct r as [b | e].
    - specialize (IH keep {| calls := calls st ++ [CancelOrder (order_id order)];
                             world := w' |}).
      destruct (scan rest desired_price desired_size keep _) as [[k | e] st'].
      + destruct IH as [-> ->]. cbn [calls]. split; [reflexivity |].
        rewrite <- app_assoc. reflexivity.
      + destruct IH as (n & Hn & ->). exists (S n). cbn [calls length]. split; [lia |].
        rewrite <- app_assoc. reflexivity.
    - exists 0%nat. cbn [calls length]. split; [lia | reflexivity]. }
  induction orders as [| order rest IH]; intros keep_order st.
  - cbn. split; [reflexivity | now rewrite app_nil_r].
  - cbn [scan_orders kept extraneous].
    destruct keep_order as [o |].
    + apply Hcancel. exact IH.
    + destruct (matches self desired_price desired_size order).
      * apply IH.
      * apply Hcancel. exact IH.
Qed.

Variable action : string.

Abbreviation handle :=
  (handle_order_side clock api self action).

(** [handle_order_side], step by step: the loop, the price fetched again,
    then the placement under the condition of line 148. *)
Lemma handle_order_side_spec (orders : list order) (st : state W) :
  match scan orders desired_price desired_size None st with
  | (Raise e, st1) => handle orders desired_price desired_size st = (Raise e, st1)
  | (Ret keep_order, st1) =>
      match refetched api st1 with
      | (Raise e, st2) => handle orders desired_price desired_size st = (Raise e, st2)
      | (Ret mid_prices, st2) =>
          match subscript mid_prices (trade_side self) with
          | Raise e => handle orders desired_price desired_size st = (Raise e, st2)
          | Ret current_price =>
              match keep_order with
              | Some _ => handle orders desired_price desired_size st = (Ret tt, st2)
              | None =>
                  if improves action desired_price current_price
                  then
                    exists w3,
                      handle orders desired_price desired_size st
                      = (Ret tt,
                         {| calls :=
                              calls st2
                              ++ [PlaceOrder action (trade_side self)
                                    (PFloat desired_price) (PInt desired_size)
                                    (Some (Py.int (clock (world st2))
                                           + order_expiration self)%Z)];
                            world := w3 |})
                  else handle orders desired_price desired_size st = (Ret tt, st2)
              end
          end
      end
  end.
Proof.
  unfold handle_order_side, io_bind, refetched.
  destruct (scan orders desired_price desired_size None st) as [[keep_order | e] st1];
    [| reflexivity].
  destruct (get_price api (world st1)) as [r2 w2] eqn:E2.
  rewrite (call_step _ _ _ E2).
  destruct r2 as [mid_prices | e]; [| reflexivity].
  unfold io_lift.
  destruct (subscript mid_prices (trade_side self)) as [current_price | e];
    [| reflexivity].
  destruct keep_order as [o |]; [reflexivity |].
  destruct (improves action desired_price current_price); [| reflexivity].
  unfold try_except, io_bind. cbn [world].
  destruct (place_order api action (trade_side self) (PFloat desired_price)
              (PInt desired_size)
              (Some (Py.int (clock w2) + order_expiration self)%Z) w2)
    as [r3 w3] eqn:E3.
  match goal with
  | |- context [call ?c ?m ?s] => rewrite (@call_step _ c m s r3 w3 E3)
  end.
  exists w3. destruct r3; reflexivity.
Qed.

(** The calls of one pass: the cancels, the price fetch and, last, at most
    one placement, which needs an empty keep, a price on the traded side and
    the condition of line 148. *)
Lemma handle_order_side_issued (orders : list order) (st : state W) :
  let ext := extraneous_of None orders in
  let new := issued (handle orders desired_price desired_size) st in
  (exists n e st1,
      (n < length ext)%nat
      /\ scan orders desired_price desired_size None st = (Raise e, st1)
      /\ new = map cancel_of (firstn (S n) ext))
  \/ (exists st1,
        scan orders desired_price desired_size None st
        = (Ret (kept_of None orders), st1)
        /\ (new = map cancel_of ext ++ [GetPrice]
            \/ (kept_of None orders = None
                /\ exists mid_prices st2 current_price,
                     refetched api st1 = (Ret mid_prices, st2)
                     /\ subscript mid_prices (trade_side self) = Ret current_price
                     /\ improves action desired_price current_price = true
                     /\ new
                        = map cancel_of ext
                          ++ [GetPrice;
                              PlaceOrder action (trade_side self)
                                (PFloat desired_price) (PInt desired_size)
                                (Some (Py.int (clock (world st2))
                                       + order_expiration self)%Z)]))).
Proof.
  cbn zeta.
  pose proof (handle_order_side_spec orders st) as H.
  pose proof (scan_orders_spec orders None st) as Hs.
  destruct (scan orders desired_price desired_size None st) as [[keep_order | e] st1].
  - destruct Hs as [-> Hc]. right. exists st1. split; [reflexivity |].
    assert (Hr : calls (snd (refetched api st1)) = calls st1 ++ [GetPrice]).
    { unfold refetched. destruct (get_price api (world st1)). reflexivity. }
    destruct (refetched api st1) as [[mid_prices | e] st2] eqn:E2; cbn [snd] in Hr.
    + destruct (subscript mid_prices (trade_side self)) as [current_price | e] eqn:E3.
      * destruct (kept_of None orders) as [o |] eqn:Ek.
        -- left. apply issued_app. rewrite H. cbn [snd]. rewrite Hr, Hc.
           now rewrite <- app_assoc.
        -- destruct (improves action desired_price current_price) eqn:Ei.
           ++ right. split; [reflexivity |].
              exists mid_prices, st2, current_price.
              repeat split; try assumption.
              destruct H as [w3 H]. apply issued_app. rewrite H. cbn [snd calls].
              rewrite Hr, Hc. now rewrite <- !app_assoc.
           ++ left. apply issued_app. rewrite H. cbn [snd]. rewrite Hr, Hc.
              now rewrite <- app_assoc.
      * left. apply issued_app. rewrite H. cbn [snd]. rewrite Hr, Hc.
        now rewrite <- app_assoc.
    + left. apply issued_app. rewrite H. cbn [snd]. rewrite Hr, Hc.
      now rewrite <- app_assoc.
  - destruct Hs as (n & Hn & Hc). left. exists n, e, st1.
    repeat split; try assumption.
    apply issued_app. rewrite H. exact Hc.
Qed.

End ReconcilerFacts.

Lemma improves_iff (action : string) (desired_price current_price : R) :
  improves action desired_price current_price = true
  <-> (action = "buy"%string /\ desired_price < current_price)
      \/ (action = "sell"%string /\ current_price < desired_price).
Proof.
  unfold improves.
  destruct (String.eqb_spec action "buy") as [Eb | Nb];
    destruct (String.eqb_spec action "sell") as [Es | Ns];
    destruct (Rlt_dec desired_price current_price);
    destruct (Rlt_dec current_price desired_price);
    cbn; split; intros H; try discriminate H; try tauto;
    try (destruct H as [[H _] | [H _]]; congruence);
    try (destruct H as [[_ H] | [H _]]; solve [contradiction | congruence]);
    try (destruct H as [[H _] | [_ H]]; solve [contradiction | congruence]).
Qed.

(** The test of line 139 as a proposition: the rounded difference of the
    two floats is below the float nearest to 0.01, and the sizes agree. *)
Lemma matches_iff (self : params) (desired_price : R) (desired_size : Z) (order : order) :
  matches self desired_price desired_size order = true
  <-> Rabs (Py.b64 (order_price self order - Py.b64 desired_price)) < Py.b64 0.01
      /\ remaining_count order = desired_size.
Proof.
  unfold matches, within_cent.
  destruct (Rlt_dec (Rabs (Py.b64 (order_price self order - Py.b64 desired_price)))
                    (Py.b64 0.01));
    destruct (Z.eqb_spec (remaining_count order) desired_size);
    cbn; split; intros H; try discriminate H; tauto.
Qed.

Lemma cancel_of_not_place (l : list order) (c : api_call) :
  In c (map cancel_of l) -> is_place c = false.
Proof.
  intros H. apply in_map_iff in H. destruct H as (o & <- & _). reflexivity.
Qed.

Lemma first_match_kept (self : params) (desired_price : R) (desired_size : Z)
  (pre post : list order) (o : order) :
  Forall (fun x => matches self desired_price desired_size x = false) pre ->
  matches self desired_price desired_size o = true ->
  kept self desired_price desired_size None (pre ++ o :: post) = Some o
  /\ extraneous self desired_price desired_size None (pre ++ o :: post) = pre ++ post.
Proof.
  intros Hpre Ho.
  assert (Hk : forall l, kept self desired_price desired_size (Some o) l = Some o)
    by (induction l; [reflexivity | exact IHl]).
  assert (He : forall l, extraneous self desired_price desired_size (Some o) l = l)
    by (induction l; [reflexivity | cbn; now f_equal]).
  induction Hpre as [| x pre Hx _ IH]; cbn [app kept extraneous].
  - rewrite Ho. split; [apply Hk | apply He].
  - rewrite Hx. destruct IH as [-> ->]. split; reflexivity.
Qed.

Lemma nothing_kept_all_extraneous (self : params) (desired_price : R)
  (desired_size : Z) (orders : list order) :
  kept self desired_price desired_size None orders = None ->
  extraneous self desired_price desired_size None orders = orders.
Proof.
  assert (Hk : forall o l, kept self desired_price desired_size (Some o) l = Some o)
    by (intros o l; induction l; [reflexivity | exact IHl]).
  induction orders as [| order rest IH]; cbn [kept extraneous]; [reflexivity |].
  destruct (matches self desired_price desired_size order).
  - rewrite Hk. discriminate.
  - intros H. f_equal. exact (IH H).
Qed.

Lemma refetched_price (W : Type) (api : AbstractTradingAPI W) (st1 st2 : state W)
  (r : result price_reply) :
  refetched api st1 = (r, st2) -> get_price api (world st1) = (r, world st2).
Proof.
  unfold refetched. destruct (get_price api (world st1)) as [r' w2].
  intros H. injection H as -> <-. reflexivity.
Qed.

Ltac run_strategy :=
  lazy beta iota zeta delta [io_ret io_bind call io_lift try_except live_api
    cancel_order get_price place_order get_orders get_position world calls
    start subscript trade_side scenario_params fst snd app length skipn
    order_id resting_buy order_expiration String.eqb Ascii.eqb Bool.eqb].

(** On a desired price that is a float the test reads it as it is. *)
Lemma matches_float (self : params) (desired_price : R) (desired_size : Z)
  (order : order) :
  matches self (Py.b64 desired_price) desired_size order
  = matches self desired_price desired_size order.
Proof. unfold matches. rewrite b64_idempotent. reflexivity. Qed.

(** The price line 138 computes for a resting order of the scenario. *)
Lemma resting_price (id : string) (cents : Z) :
  (0 <= cents < 9007199254740992)%Z ->
  order_price scenario_params (resting_buy id cents) = Py.b64 (IZR cents / 100).
Proof.
  intros H.
  change (order_price scenario_params (resting_buy id cents))
    with (Py.b64 (Py.b64 (IZR cents) / 100)).
  rewrite (b64_nat_exact H). reflexivity.
Qed.

(** Decide a comparison of two rational constants under [Rabs]. *)
Ltac cent_test :=
  let Hc := fresh "Hc" in
  match goal with
  | |- context [Rlt_dec ?a ?b] => destruct (Rlt_dec a b) as [Hc | Hc]
  end;
  first [ reflexivity
        | exfalso; revert Hc; unfold Rabs; destruct (Rcase_abs _); intros Hc; lra ].

(** Line 139 on the scenario's orders.  46 cents against the float 0.45:
    the rounded difference is 0.010000000000000009, not below the float
    0.01. *)
Lemma cent_46_against_0_45 :
  within_cent (Py.b64 (46 / 100)) (Py.b64 0.45) = false.
Proof.
  unfold within_cent.
  rewrite b64_46_cents, b64_0_45, b64_46_minus_45, b64_0_01. cent_test.
Qed.

Lemma cent_45_against_0_45 :
  within_cent (Py.b64 (45 / 100)) (Py.b64 0.45) = true.
Proof.
  unfold within_cent. rewrite b64_45_cents, b64_0_45, b64_0_01.
  replace (8106479329266893 / 18014398509481984
           - 8106479329266893 / 18014398509481984) with 0 by lra.
  rewrite b64_0. cent_test.
Qed.

Lemma cent_40_against_0_45 :
  within_cent (Py.b64 (40 / 100)) (Py.b64 0.45) = false.
Proof.
  unfold within_cent.
  rewrite b64_40_cents, b64_0_45, b64_40_minus_45, b64_0_01. cent_test.
Qed.

(** 6 cents against the float 0.05: the rounded difference is
    0.009999999999999995, below the float 0.01. *)
Lemma cent_6_against_0_05 :
  within_cent (Py.b64 (6 / 100)) (Py.b64 0.05) = true.
Proof.
  unfold within_cent.
  rewrite b64_6_cents, b64_0_05, b64_6_minus_5, b64_0_01. cent_test.
Qed.

Lemma cent_5_against_0_05 :
  within_cent (Py.b64 (5 / 100)) (Py.b64 0.05) = true.
Proof.
  unfold within_cent. rewrite b64_5_cents, b64_0_05, b64_0_01.
  replace (7205759403792794 / 144115188075855872
           - 7205759403792794 / 144115188075855872) with 0 by lra.
  rewrite b64_0. cent_test.
Qed.

(** The other neighbours at one cent fail the test: 44 cents against
    0.45, 4 cents against 0.05, 49 and 51 cents against 0.5. *)
Lemma one_cent_neighbours :
  within_cent (Py.b64 (44 / 100)) (Py.b64 0.45) = false
  /\ within_cent (Py.b64 (4 / 100)) (Py.b64 0.05) = false
  /\ within_cent (Py.b64 (49 / 100)) (Py.b64 0.5) = false
  /\ within_cent (Py.b64 (51 / 100)) (Py.b64 0.5) = false.
Proof.
  unfold within_cent. repeat split.
  - rewrite b64_44_cents, b64_0_45, b64_44_minus_45, b64_0_01. cent_test.
  - rewrite b64_4_cents, b64_0_05, b64_4_minus_5, b64_0_01. cent_test.
  - rewrite b64_49_cents, b64_0_5, b64_49_minus_50, b64_0_01. cent_test.
  - rewrite b64_51_cents, b64_0_5, b64_51_minus_50, b64_0_01. cent_test.
Qed.

(** The same with the desired price given as the float itself. *)
Lemma cent_46_against_float_0_45 :
  within_cent (Py.b64 (46 / 100)) (Py.b64 float_0_45) = false.
Proof.
  unfold within_cent, float_0_45.
  rewrite b64_46_cents, b64_float_0_45, b64_46_minus_45, b64_0_01. cent_test.
Qed.

(** [matches] on a resting buy of the scenario is the test on its price. *)
Lemma matches_resting (id : string) (cents : Z) (desired_price : R) :
  (0 <= cents < 9007199254740992)%Z ->
  matches scenario_params desired_price 10 (resting_buy id cents)
  = within_cent (Py.b64 (IZR cents / 100)) (Py.b64 desired_price).
Proof.
  intros H. unfold matches. rewrite (resting_price id H).
  change (remaining_count (resting_buy id cents) =? 10)%Z with true.
  apply andb_true_r.
Qed.

Lemma one_cent_away_no_match (id : string) :
  matches scenario_params 0.45 10 (resting_buy id 46) = false.
Proof. rewrite matches_resting by lia. exact cent_46_against_0_45. Qed.

Lemma same_price_match (id : string) :
  matches scenario_params 0.45 10 (resting_buy id 45) = true.
Proof. rewrite matches_resting by lia. exact cent_45_against_0_45. Qed.

Lemma far_price_unmatched (id : string) :
  matches scenario_params 0.45 10 (resting_buy id 40) = false.
Proof. rewrite matches_resting by lia. exact cent_40_against_0_45. Qed.

Lemma six_cents_match (id : string) :
  matches scenario_params 0.05 10 (resting_buy id 6) = true.
Proof. rewrite matches_resting by lia. exact cent_6_against_0_05. Qed.

Lemma five_cents_match (id : string) :
  matches scenario_params 0.05 10 (resting_buy id 5) = true.
Proof. rewrite matches_resting by lia. exact cent_5_against_0_05. Qed.

Lemma stopped_clock_int (W : Type) (w : W) : Py.int (stopped_clock w) = 1700000000%Z.
Proof. unfold stopped_clock. apply int_of_Z; [lia | lra]. Qed.

Lemma live_buy_improves : improves "buy" 0.45 0.5 = true.
Proof. apply improves_iff. left. split; [reflexivity | lra]. Qed.

(** C8. A [place_order] call issued by [handle_order_side] is the last call
    of the pass: the loop kept no order, the mid price was fetched again
    after the cancels and read on the traded side, the call carries the
    pass's action, and for [buy] the desired price is strictly below that
    mid price, for [sell] strictly above.  When the comparison fails no
    [place_order] call is issued. *)
Theorem placement_needs_improving_price (W : Type) (clock : W -> R)
  (api : AbstractTradingAPI W) (self : params) (action : string)
  (orders : list order) (desired_price : R) (desired_size : Z) (st : state W)
  (a s : string) (p q : num) (e : option Z) :
  In (PlaceOrder a s p q e)
     (issued (handle_order_side clock api self action orders
                desired_price desired_size) st) ->
  exists st1 mid_prices w2 current_price,
    scan_orders api self orders desired_price desired_size None st
    = (Ret None, st1)
    /\ get_price api (world st1) = (Ret mid_prices, w2)
    /\ subscript mid_prices (trade_side self) = Ret current_price
    /\ a = action
    /\ ((a = "buy"%string /\ desired_price < current_price)
        \/ (a = "sell"%string /\ current_price < desired_price))
    /\ issued (handle_order_side clock api self action orders
                 desired_price desired_size) st
       = map cancel_of orders
         ++ [GetPrice;
             PlaceOrder a (trade_side self) (PFloat desired_price)
               (PInt desired_size)
               (Some (Py.int (clock w2) + order_expiration self)%Z)].
Proof.
  intros Hin.
  destruct (handle_order_side_issued clock api self desired_price desired_size
              action orders st)
    as [(n & ex & st1 & _ & _ & Hnew) | (st1 & Hscan & [Hnew | Hplace])].
  - rewrite Hnew in Hin. apply cancel_of_not_place in Hin. discriminate Hin.
  - rewrite Hnew in Hin. apply in_app_iff in Hin. destruct Hin as [Hin | [Hin | []]].
    + apply cancel_of_not_place in Hin. discriminate Hin.
    + discriminate Hin.
  - destruct Hplace as (Hk & mid_prices & st2 & current_price & Hr & Hsub & Hi & Hnew).
    rewrite Hnew in Hin. apply in_app_iff in Hin.
    destruct Hin as [Hin | [Hin | [Hin | []]]].
    + apply cancel_of_not_place in Hin. discriminate Hin.
    + discriminate Hin.
    + injection Hin as <- <- <- <- <-.
      exists st1, mid_prices, (world st2), current_price.
      rewrite Hk in Hscan.
      repeat split; try assumption.
      * apply refetched_price. exact Hr.
      * apply improves_iff. exact Hi.
      * rewrite Hnew. now rewrite (nothing_kept_all_extraneous _ _ _ _ Hk).
Qed.

Lemma live_buy_issued :
  issued (handle_order_side (@stopped_clock _) live_api scenario_params "buy"
            [] 0.45 10) start
  = [GetPrice; PlaceOrder "buy" "yes" (PFloat 0.45) (PInt 10) (Some 1700003600%Z)].
Proof.
  unfold issued, handle_order_side. cbn [scan_orders]. run_strategy.
  rewrite live_buy_improves. run_strategy.
  rewrite stopped_clock_int. reflexivity.
Qed.

Lemma placement_needs_improving_price_live :
  exists st1 mid_prices w2 current_price,
    scan_orders live_api scenario_params [] 0.45 10 None start = (Ret None, st1)
    /\ get_price live_api (world st1) = (Ret mid_prices, w2)
    /\ subscript mid_prices (trade_side scenario_params) = Ret current_price
    /\ "buy"%string = "buy"%string
    /\ (("buy"%string = "buy"%string /\ 0.45 < current_price)
        \/ ("buy"%string = "sell"%string /\ current_price < 0.45))
    /\ issued (handle_order_side (@stopped_clock _) live_api scenario_params
                 "buy" [] 0.45 10) start
       = map cancel_of []
         ++ [GetPrice;
             PlaceOrder "buy" (trade_side scenario_params) (PFloat 0.45) (PInt 10)
               (Some (Py.int (stopped_clock w2)
                      + order_expiration scenario_params)%Z)].
Proof.
  apply (@placement_needs_improving_price unit (@stopped_clock _) live_api
           scenario_params "buy" [] 0.45 10 start
           "buy" "yes" (PFloat 0.45) (PInt 10) (Some 1700003600%Z)).
  rewrite live_buy_issued. right. left. reflexivity.
Defined.

(** When [cancel_order] never raises the loop runs to its end. *)
Lemma scan_orders_returns (W : Type) (api : AbstractTradingAPI W) (self : params)
  (desired_price : R) (desired_size : Z) :
  (forall id, never_raises (cancel_order api id)) ->
  forall (orders : list order) (keep_order : option order) (st : state W),
    exists k st1,
      scan_orders api self orders desired_price desired_size keep_order st
      = (Ret k, st1).
Proof.
  intros Hcancel. induction orders as [| x rest IH]; intros keep_order st.
  - do 2 eexists. reflexivity.
  - assert (Hstep :
      forall keep,
        exists k st1,
          io_bind (call (CancelOrder (order_id x)) (cancel_order api (order_id x)))
                  (fun _ => scan_orders api self rest desired_price desired_size keep)
                  st
          = (Ret k, st1)).
    { intros keep. unfold io_bind, call.
      destruct (Hcancel (order_id x) (world st)) as (b & w' & ->).
      apply IH. }
    cbn [scan_orders]. destruct keep_order as [k |]; [apply Hstep |].
    destruct (matches self desired_price desired_size x); [apply IH | apply Hstep].
Qed.

(** C4, amended. When the orders of a side contain an order that passes the
    test of line 139 as the code evaluates it, in binary64 (the rounded
    difference between [float(price_cents) / 100] and the desired price is
    below the float nearest to 0.01, and the remaining size equals the
    desired size), a pass over that side never cancels the first such order
    and never places: it cancels the other orders in list order (all of
    them when no [cancel_order] raises, up to the one that raises otherwise)
    and then fetches the price.  When that order is alone on its side the
    pass issues no cancellation and no placement. *)
Theorem matched_order_is_kept (W : Type) (clock : W -> R)
  (api : AbstractTradingAPI W) (self : params) (action : string)
  (pre post : list order) (o : order) (desired_price : R) (desired_size : Z)
  (st : state W) :
  Forall (fun x =>
            ~ (Rabs (Py.b64 (order_price self x - Py.b64 desired_price))
               < Py.b64 0.01
               /\ remaining_count x = desired_size)) pre ->
  Rabs (Py.b64 (order_price self o - Py.b64 desired_price)) < Py.b64 0.01 ->
  remaining_count o = desired_size ->
  let new :=
    issued (handle_order_side clock api self action (pre ++ o :: post)
              desired_price desired_size) st in
  (forall c, In c new -> is_place c = false)
  /\ ((exists n, (n < length (pre ++ post))%nat
                 /\ new = map cancel_of (firstn (S n) (pre ++ post)))
      \/ new = map cancel_of (pre ++ post) ++ [GetPrice])
  /\ ((forall id, never_raises (cancel_order api id)) ->
      new = map cancel_of (pre ++ post) ++ [GetPrice])
  /\ (pre = [] -> post = [] -> new = [GetPrice]).
Proof.
  intros Hpre Hprice Hsize new.
  assert (Hpre' : Forall (fun x => matches self desired_price desired_size x = false) pre).
  { eapply Forall_impl; [| exact Hpre]. cbn beta. intros x Hx.
    destruct (matches self desired_price desired_size x) eqn:E; [| reflexivity].
    apply matches_iff in E. contradiction. }
  assert (Ho : matches self desired_price desired_size o = true)
    by (apply matches_iff; split; assumption).
  destruct (@first_match_kept self desired_price desired_size pre post o Hpre' Ho)
    as [Hk He].
  assert (Hcases :
    (exists n ex st1,
        (n < length (pre ++ post))%nat
        /\ scan_orders api self (pre ++ o :: post) desired_price desired_size None st
           = (Raise ex, st1)
        /\ new = map cancel_of (firstn (S n) (pre ++ post)))
    \/ new = map cancel_of (pre ++ post) ++ [GetPrice]).
  { destruct (handle_order_side_issued clock api self desired_price desired_size
                action (pre ++ o :: post) st)
      as [(n & ex & st1 & Hn & Hscan & Hnew) | (st1 & Hscan & [Hnew | Hplace])].
    - left. exists n, ex, st1. rewrite He in Hn, Hnew. repeat split; assumption.
    - right. rewrite He in Hnew. exact Hnew.
    - destruct Hplace as [Hnone _]. rewrite Hk in Hnone. discriminate Hnone. }
  repeat split.
  - intros c Hc.
    destruct Hcases as [(n & ex & st1 & _ & _ & Hnew) | Hnew]; rewrite Hnew in Hc.
    + eapply cancel_of_not_place. exact Hc.
    + apply in_app_iff in Hc. destruct Hc as [Hc | [<- | []]].
      * eapply cancel_of_not_place. exact Hc.
      * reflexivity.
  - destruct Hcases as [(n & ex & st1 & Hn & _ & Hnew) | Hnew].
    + left. exists n. split; assumption.
    + right. exact Hnew.
  - intros Hcancel.
    destruct Hcases as [(n & ex & st1 & _ & Hscan & _) | Hnew]; [| exact Hnew].
    destruct (@scan_orders_returns W api self desired_price desired_size Hcancel
                (pre ++ o :: post) None st) as (k & st1' & Hret).
    rewrite Hret in Hscan. discriminate Hscan.
  - intros -> ->.
    destruct Hcases as [(n & ex & st1 & Hn & _ & _) | Hnew].
    + cbn in Hn. lia.
    + exact Hnew.
Qed.

Lemma live_cancel_never_raises (id : string) :
  never_raises (cancel_order live_api id).
Proof. intros w. exists true, w. reflexivity. Qed.

(** Two runs on the live venue.  Against 0.45, of a buy at 40 cents and two
    at 45 cents the first at 45 is kept.  Against 0.05, of a buy at 6 cents
    and one at 5 cents it is the one at 6 cents that passes the test first
    and is kept, the exact match behind it being cancelled. *)
Lemma matched_order_is_kept_live :
  issued (handle_order_side (@stopped_clock _) live_api scenario_params "buy"
            ([resting_buy "A" 40] ++ resting_buy "B" 45 :: [resting_buy "C" 45])
            0.45 10) start
  = map cancel_of ([resting_buy "A" 40] ++ [resting_buy "C" 45]) ++ [GetPrice]
  /\ issued (handle_order_side (@stopped_clock _) live_api scenario_params "buy"
               ([] ++ resting_buy "A" 6 :: [resting_buy "B" 5]) 0.05 10) start
     = map cancel_of ([] ++ [resting_buy "B" 5]) ++ [GetPrice].
Proof.
  split.
  - refine (proj1 (proj2 (proj2
              (@matched_order_is_kept unit (@stopped_clock _) live_api
                 scenario_params "buy" [resting_buy "A" 40] [resting_buy "C" 45]
                 (resting_buy "B" 45) 0.45 10 start _ _ _)))
              live_cancel_never_raises).
    + constructor; [| constructor]. intros H.
      apply matches_iff in H. rewrite far_price_unmatched in H. discriminate H.
    + exact (proj1 (proj1 (matches_iff _ _ _ _) (same_price_match "B"))).
    + reflexivity.
  - refine (proj1 (proj2 (proj2
              (@matched_order_is_kept unit (@stopped_clock _) live_api
                 scenario_params "buy" [] [resting_buy "B" 5]
                 (resting_buy "A" 6) 0.05 10 start _ _ _)))
              live_cancel_never_raises).
    + constructor.
    + exact (proj1 (proj1 (matches_iff _ _ _ _) (six_cents_match "A"))).
    + reflexivity.
Defined.

(** C4, as stated, fails at one cent: a lone resting buy of 10 at 46 cents
    against a desired price of 0.45 and size 10 is within one cent inclusive
    with the size equal, yet the pass cancels it and places a new order, be
    the desired price written 0.45 or given as the float Python holds for
    it.  It also fails on a second match: of two resting buys of 10 at 45
    cents the later one is cancelled although no order on the side is a
    non-matching one. *)
Lemma one_cent_away_is_cancelled :
  (Rabs (IZR (yes_price (resting_buy "A" 46)) / 100 - 0.45) <= 0.01
   /\ remaining_count (resting_buy "A" 46) = 10%Z
   /\ issued (handle_order_side (@stopped_clock _) live_api scenario_params "buy"
                [resting_buy "A" 46] 0.45 10) start
      = [CancelOrder "A"; GetPrice;
         PlaceOrder "buy" "yes" (PFloat 0.45) (PInt 10) (Some 1700003600%Z)])
  /\ (Rabs (IZR (yes_price (resting_buy "A" 46)) / 100 - float_0_45) <= 0.01
      /\ issued (handle_order_side (@stopped_clock _) live_api scenario_params
                   "buy" [resting_buy "A" 46] float_0_45 10) start
         = [CancelOrder "A"; GetPrice;
            PlaceOrder "buy" "yes" (PFloat float_0_45) (PInt 10)
              (Some 1700003600%Z)])
  /\ (Forall (fun x => matches scenario_params 0.45 10 x = true)
             [resting_buy "B" 45; resting_buy "C" 45]
      /\ issued (handle_order_side (@stopped_clock _) live_api scenario_params
                   "buy" [resting_buy "B" 45; resting_buy "C" 45] 0.45 10) start
         = [CancelOrder "C"; GetPrice]).
Proof.
  split; [split; [| split; [reflexivity |]] | split; [split |split]].
  - change (IZR (yes_price (resting_buy "A" 46))) with 46.
    replace (46 / 100 - 0.45) with 0.01 by lra.
    rewrite Rabs_pos_eq; lra.
  - unfold issued, handle_order_side.
    cbn [scan_orders]. rewrite one_cent_away_no_match. run_strategy.
    rewrite live_buy_improves. run_strategy.
    rewrite stopped_clock_int. reflexivity.
  - change (IZR (yes_price (resting_buy "A" 46))) with 46.
    unfold float_0_45. unfold Rabs. destruct (Rcase_abs _); lra.
  - assert (Hm : matches scenario_params float_0_45 10 (resting_buy "A" 46) = false)
      by (rewrite matches_resting by lia; exact cent_46_against_float_0_45).
    assert (Hi : improves "buy" float_0_45 0.5 = true).
    { apply improves_iff. left. split; [reflexivity | unfold float_0_45; lra]. }
    unfold issued, handle_order_side.
    cbn [scan_orders]. rewrite Hm. run_strategy.
    rewrite Hi. run_strategy.
    rewrite stopped_clock_int. reflexivity.
  - repeat constructor; apply same_price_match.
  - unfold issued, handle_order_side.
    cbn [scan_orders]. rewrite (same_price_match "B").
    run_strategy. reflexivity.
Qed.

(** ** Failures at the gateway and in the loop *)

Section GatewayFacts.

Variable W : Type.
Variable clock : W -> R.
Variable sign : string -> W -> result string.
Variable send : request -> io W body.
Variable self : client.

Ltac gateway_cases w :=
  unfold try_except, io_bind, io_ret, io_raise;
  rewrite signed_headers_message; cbv zeta;
  match goal with
  | |- context [sign ?m w] => destruct (sign m w) as [sig | e1] eqn:Esign
  end;
  [ match goal with
    | |- context [send ?rq w] => destruct (send rq w) as [[data | e2] w'] eqn:Esend
    end
  | ].

Lemma get_position_never_raises :
  never_raises (kalshi_get_position clock sign send self).
Proof.
  intros w. unfold kalshi_get_position. gateway_cases w; do 2 eexists; reflexivity.
Qed.

Lemma get_orders_never_raises :
  never_raises (kalshi_get_orders clock sign send self).
Proof.
  intros w. unfold kalshi_get_orders. gateway_cases w; do 2 eexists; reflexivity.
Qed.

Lemma place_order_never_raises (action side : string) (count price : num)
  (expiration_ts : option Z) :
  never_raises (kalshi_place_order clock sign send self action side count price
                  expiration_ts).
Proof.
  intros w. unfold kalshi_place_order. gateway_cases w;
    [destruct data | |]; do 2 eexists; reflexivity.
Qed.

Lemma cancel_order_never_raises (order_id : string) :
  never_raises (kalshi_cancel_order clock sign send self order_id).
Proof.
  intros w. unfold kalshi_cancel_order. gateway_cases w; do 2 eexists; reflexivity.
Qed.

(** The signed request raises what the signer raises, and otherwise does
    what the transport does with the signed headers. *)
Lemma signed_request_spec (method path : string) (payload : option dict) (w : W) :
  signed_request clock sign send self method path payload w
  = let timestamp_str := Py.str (Py.int (clock w * 1000)) in
    match sign (msg_string timestamp_str method path) w with
    | Ret sig =>
        send (Build_request method (base_url self ++ path)
                [("KALSHI-ACCESS-KEY", api_key_id self);
                 ("KALSHI-ACCESS-SIGNATURE", sig);
                 ("KALSHI-ACCESS-TIMESTAMP", timestamp_str)]%string
                payload) w
    | Raise e => (Raise e, w)
    end.
Proof.
  unfold signed_request, io_bind. rewrite signed_headers_message. cbv zeta.
  destruct (sign _ w); reflexivity.
Qed.

(** Whatever the signed request raises inside the [try] of a method, the
    method returns its sentinel. *)
Lemma get_position_caught (w w' : W) (e : exn) :
  signed_request clock sign send self "GET" "/trade-api/v2/portfolio/positions"
    None w = (Raise e, w') ->
  kalshi_get_position clock sign send self w = (Ret PosEmptyList, w').
Proof.
  unfold signed_request, kalshi_get_position, try_except, io_bind, io_ret. cbv zeta.
  destruct (_get_signed_headers clock sign self "GET"
              "/trade-api/v2/portfolio/positions" w) as [[headers | e1] w1].
  - destruct (send _ w1) as [[data | e2] w2]; intros H;
      [discriminate H | injection H as _ <-; reflexivity].
  - intros H. injection H as _ <-. reflexivity.
Qed.

Lemma get_orders_caught (w w' : W) (e : exn) :
  signed_request clock sign send self "GET" "/trade-api/v2/portfolio/orders"
    None w = (Raise e, w') ->
  kalshi_get_orders clock sign send self w = (Ret [], w').
Proof.
  unfold signed_request, kalshi_get_orders, try_except, io_bind, io_ret. cbv zeta.
  destruct (_get_signed_headers clock sign self "GET"
              "/trade-api/v2/portfolio/orders" w) as [[headers | e1] w1].
  - destruct (send _ w1) as [[data | e2] w2]; intros H;
      [discriminate H | injection H as _ <-; reflexivity].
  - intros H. injection H as _ <-. reflexivity.
Qed.

Lemma cancel_order_caught (order_id : string) (w w' : W) (e : exn) :
  signed_request clock sign send self "DELETE"
    ("/trade-api/v2/portfolio/orders/" ++ order_id) None w = (Raise e, w') ->
  kalshi_cancel_order clock sign send self order_id w = (Ret false, w').
Proof.
  unfold signed_request, kalshi_cancel_order, try_except, io_bind, io_ret. cbv zeta.
  destruct (_get_signed_headers clock sign self "DELETE"
              ("/trade-api/v2/portfolio/orders/" ++ order_id) w)
    as [[headers | e1] w1].
  - destruct (send _ w1) as [[data | e2] w2]; intros H;
      [discriminate H | injection H as _ <-; reflexivity].
  - intros H. injection H as _ <-. reflexivity.
Qed.

Lemma place_order_caught (action side : string) (count price : num)
  (expiration_ts : option Z) (w w' : W) (e : exn) :
  signed_request clock sign send self "POST" "/trade-api/v2/portfolio/orders"
    (Some (place_order_payload self action side count price expiration_ts)) w
  = (Raise e, w') ->
  kalshi_place_order clock sign send self action side count price expiration_ts w
  = (Ret None, w').
Proof.
  unfold signed_request, kalshi_place_order, try_except, io_bind, io_ret. cbv zeta.
  destruct (_get_signed_headers clock sign self "POST"
              "/trade-api/v2/portfolio/orders" w) as [[headers | e1] w1].
  - destruct (send _ w1) as [[data | e2] w2]; intros H;
      [discriminate H | injection H as _ <-; reflexivity].
  - intros H. injection H as _ <-. reflexivity.
Qed.

(** A response without an order id is a failure of the same kind. *)
Lemma place_order_no_id (action side : string) (count price : num)
  (expiration_ts : option Z) (w w' : W) (data : body) :
  signed_request clock sign send self "POST" "/trade-api/v2/portfolio/orders"
    (Some (place_order_payload self action side count price expiration_ts)) w
  = (Ret data, w') ->
  (forall id, data <> OrderBody id) ->
  kalshi_place_order clock sign send self action side count price expiration_ts w
  = (Ret None, w').
Proof.
  unfold signed_request, kalshi_place_order, try_except, io_bind, io_ret, io_raise.
  cbv zeta.
  destruct (_get_signed_headers clock sign self "POST"
              "/trade-api/v2/portfolio/orders" w) as [[headers | e1] w1].
  - destruct (send _ w1) as [[data' | e2] w2]; intros H Hno;
      [| discriminate H].
    injection H as -> ->.
    destruct data as [l | yb ya nb na | l | id |]; try reflexivity.
    elim (Hno id). reflexivity.
  - intros H. discriminate H.
Qed.

(** [get_price] has the same [try], but its handler raises. *)
Lemma get_price_caught (w w' : W) (e : exn) :
  signed_request clock sign send self "GET"
    ("/trade-api/v2/markets/" ++ market_ticker self ++ "/") None w
  = (Raise e, w') ->
  kalshi_get_price clock sign send self w = (Raise NameError, w').
Proof.
  unfold signed_request, kalshi_get_price, try_except, io_bind, io_ret, io_raise.
  cbv zeta.
  destruct (_get_signed_headers clock sign self "GET"
              ("/trade-api/v2/markets/" ++ market_ticker self ++ "/") w)
    as [[headers | e1] w1].
  - destruct (send _ w1) as [[data | e2] w2]; intros H;
      [discriminate H | injection H as _ <-; reflexivity].
  - intros H. injection H as _ <-. reflexivity.
Qed.

Lemma get_price_no_market (w w' : W) (data : body) :
  signed_request clock sign send self "GET"
    ("/trade-api/v2/markets/" ++ market_ticker self ++ "/") None w
  = (Ret data, w') ->
  (forall yes_bid yes_ask no_bid no_ask,
      data <> MarketBody yes_bid yes_ask no_bid no_ask) ->
  kalshi_get_price clock sign send self w = (Raise NameError, w').
Proof.
  unfold signed_request, kalshi_get_price, try_except, io_bind, io_ret, io_raise.
  cbv zeta.
  destruct (_get_signed_headers clock sign self "GET"
              ("/trade-api/v2/markets/" ++ market_ticker self ++ "/") w)
    as [[headers | e1] w1].
  - destruct (send _ w1) as [[data' | e2] w2]; intros H Hno;
      [| discriminate H].
    injection H as -> ->.
    destruct data as [l | yb ya nb na | l | id |]; try reflexivity.
    elim (Hno yb ya nb na). reflexivity.
  - intros H. discriminate H.
Qed.

End GatewayFacts.

Section LoopFacts.

Variable W : Type.
Variable clock : W -> R.
Variable api : AbstractTradingAPI W.
Variable self : params.

(** A [None] price stops the tick at [mid_prices[self.trade_side]]. *)
Lemma tick_null_price (current_time : R) (st : state W) (w1 : W) :
  get_price api (world st) = (Ret None, w1) ->
  tick clock api self current_time st
  = (Raise TypeError, {| calls := calls st ++ [GetPrice]; world := w1 |}).
Proof.
  intros E. unfold tick, io_bind. rewrite (call_step _ _ _ E). reflexivity.
Qed.

(** An empty-list position stops the tick at [inventory / self.max_position]. *)
Lemma tick_empty_position (current_time : R) (st : state W)
  (mid_prices : price_reply) (mid_price : R) (w1 w2 : W) :
  get_price api (world st) = (Ret mid_prices, w1) ->
  subscript mid_prices (trade_side self) = Ret mid_price ->
  get_position api w1 = (Ret PosEmptyList, w2) ->
  tick clock api self current_time st
  = (Raise TypeError,
     {| calls := (calls st ++ [GetPrice]) ++ [GetPosition]; world := w2 |}).
Proof.
  intros E1 Es E2. unfold tick, io_bind. rewrite (call_step _ _ _ E1).
  unfold io_lift at 1. rewrite Es.
  match goal with
  | |- context [call GetPosition ?m ?s] =>
      rewrite (@call_step _ _ GetPosition m s (Ret PosEmptyList) w2 E2)
  end.
  reflexivity.
Qed.

(** Once the cancels of a pass have returned, its outcome is decided by
    the price fetched again at line 146, outside any [try]: with a price on
    the traded side the pass ends normally whatever [place_order] answers or
    raises; otherwise the exception of the subscript or of [get_price] ends
    the pass. *)
Lemma handle_order_side_outcome (action : string) (orders : list order)
  (desired_price : R) (desired_size : Z) (st : state W) :
  (forall id, never_raises (cancel_order api id)) ->
  exists keep_order st1,
    scan_orders api self orders desired_price desired_size None st
    = (Ret keep_order, st1)
    /\ match get_price api (world st1) with
       | (Ret mid_prices, w2) =>
           match subscript mid_prices (trade_side self) with
           | Ret _ =>
               fst (handle_order_side clock api self action orders desired_price
                      desired_size st) = Ret tt
           | Raise e =>
               handle_order_side clock api self action orders desired_price
                 desired_size st
               = (Raise e, {| calls := calls st1 ++ [GetPrice]; world := w2 |})
           end
       | (Raise e, w2) =>
           handle_order_side clock api self action orders desired_price
             desired_size st
           = (Raise e, {| calls := calls st1 ++ [GetPrice]; world := w2 |})
       end.
Proof.
  intros Hcancel.
  pose proof (handle_order_side_spec clock api self desired_price desired_size
                action orders st) as H.
  destruct (@scan_orders_returns W api self desired_price desired_size Hcancel
              orders None st) as (keep_order & st1 & Hscan).
  exists keep_order, st1. split; [exact Hscan |].
  rewrite Hscan in H. unfold refetched in H.
  destruct (get_price api (world st1)) as [[mid_prices | e] w2]; [| exact H].
  destruct (subscript mid_prices (trade_side self)) as [current_price | e];
    [| exact H].
  destruct keep_order as [o |]; [now rewrite H |].
  destruct (improves action desired_price current_price); [| now rewrite H].
  destruct H as [w3 ->]. reflexivity.
Qed.

(** A pass over an empty side calls no [cancel_order]. *)
Lemma handle_order_side_empty (action : string) (desired_price : R)
  (desired_size : Z) (st : state W) :
  exists new,
    calls (snd (handle_order_side clock api self action [] desired_price
                  desired_size st))
    = calls st ++ new
    /\ forall c, In c new -> is_cancel c = false.
Proof.
  pose proof (handle_order_side_spec clock api self desired_price desired_size
                action [] st) as H.
  cbn [scan_orders] in H. unfold io_ret, refetched in H.
  destruct (get_price api (world st)) as [[mid_prices | e] w2].
  - destruct (subscript mid_prices (trade_side self)) as [current_price | e].
    + destruct (improves action desired_price current_price).
      * destruct H as [w3 ->]. cbn [snd calls]. eexists. split.
        -- rewrite <- app_assoc. reflexivity.
        -- intros c [<- | [<- | []]]; reflexivity.
      * rewrite H. exists [GetPrice]. split; [reflexivity |].
        intros c [<- | []]; reflexivity.
    + rewrite H. exists [GetPrice]. split; [reflexivity |].
      intros c [<- | []]; reflexivity.
  - rewrite H. exists [GetPrice]. split; [reflexivity |].
    intros c [<- | []]; reflexivity.
Qed.

(** With an empty order list [manage_orders] cancels nothing. *)
Lemma manage_orders_empty (bid_price ask_price : R) (buy_size sell_size : Z)
  (st : state W) (w1 : W) :
  get_orders api (world st) = (Ret [], w1) ->
  forall c,
    In c (issued (manage_orders clock api self bid_price ask_price buy_size sell_size) st) ->
    is_cancel c = false.
Proof.
  intros E.
  assert (H : exists new,
             calls (snd (manage_orders clock api self bid_price ask_price
                           buy_size sell_size st))
             = calls st ++ new
             /\ forall c, In c new -> is_cancel c = false).
  { unfold manage_orders, io_bind. rewrite (call_step _ _ _ E). cbn [filter].
    set (st1 := {| calls := calls st ++ [GetOrders]; world := w1 |}).
    destruct (handle_order_side_empty "buy" bid_price buy_size st1) as (n1 & H1 & N1).
    destruct (handle_order_side clock api self "buy" [] bid_price buy_size st1)
      as [[u | e] st2]; cbn [snd] in H1.
    - destruct (handle_order_side_empty "sell" ask_price sell_size st2)
        as (n2 & H2 & N2).
      exists ([GetOrders] ++ n1 ++ n2). split.
      + rewrite H2, H1. subst st1. cbn [calls]. now rewrite <- !app_assoc.
      + intros c Hc. apply in_app_iff in Hc. destruct Hc as [[<- | []] | Hc];
          [reflexivity |].
        apply in_app_iff in Hc. destruct Hc as [Hc | Hc]; auto.
    - exists ([GetOrders] ++ n1). split.
      + cbn [snd]. rewrite H1. subst st1. cbn [calls]. now rewrite <- !app_assoc.
      + intros c Hc. apply in_app_iff in Hc. destruct Hc as [[<- | []] | Hc];
          [reflexivity | auto]. }
  destruct H as (new & Hnew & Hno). rewrite (@issued_app _ _ _ _ _ Hnew). exact Hno.
Qed.

End LoopFacts.

(** C2, amended. For [get_position], [get_orders], [place_order] and
    [cancel_order] of the venue client, no failure inside the [try] is
    propagated: each call returns, and whenever its signed request raises
    (the signer or the transport, at that call), or, for [place_order],
    the response has no order id, it returns its sentinel: an empty list
    for [get_position] and [get_orders], [None] for [place_order], [False]
    for [cancel_order].  In the strategy the sentinels of [cancel_order]
    and [place_order] are absorbed: once its cancels have returned, a
    reconciliation pass ends normally whatever [place_order] answers or
    raises, provided the price fetched again at line 146 has an entry for
    the traded side; an empty order list leads to no cancellation.  A null
    price is not skipped: at line 146 it raises [TypeError] out of the
    pass (an exception of [get_price] there ends the pass too), and at
    line 46 out of the tick; an empty-list position makes the tick raise
    [TypeError]. *)
Theorem gateway_failures_and_sentinels :
  (forall (W : Type) (clock : W -> R) (sign : string -> W -> result string)
          (send : request -> io W body) (self : client),
      never_raises (kalshi_get_position clock sign send self)
      /\ never_raises (kalshi_get_orders clock sign send self)
      /\ (forall action side count price expiration_ts,
            never_raises (kalshi_place_order clock sign send self action side
                            count price expiration_ts))
      /\ (forall order_id,
            never_raises (kalshi_cancel_order clock sign send self order_id))
      /\ (forall method path payload w,
            signed_request clock sign send self method path payload w
            = let timestamp_str := Py.str (Py.int (clock w * 1000)) in
              match sign (msg_string timestamp_str method path) w with
              | Ret sig =>
                  send (Build_request method (base_url self ++ path)
                          [("KALSHI-ACCESS-KEY", api_key_id self);
                           ("KALSHI-ACCESS-SIGNATURE", sig);
                           ("KALSHI-ACCESS-TIMESTAMP", timestamp_str)]%string
                          payload) w
              | Raise e => (Raise e, w)
              end)
      /\ (forall w e w',
            (signed_request clock sign send self "GET"
               "/trade-api/v2/portfolio/positions" None w = (Raise e, w') ->
             kalshi_get_position clock sign send self w = (Ret PosEmptyList, w'))
            /\ (signed_request clock sign send self "GET"
                  "/trade-api/v2/portfolio/orders" None w = (Raise e, w') ->
                kalshi_get_orders clock sign send self w = (Ret [], w'))
            /\ (forall action side count price expiration_ts,
                  signed_request clock sign send self "POST"
                    "/trade-api/v2/portfolio/orders"
                    (Some (place_order_payload self action side count price
                             expiration_ts)) w
                  = (Raise e, w') ->
                  kalshi_place_order clock sign send self action side count
                    price expiration_ts w
                  = (Ret None, w'))
            /\ (forall order_id,
                  signed_request clock sign send self "DELETE"
                    ("/trade-api/v2/portfolio/orders/" ++ order_id) None w
                  = (Raise e, w') ->
                  kalshi_cancel_order clock sign send self order_id w
                  = (Ret false, w')))
      /\ (forall w data w' action side count price expiration_ts,
            signed_request clock sign send self "POST"
              "/trade-api/v2/portfolio/orders"
              (Some (place_order_payload self action side count price
                       expiration_ts)) w
            = (Ret data, w') ->
            (forall id, data <> OrderBody id) ->
            kalshi_place_order clock sign send self action side count price
              expiration_ts w
            = (Ret None, w')))
  /\ (forall (W : Type) (clock : W -> R) (api : AbstractTradingAPI W)
             (self : params),
        (forall action orders desired_price desired_size st,
            (forall id, never_raises (cancel_order api id)) ->
            exists keep_order st1,
              scan_orders api self orders desired_price desired_size None st
              = (Ret keep_order, st1)
              /\ (forall mid_prices w2 current_price,
                    get_price api (world st1) = (Ret mid_prices, w2) ->
                    subscript mid_prices (trade_side self) = Ret current_price ->
                    fst (handle_order_side clock api self action orders
                           desired_price desired_size st) = Ret tt)
              /\ (forall w2,
                    get_price api (world st1) = (Ret None, w2) ->
                    fst (handle_order_side clock api self action orders
                           desired_price desired_size st) = Raise TypeError)
              /\ (forall e w2,
                    get_price api (world st1) = (Raise e, w2) ->
                    fst (handle_order_side clock api self action orders
                           desired_price desired_size st) = Raise e))
        /\ (forall bid_price ask_price buy_size sell_size st w1,
              get_orders api (world st) = (Ret [], w1) ->
              forall c,
                In c (issued (manage_orders clock api self bid_price ask_price
                                buy_size sell_size) st) ->
                is_cancel c = false)
        /\ (forall current_time st w1,
              get_price api (world st) = (Ret None, w1) ->
              fst (tick clock api self current_time st) = Raise TypeError)
        /\ (forall current_time st mid_prices mid_price w1 w2,
              get_price api (world st) = (Ret mid_prices, w1) ->
              subscript mid_prices (trade_side self) = Ret mid_price ->
              get_position api w1 = (Ret PosEmptyList, w2) ->
              fst (tick clock api self current_time st) = Raise TypeError)).
Proof.
  split.
  - intros W clock sign send self.
    split; [apply get_position_never_raises |].
    split; [apply get_orders_never_raises |].
    split; [intros; apply place_order_never_raises |].
    split; [intros; apply cancel_order_never_raises |].
    split; [intros; apply signed_request_spec |].
    split.
    + intros w e w'.
      split; [apply get_position_caught |].
      split; [apply get_orders_caught |].
      split; intros; [eapply place_order_caught | eapply cancel_order_caught];
        eassumption.
    + intros w data w' action side count price expiration_ts.
      apply place_order_no_id.
  - intros W clock api self.
    split.
    { intros action orders desired_price desired_size st Hcancel.
      destruct (@handle_order_side_outcome W clock api self action orders
                  desired_price desired_size st Hcancel)
        as (keep_order & st1 & Hscan & Hout).
      exists keep_order, st1. split; [exact Hscan |].
      split; [| split].
      - intros mid_prices w2 current_price E Es. rewrite E, Es in Hout. exact Hout.
      - intros w2 E. rewrite E in Hout. cbn [subscript] in Hout.
        rewrite Hout. reflexivity.
      - intros e w2 E. rewrite E in Hout. rewrite Hout. reflexivity. }
    split; [intros until w1; apply manage_orders_empty |].
    split.
    + intros current_time st w1 E.
      rewrite (@tick_null_price W clock api self current_time st w1 E). reflexivity.
    + intros current_time st mid_prices mid_price w1 w2 E1 Es E2.
      rewrite (@tick_empty_position W clock api self current_time st mid_prices
                 mid_price w1 w2 E1 Es E2).
      reflexivity.
Qed.

(** The amended claim at work: with the venue unreachable [get_position]
    returns its sentinel; on the live venue a pass that cancels an order and
    places another ends normally; on a venue whose price is null the pass
    raises [TypeError]. *)
Lemma gateway_failures_and_sentinels_witness :
  kalshi_get_position (@stopped_clock _) (@constant_signer _) failing_send
    demo_client tt
  = (Ret PosEmptyList, tt)
  /\ fst (handle_order_side (@stopped_clock _) live_api scenario_params "buy"
            [resting_buy "A" 40] 0.45 10 start) = Ret tt
  /\ fst (handle_order_side (@stopped_clock _) null_price_api scenario_params
            "buy" [] 0.45 10 start) = Raise TypeError.
Proof.
  destruct gateway_failures_and_sentinels as [Hgateway Hstrategy].
  split; [| split].
  - destruct (Hgateway unit (@stopped_clock _) (@constant_signer _) failing_send
                demo_client) as (_ & _ & _ & _ & _ & Hcaught & _).
    destruct (Hcaught tt (RequestException "connection refused") tt)
      as (Hposition & _).
    apply Hposition. reflexivity.
  - destruct (Hstrategy unit (@stopped_clock _) live_api scenario_params)
      as (Hpass & _).
    destruct (Hpass "buy"%string [resting_buy "A" 40] 0.45 10%Z start
                live_cancel_never_raises)
      as (keep_order & st1 & _ & Hprice & _).
    apply (Hprice (Some (0.5, 0.5)) (world st1) 0.5); reflexivity.
  - destruct (Hstrategy unit (@stopped_clock _) null_price_api scenario_params)
      as (Hpass & _).
    assert (Hcancel : forall id, never_raises (cancel_order null_price_api id))
      by (intros id w; exists false, w; reflexivity).
    destruct (Hpass "buy"%string (@nil order) 0.45 10%Z start Hcancel)
      as (keep_order & st1 & _ & _ & Hnull & _).
    apply (Hnull (world st1)). reflexivity.
Defined.

(** C2, as stated, fails in the loop and in the pass.  With the venue
    unreachable [get_price] does not return a null price: its handler
    raises [NameError].  With only the positions request failing,
    [get_position] returns its sentinel, the empty list, and the tick that
    receives it raises [TypeError].  A null price received by a tick, or by
    a reconciliation pass at line 146, raises [TypeError], and the pass on
    the unreachable venue ends with the [NameError] of [get_price]. *)
Lemma failure_reaches_the_loop :
  request_fails (@constant_signer unit) failing_send tt
  /\ get_price offline_api tt = (Raise NameError, tt)
  /\ get_position market_only_api tt = (Ret PosEmptyList, tt)
  /\ fst (tick (@stopped_clock _) market_only_api scenario_params 0 start)
     = Raise TypeError
  /\ get_price null_price_api tt = (Ret None, tt)
  /\ fst (tick (@stopped_clock _) null_price_api scenario_params 0 start)
     = Raise TypeError
  /\ fst (handle_order_side (@stopped_clock _) null_price_api scenario_params
            "buy" [] 0.45 10 start)
     = Raise TypeError
  /\ fst (handle_order_side (@stopped_clock _) offline_api scenario_params
            "buy" [] 0.45 10 start)
     = Raise NameError.
Proof.
  split; [right; intros rq; exact I |].
  split; [reflexivity |].
  split; [reflexivity |].
  split.
  { rewrite (@tick_empty_position unit (@stopped_clock _) market_only_api
               scenario_params 0 start
               (Some (round2 ((49 / 100 + 51 / 100) / 2),
                      round2 ((49 / 100 + 51 / 100) / 2)))
               (round2 ((49 / 100 + 51 / 100) / 2)) tt tt);
      reflexivity. }
  split; [reflexivity |].
  split; [reflexivity |].
  split; reflexivity.
Qed.

(** ** The scenarios' float tests on binary64 *)

Module Binary64Facts.

Import PrimFloat.

(** On primitive floats too, 46 cents against 0.45 fails the test of line
    139 and 45 cents passes it; 6 cents against 0.05 passes it. *)
Lemma binary64_one_cent_away :
  Binary64.within_cent (Binary64.order_price 46%float) Binary64.d0_45 = false
  /\ Binary64.within_cent (Binary64.order_price 45%float) Binary64.d0_45 = true
  /\ Binary64.within_cent (Binary64.order_price 40%float) Binary64.d0_45 = false
  /\ Binary64.within_cent (Binary64.order_price 6%float) Binary64.d0_05 = true
  /\ Binary64.within_cent (Binary64.order_price 5%float) Binary64.d0_05 = true.
Proof. repeat split; reflexivity. Qed.

(** [0.29 * 100] lies in [28, 29) on primitive floats. *)
Lemma binary64_cents_truncated :
  (28 <=? Binary64.cents Binary64.d0_29)%float = true
  /\ (Binary64.cents Binary64.d0_29 <? 29)%float = true.
Proof. split; reflexivity. Qed.

(** [100 * 0.1] is exactly 10.0 and [0.45 * 100] exactly 45.0 in binary64. *)
Lemma binary64_buffer_and_cents :
  Binary64.buffer 100%float Binary64.d0_1 = 10%float
  /\ Binary64.cents Binary64.d0_45 = 45%float.
Proof. split; reflexivity. Qed.

End Binary64Facts.

(** ** Further facts on the quoting engine *)

Lemma exp_monotone (x y : R) : x <= y -> exp x <= exp y.
Proof.
  intros [H | ->]; [left; apply exp_increasing; exact H | right; reflexivity].
Qed.

(** [|inventory / max_position|] grows with [|inventory|]. *)
Lemma position_ratio_monotone (limit inventory1 inventory2 : Z) :
  limit <> 0%Z ->
  (Z.abs inventory1 <= Z.abs inventory2)%Z ->
  Rabs (IZR inventory1 / IZR limit) <= Rabs (IZR inventory2 / IZR limit).
Proof.
  intros Hl Hle.
  assert (Hl' : IZR limit <> 0) by (intros E; apply eq_IZR_R0 in E; contradiction).
  unfold Rdiv. rewrite !Rabs_mult, <- !abs_IZR.
  apply Rmult_le_compat_r; [apply Rabs_pos | apply IZR_le; exact Hle].
Qed.

(** The whole of line 88-93 once every division and the logarithm are
    defined. *)
Lemma optimal_spread_value (self : params) (t : R) (inventory : Z) :
  max_position self <> 0%Z ->
  T self <> 0 ->
  0 < base_gamma self ->
  0 < k self ->
  calculate_optimal_spread self t inventory
  = Ret (let g := base_gamma self
                  * exp (- Rabs (IZR inventory / IZR (max_position self))) in
         Py.max ((g * (sigma self ^ 2) * (1 - t / T self)
                  + 2 / g * ln (1 + g / k self))
                 * (1 - (IZR (Z.abs inventory) / IZR (max_position self)) ^ 2)
                 * 0.01)
                (min_spread self)).
Proof.
  intros Hm HT Hg Hk.
  assert (Hm' : IZR (max_position self) <> 0)
    by (intros E; apply eq_IZR_R0 in E; contradiction).
  pose proof (@dynamic_gamma_positive self Hg inventory) as Hpos.
  unfold calculate_optimal_spread, calculate_dynamic_gamma. cbv zeta.
  set (g := base_gamma self * exp (- Rabs (IZR inventory / IZR (max_position self)))) in *.
  rewrite (div_ret (IZR inventory) Hm'). cbn [Py.bind]. fold g.
  rewrite (div_ret t HT). cbn [Py.bind].
  rewrite (@div_ret 2 g) by lra. cbn [Py.bind].
  rewrite (@div_ret g (k self)) by lra. cbn [Py.bind].
  rewrite log_ret.
  2:{ assert (0 < g / k self) by (apply Rdiv_lt_0_compat; lra). lra. }
  cbn [Py.bind].
  rewrite (div_ret (IZR (Z.abs inventory)) Hm'). cbn [Py.bind].
  reflexivity.
Qed.

(** X1. The reservation price is the mid price at a flat inventory, and at
    the horizon ([t = T]) only the skew term is left. *)
Theorem reservation_price_edges (self : params) (mid_price t : R) (inventory : Z) :
  max_position self <> 0%Z ->
  T self <> 0 ->
  calculate_reservation_price self mid_price 0 t = Ret mid_price
  /\ calculate_reservation_price self mid_price inventory (T self)
     = Ret (mid_price + IZR inventory * inventory_skew_factor self * mid_price).
Proof.
  intros Hm HT.
  assert (Hm' : IZR (max_position self) <> 0)
    by (intros E; apply eq_IZR_R0 in E; contradiction).
  unfold calculate_reservation_price, calculate_dynamic_gamma. split.
  - rewrite (div_ret 0 Hm'). cbn [Py.bind].
    rewrite (div_ret t HT). cbn [Py.bind]. f_equal. ring.
  - rewrite (div_ret (IZR inventory) Hm'). cbn [Py.bind].
    rewrite (div_ret (T self) HT). cbn [Py.bind]. f_equal. field. exact HT.
Qed.

Lemma reservation_price_edges_scenario :
  calculate_reservation_price scenario_params 0.5 0 30 = Ret 0.5
  /\ calculate_reservation_price scenario_params 0.5 40 (T scenario_params)
     = Ret (0.5 + 40 * inventory_skew_factor scenario_params * 0.5).
Proof.
  apply (@reservation_price_edges scenario_params 0.5 30 40%Z).
  - cbn. discriminate.
  - cbn. lra.
Defined.

(** X2. The dynamic risk aversion is never negative, never above [gamma],
    and does not grow with the size of the inventory; within the position
    limit it is positive.  (Far beyond the limit the exponential of the code
    underflows to zero, so positivity is stated within the limit only.) *)
Theorem dynamic_gamma_shrinks (self : params) (inventory1 inventory2 : Z) :
  max_position self <> 0%Z ->
  0 < base_gamma self ->
  (Z.abs inventory1 <= Z.abs inventory2)%Z ->
  exists g1 g2,
    calculate_dynamic_gamma self inventory1 = Ret g1
    /\ calculate_dynamic_gamma self inventory2 = Ret g2
    /\ 0 <= g2 <= g1
    /\ g1 <= base_gamma self
    /\ ((Z.abs inventory2 <= Z.abs (max_position self))%Z -> 0 < g2).
Proof.
  intros Hm Hg Hle.
  rewrite !(@dynamic_gamma_returns self Hm).
  do 2 eexists. split; [reflexivity |]. split; [reflexivity |].
  pose proof (@position_ratio_monotone (max_position self) inventory1 inventory2
                Hm Hle) as Hr.
  assert (Hpos : 0 < base_gamma self
                     * exp (- Rabs (IZR inventory2 / IZR (max_position self))))
    by (apply Rmult_lt_0_compat; [exact Hg | apply exp_pos]).
  split; [split | split].
  - lra.
  - apply Rmult_le_compat_l; [lra |]. apply exp_monotone. lra.
  - rewrite <- (Rmult_1_r (base_gamma self)) at 2.
    apply Rmult_le_compat_l; [lra |].
    rewrite <- exp_0. apply exp_monotone.
    pose proof (Rabs_pos (IZR inventory1 / IZR (max_position self))). lra.
  - intros _. exact Hpos.
Qed.

Lemma dynamic_gamma_shrinks_scenario :
  exists g1 g2,
    calculate_dynamic_gamma scenario_params (-10) = Ret g1
    /\ calculate_dynamic_gamma scenario_params 60 = Ret g2
    /\ 0 <= g2 <= g1
    /\ g1 <= base_gamma scenario_params
    /\ 0 < g2.
Proof.
  destruct (@dynamic_gamma_shrinks scenario_params (-10)%Z 60%Z)
    as (g1 & g2 & E1 & E2 & H21 & H1 & Hpos).
  - cbn. discriminate.
  - cbn. lra.
  - cbn. lia.
  - exists g1, g2. repeat split; try assumption; try apply H21.
    apply Hpos. cbn. lia.
Defined.

(** X3. With a position limit of at least one, both order sizes lie between
    1 and [max_position], whatever the inventory and the buffer. *)
Theorem order_sizes_in_range (self : params) (inventory : Z) :
  (1 <= max_position self)%Z ->
  let (buy_size, sell_size) := calculate_order_sizes self inventory in
  (1 <= buy_size <= max_position self)%Z
  /\ (1 <= sell_size <= max_position self)%Z.
Proof.
  intros Hm. unfold calculate_order_sizes.
  destruct (0 <? inventory)%Z; lia.
Qed.

Lemma order_sizes_in_range_scenario :
  let (buy_size, sell_size) := calculate_order_sizes scenario_params 37 in
  (1 <= buy_size <= max_position scenario_params)%Z
  /\ (1 <= sell_size <= max_position scenario_params)%Z.
Proof.
  apply (@order_sizes_in_range scenario_params 37%Z). cbn. lia.
Defined.

(** X4. At or beyond the position limit the side that would add to the
    position is still quoted, with size 1, and the flattening side keeps
    the full [max_position], not the size of the position. *)
Theorem order_sizes_at_limit (self : params) (inventory : Z) :
  (1 <= max_position self)%Z ->
  (max_position self <= Z.abs inventory)%Z ->
  calculate_order_sizes self inventory
  = if (0 <? inventory)%Z then (1%Z, max_position self)
    else (max_position self, 1%Z).
Proof.
  intros Hm Hle. unfold calculate_order_sizes.
  destruct (0 <? inventory)%Z; f_equal; lia.
Qed.

Lemma order_sizes_at_limit_scenario :
  calculate_order_sizes scenario_params 250
  = if (0 <? 250)%Z then (1%Z, max_position scenario_params)
    else (max_position scenario_params, 1%Z).
Proof.
  apply (@order_sizes_at_limit scenario_params 250%Z); cbn; lia.
Defined.

(** What [asymmetric_spreads] returns, read back. *)
Lemma asymmetric_spreads_inv (self : params) (mid_price t : R) (inventory : Z)
  (r bid_spread ask_spread : R) :
  asymmetric_spreads self mid_price inventory t = Ret (r, bid_spread, ask_spread) ->
  exists base_spread,
    calculate_optimal_spread self t inventory = Ret base_spread
    /\ IZR (max_position self) <> 0
    /\ let adjustment :=
         base_spread * Rabs (IZR inventory / IZR (max_position self)) * 3 in
       if (0 <? inventory)%Z
       then bid_spread = base_spread / 2 + adjustment
            /\ ask_spread = Py.max (base_spread / 2 - adjustment) (min_spread self / 2)
       else bid_spread = Py.max (base_spread / 2 - adjustment) (min_spread self / 2)
            /\ ask_spread = base_spread / 2 + adjustment.
Proof.
  unfold asymmetric_spreads.
  destruct (calculate_reservation_price self mid_price inventory t) as [r0 | e];
    [| discriminate]. cbn [Py.bind].
  destruct (calculate_optimal_spread self t inventory) as [b | e] eqn:Eb;
    [| discriminate]. cbn [Py.bind].
  destruct (optimal_spread_inv _ _ _ Eb) as (Hm & _ & _).
  rewrite (div_ret (IZR inventory) Hm). cbn [Py.bind].
  intros H. exists b. split; [reflexivity |]. split; [exact Hm |]. cbv zeta.
  destruct (0 <? inventory)%Z; injection H as _ <- <-; split; reflexivity.
Qed.

(** X5. With a non-negative [min_spread], both half-spreads are at least
    [min_spread / 2], and the wider one is on the side that would add to the
    position: the bid when long, the ask otherwise. *)
Theorem half_spreads_floor_and_skew (self : params) (mid_price t : R)
  (inventory : Z) (r bid_spread ask_spread : R) :
  0 <= min_spread self ->
  asymmetric_spreads self mid_price inventory t = Ret (r, bid_spread, ask_spread) ->
  min_spread self / 2 <= bid_spread
  /\ min_spread self / 2 <= ask_spread
  /\ ((0 < inventory)%Z -> ask_spread <= bid_spread)
  /\ ((inventory <= 0)%Z -> bid_spread <= ask_spread).
Proof.
  intros Hms H.
  destruct (@asymmetric_spreads_inv _ _ _ _ _ _ _ H) as (b & Eb & _ & Hsp).
  destruct (optimal_spread_inv _ _ _ Eb) as (_ & _ & Hb).
  cbv zeta in Hsp.
  set (a := b * Rabs (IZR inventory / IZR (max_position self)) * 3) in *.
  assert (Ha : 0 <= a).
  { unfold a. pose proof (Rabs_pos (IZR inventory / IZR (max_position self))). nra. }
  pose proof (max_lower_r (b / 2 - a) (min_spread self / 2)) as Hfloor.
  assert (Hup : Py.max (b / 2 - a) (min_spread self / 2) <= b / 2 + a)
    by (apply max_upper; lra).
  destruct (0 <? inventory)%Z eqn:Ei; destruct Hsp as [-> ->].
  - apply Z.ltb_lt in Ei. repeat split; try lra; intros; try lia; lra.
  - apply Z.ltb_ge in Ei. repeat split; try lra; intros; try lia; lra.
Qed.

(** Lines 64-75 of the scenario at its position limit ([inventory = 100],
    [t = 30]): the spread is at its floor and the skew is three spreads. *)
Lemma scenario_spreads_at_limit :
  asymmetric_spreads scenario_params 0.5 100 30
  = Ret (limit_reservation, 7 / 2 * 0.01, 0.01 / 2).
Proof.
  assert (Hs : calculate_optimal_spread scenario_params 30 100 = Ret 0.01).
  { rewrite optimal_spread_value;
      [| cbn; discriminate | cbn; lra | cbn; lra | cbn; lra].
    cbv zeta.
    cbn [scenario_params T max_position base_gamma k min_spread sigma Z.abs].
    f_equal. replace (100 / 100) with 1 by lra.
    match goal with
    | |- Py.max (?b * (1 - 1 ^ 2) * 0.01) _ = _ =>
        replace (b * (1 - 1 ^ 2) * 0.01) with 0 by ring
    end.
    apply max_right. lra. }
  unfold asymmetric_spreads. rewrite Hs.
  unfold calculate_reservation_price, calculate_dynamic_gamma.
  cbn [scenario_params T max_position base_gamma sigma min_spread
       inventory_skew_factor].
  rewrite (@div_ret 100 100) by lra. cbn [Py.bind].
  rewrite (@div_ret 30 60) by lra. cbn [Py.bind].
  replace (0 <? 100)%Z with true by reflexivity.
  unfold limit_reservation.
  replace (100 / 100) with 1 by lra. rewrite Rabs_R1.
  rewrite max_right by lra.
  f_equal. f_equal. f_equal. lra.
Qed.

(** At the position limit the skew is real: long 100 contracts, the bid
    half-spread is 0.035 and the ask half-spread 0.005. *)
Lemma half_spreads_floor_and_skew_scenario :
  min_spread scenario_params / 2 <= 7 / 2 * 0.01
  /\ min_spread scenario_params / 2 <= 0.01 / 2
  /\ ((0 < 100)%Z -> 0.01 / 2 <= 7 / 2 * 0.01)
  /\ ((100 <= 0)%Z -> 7 / 2 * 0.01 <= 0.01 / 2).
Proof.
  apply (@half_spreads_floor_and_skew scenario_params 0.5 30 100%Z
           limit_reservation).
  - cbn. lra.
  - exact scenario_spreads_at_limit.
Defined.

Lemma max_monotone (a a' b : R) : a <= a' -> Py.max a b <= Py.max a' b.
Proof.
  intros H. unfold Py.max. destruct (Rlt_dec a b); destruct (Rlt_dec a' b); lra.
Qed.

(** The share of the limit in use lies in [0,1] within the limit. *)
Lemma utilization_bounds (limit inventory : Z) :
  (1 <= limit)%Z ->
  (Z.abs inventory <= limit)%Z ->
  0 <= IZR (Z.abs inventory) / IZR limit <= 1.
Proof.
  intros Hl Hi.
  assert (0 < IZR limit) by (apply IZR_lt; lia).
  assert (0 <= IZR (Z.abs inventory)) by (apply IZR_le; lia).
  assert (IZR (Z.abs inventory) <= IZR limit) by (apply IZR_le; exact Hi).
  split.
  - apply Rmult_le_pos; [assumption | left; apply Rinv_0_lt_compat; assumption].
  - apply Rmult_le_reg_r with (IZR limit); [assumption |].
    unfold Rdiv. rewrite Rmult_assoc, Rinv_l by lra. lra.
Qed.

(** X6. At the position limit the flattening side is quoted at the floor
    [min_spread / 2] from the reservation price and the other side at
    [3.5 * min_spread]: the ask is the tight one when long, the bid when
    short. *)
Theorem spreads_at_limit (self : params) (mid_price t : R) :
  (1 <= max_position self)%Z ->
  T self <> 0 ->
  0 < base_gamma self ->
  0 < k self ->
  0 < min_spread self ->
  (exists r,
      asymmetric_spreads self mid_price (max_position self) t
      = Ret (r, 7 / 2 * min_spread self, min_spread self / 2))
  /\ (exists r,
        asymmetric_spreads self mid_price (- max_position self) t
        = Ret (r, min_spread self / 2, 7 / 2 * min_spread self)).
Proof.
  intros Hmax HT Hg Hk Hms.
  assert (Hm : max_position self <> 0%Z) by lia.
  assert (Hm' : IZR (max_position self) <> 0)
    by (intros E; apply eq_IZR_R0 in E; contradiction).
  assert (Hone : IZR (max_position self) / IZR (max_position self) = 1)
    by (field; exact Hm').
  assert (Hspread :
    forall inventory,
      Z.abs inventory = max_position self ->
      calculate_optimal_spread self t inventory = Ret (min_spread self)).
  { intros inventory Habs.
    rewrite (@optimal_spread_value self t inventory Hm HT Hg Hk). cbv zeta.
    f_equal. rewrite Habs, Hone.
    match goal with
    | |- Py.max (?b * (1 - 1 ^ 2) * 0.01) _ = _ =>
        replace (b * (1 - 1 ^ 2) * 0.01) with 0 by ring
    end.
    apply max_right. exact Hms. }
  split.
  - destruct (@reservation_price_returns self Hm HT mid_price (max_position self) t)
      as [r Er].
    exists r. unfold asymmetric_spreads. rewrite Er. cbn [Py.bind].
    rewrite Hspread by lia. cbn [Py.bind].
    rewrite (div_ret (IZR (max_position self)) Hm'). cbn [Py.bind].
    replace (0 <? max_position self)%Z with true by (symmetry; apply Z.ltb_lt; lia).
    rewrite Hone, Rabs_R1.
    rewrite max_right by lra.
    f_equal. f_equal. f_equal. lra.
  - destruct (@reservation_price_returns self Hm HT mid_price (- max_position self) t)
      as [r Er].
    exists r. unfold asymmetric_spreads. rewrite Er. cbn [Py.bind].
    rewrite Hspread by lia. cbn [Py.bind].
    rewrite (div_ret (IZR (- max_position self)) Hm'). cbn [Py.bind].
    replace (0 <? - max_position self)%Z with false by (symmetry; apply Z.ltb_ge; lia).
    replace (IZR (- max_position self) / IZR (max_position self)) with (- (1)).
    2:{ rewrite opp_IZR. field. exact Hm'. }
    rewrite Rabs_Ropp, Rabs_R1.
    rewrite max_right by lra.
    f_equal. f_equal. lra.
Qed.

Lemma spreads_at_limit_scenario :
  (exists r,
      asymmetric_spreads scenario_params 0.5 (max_position scenario_params) 30
      = Ret (r, 7 / 2 * min_spread scenario_params, min_spread scenario_params / 2))
  /\ (exists r,
        asymmetric_spreads scenario_params 0.5 (- max_position scenario_params) 30
        = Ret (r, min_spread scenario_params / 2, 7 / 2 * min_spread scenario_params)).
Proof.
  apply (@spreads_at_limit scenario_params 0.5 30); cbn; try lra; lia.
Defined.

(** X7. With [max_position = 0] every pricing function raises
    [ZeroDivisionError], while [calculate_order_sizes] still answers, with
    one contract on each side. *)
Theorem zero_limit_divides_by_zero (self : params) (mid_price t : R) (inventory : Z) :
  max_position self = 0%Z ->
  calculate_dynamic_gamma self inventory = Raise ZeroDivisionError
  /\ calculate_reservation_price self mid_price inventory t = Raise ZeroDivisionError
  /\ calculate_optimal_spread self t inventory = Raise ZeroDivisionError
  /\ calculate_asymmetric_quotes self mid_price inventory t = Raise ZeroDivisionError
  /\ calculate_order_sizes self inventory = (1%Z, 1%Z).
Proof.
  intros Hm.
  assert (Hg : calculate_dynamic_gamma self inventory = Raise ZeroDivisionError).
  { unfold calculate_dynamic_gamma. rewrite Hm, div_zero. reflexivity. }
  assert (Hr : calculate_reservation_price self mid_price inventory t
               = Raise ZeroDivisionError).
  { unfold calculate_reservation_price. rewrite Hg. reflexivity. }
  repeat split.
  - exact Hg.
  - exact Hr.
  - unfold calculate_optimal_spread. rewrite Hg. reflexivity.
  - unfold calculate_asymmetric_quotes, asymmetric_spreads. rewrite Hr. reflexivity.
  - unfold calculate_order_sizes. rewrite Hm.
    destruct (0 <? inventory)%Z; f_equal; lia.
Qed.

Lemma zero_limit_divides_by_zero_witness :
  calculate_dynamic_gamma zero_limit_params 5 = Raise ZeroDivisionError
  /\ calculate_reservation_price zero_limit_params 0.5 5 0 = Raise ZeroDivisionError
  /\ calculate_optimal_spread zero_limit_params 0 5 = Raise ZeroDivisionError
  /\ calculate_asymmetric_quotes zero_limit_params 0.5 5 0 = Raise ZeroDivisionError
  /\ calculate_order_sizes zero_limit_params 5 = (1%Z, 1%Z).
Proof.
  apply (@zero_limit_divides_by_zero zero_limit_params 0.5 0 5%Z). reflexivity.
Defined.

(** X8. Within the position limit the optimal spread does not widen as time
    passes: a later elapsed time gives a spread that is no larger. *)
Theorem spread_narrows_with_time (self : params) (t1 t2 : R) (inventory : Z) :
  (1 <= max_position self)%Z ->
  0 < T self ->
  0 < base_gamma self ->
  0 < k self ->
  (Z.abs inventory <= max_position self)%Z ->
  t1 <= t2 ->
  exists s1 s2,
    calculate_optimal_spread self t1 inventory = Ret s1
    /\ calculate_optimal_spread self t2 inventory = Ret s2
    /\ s2 <= s1.
Proof.
  intros Hmax HT Hg Hk Hinv Ht.
  assert (Hm : max_position self <> 0%Z) by lia.
  assert (HT' : T self <> 0) by lra.
  rewrite !(@optimal_spread_value self _ inventory Hm HT' Hg Hk).
  do 2 eexists. split; [reflexivity |]. split; [reflexivity |]. cbv zeta.
  pose proof (@dynamic_gamma_positive self Hg inventory) as Hpos.
  set (g := base_gamma self * exp (- Rabs (IZR inventory / IZR (max_position self)))) in *.
  pose proof (@utilization_bounds _ _ Hmax Hinv) as Hu.
  set (u := IZR (Z.abs inventory) / IZR (max_position self)) in *.
  apply max_monotone.
  assert (Hadj : 0 <= 1 - u ^ 2) by nra.
  assert (Hs : 0 <= g * sigma self ^ 2).
  { apply Rmult_le_pos; [lra |]. apply pow2_ge_0. }
  assert (Htime : t1 / T self <= t2 / T self).
  { unfold Rdiv. apply Rmult_le_compat_r; [| exact Ht].
    left. apply Rinv_0_lt_compat. exact HT. }
  apply Rmult_le_compat_r; [lra |].
  apply Rmult_le_compat_r; [exact Hadj |].
  apply Rplus_le_compat_r.
  apply Rmult_le_compat_l; [exact Hs | lra].
Qed.

Lemma spread_narrows_with_time_scenario :
  exists s1 s2,
    calculate_optimal_spread scenario_params 10 (-40) = Ret s1
    /\ calculate_optimal_spread scenario_params 50 (-40) = Ret s2
    /\ s2 <= s1.
Proof.
  apply (@spread_narrows_with_time scenario_params 10 50 (-40)%Z);
    cbn; try lra; lia.
Defined.

(** ** How the calls of the strategy compose *)

Section TraceFacts.

Variable W : Type.

Lemma extends_issued (A : Type) (m : io (state W) A) (st : state W) :
  extends m -> calls (snd (m st)) = calls st ++ issued m st.
Proof.
  intros H. destruct (H st) as [new Hnew].
  rewrite (@issued_app W A m st new Hnew). exact Hnew.
Qed.

Lemma extends_ret (A : Type) (a : A) : extends (@io_ret (state W) A a).
Proof. intros st. exists []. cbn. now rewrite app_nil_r. Qed.

Lemma extends_raise (A : Type) (e : exn) : extends (@io_raise (state W) A e).
Proof. intros st. exists []. cbn. now rewrite app_nil_r. Qed.

Lemma extends_lift (A : Type) (r : result A) : extends (@io_lift (state W) A r).
Proof. intros st. exists []. cbn. now rewrite app_nil_r. Qed.

Lemma extends_call (A : Type) (c : api_call) (m : io W A) : extends (call c m).
Proof.
  intros st. exists [c]. unfold call. destruct (m (world st)). reflexivity.
Qed.

Lemma extends_bind (A B : Type) (m : io (state W) A) (f : A -> io (state W) B) :
  extends m -> (forall a, extends (f a)) -> extends (io_bind m f).
Proof.
  intros Hm Hf st. unfold io_bind.
  destruct (Hm st) as [new1 H1].
  destruct (m st) as [[a | e] st1]; cbn [snd] in H1.
  - destruct (Hf a st1) as [new2 H2]. exists (new1 ++ new2).
    rewrite H2, H1. now rewrite app_assoc.
  - exists new1. exact H1.
Qed.

Lemma extends_try (A : Type) (body : io (state W) A) (handler : exn -> io (state W) A) :
  extends body -> (forall e, extends (handler e)) -> extends (try_except body handler).
Proof.
  intros Hb Hh st. unfold try_except.
  destruct (Hb st) as [new1 H1].
  destruct (body st) as [[a | e] st1]; cbn [snd] in H1.
  - exists new1. exact H1.
  - destruct (Hh e st1) as [new2 H2]. exists (new1 ++ new2).
    rewrite H2, H1. now rewrite app_assoc.
Qed.

(** The calls of [m] followed by [f]: those of [m], then those of [f] on
    what [m] returned; nothing more once [m] has raised. *)
Lemma issued_bind (A B : Type) (m : io (state W) A) (f : A -> io (state W) B)
  (st : state W) :
  extends m -> (forall a, extends (f a)) ->
  issued (io_bind m f) st
  = issued m st
    ++ match m st with
       | (Ret a, st1) => issued (f a) st1
       | (Raise _, _) => []
       end.
Proof.
  intros Hm Hf. apply issued_app. unfold io_bind.
  pose proof (extends_issued st Hm) as H1.
  destruct (m st) as [[a | e] st1] eqn:E; cbn [snd] in H1.
  - rewrite (extends_issued st1 (Hf a)), H1. now rewrite app_assoc.
  - cbn [snd]. rewrite H1. now rewrite app_nil_r.
Qed.

Variable clock : W -> R.
Variable api : AbstractTradingAPI W.
Variable self : params.

Lemma scan_orders_extends (orders : list order) (desired_price : R)
  (desired_size : Z) :
  forall keep_order,
    extends (scan_orders api self orders desired_price desired_size keep_order).
Proof.
  induction orders as [| order rest IH]; intros keep_order; cbn [scan_orders].
  - apply extends_ret.
  - destruct keep_order as [o |];
      [| destruct (matches self desired_price desired_size order); [apply IH |]];
      (apply extends_bind; [apply extends_call | intros _; apply IH]).
Qed.

Lemma handle_order_side_extends (action : string) (orders : list order)
  (desired_price : R) (desired_size : Z) :
  extends (handle_order_side clock api self action orders desired_price desired_size).
Proof.
  unfold handle_order_side.
  apply extends_bind; [apply scan_orders_extends | intros keep_order].
  apply extends_bind; [apply extends_call | intros mid_prices].
  apply extends_bind; [apply extends_lift | intros current_price].
  destruct keep_order as [o |]; [apply extends_ret |].
  destruct (improves action desired_price current_price); [| apply extends_ret].
  apply extends_try; [| intros e; apply extends_ret].
  intros st. unfold io_bind.
  match goal with
  | |- context [call ?c ?m st] => destruct (extends_call c m st) as [new Hnew];
      destruct (call c m st) as [[a | e] st1]; exists new; exact Hnew
  end.
Qed.

Lemma manage_orders_extends (bid_price ask_price : R) (buy_size sell_size : Z) :
  extends (manage_orders clock api self bid_price ask_price buy_size sell_size).
Proof.
  unfold manage_orders.
  apply extends_bind; [apply extends_call | intros current_orders]. cbv zeta.
  apply extends_bind; [apply handle_order_side_extends | intros _].
  apply handle_order_side_extends.
Qed.

Lemma tick_extends (current_time : R) :
  extends (tick clock api self current_time).
Proof.
  unfold tick.
  apply extends_bind; [apply extends_call | intros mid_prices].
  apply extends_bind; [apply extends_lift | intros mid_price].
  apply extends_bind; [apply extends_call | intros inventory].
  apply extends_bind; [apply extends_lift | intros n].
  apply extends_bind; [apply extends_lift | intros r].
  apply extends_bind; [apply extends_lift | intros [bid_price ask_price]].
  destruct (calculate_order_sizes self n) as [buy_size sell_size].
  apply manage_orders_extends.
Qed.

End TraceFacts.

(** ** Further facts on the order reconciler *)

Lemma filter_place_cancels (l : list order) : filter is_place (map cancel_of l) = [].
Proof. induction l as [| o l IH]; [reflexivity | exact IH]. Qed.

Lemma filter_cancel_cancels (l : list order) :
  filter is_cancel (map cancel_of l) = map cancel_of l.
Proof. induction l as [| o l IH]; [reflexivity | cbn; now f_equal]. Qed.

Lemma extraneous_after_keep (self : params) (desired_price : R) (desired_size : Z)
  (o : order) (l : list order) :
  extraneous self desired_price desired_size (Some o) l = l.
Proof. induction l as [| x l IH]; [reflexivity | cbn; now f_equal]. Qed.

Lemma extraneous_incl (self : params) (desired_price : R) (desired_size : Z)
  (orders : list order) :
  incl (extraneous self desired_price desired_size None orders) orders.
Proof.
  induction orders as [| x rest IH]; cbn [extraneous]; [apply incl_refl |].
  destruct (matches self desired_price desired_size x).
  - rewrite extraneous_after_keep. apply incl_tl, incl_refl.
  - apply incl_cons; [left; reflexivity | apply incl_tl; exact IH].
Qed.

Section PassFacts.

Variable W : Type.
Variable clock : W -> R.
Variable api : AbstractTradingAPI W.
Variable self : params.
Variable action : string.
Variable orders : list order.
Variable desired_price : R.
Variable desired_size : Z.
Variable st : state W.

Abbreviation pass :=
  (handle_order_side clock api self action orders desired_price desired_size).

(** A placement of the pass carries the pass's own arguments, and the price
    fetched again was above (buy) or below (sell) the desired price. *)
Lemma pass_placement (a s : string) (p q : num) (e : option Z) :
  In (PlaceOrder a s p q e) (issued pass st) ->
  a = action /\ s = trade_side self
  /\ p = PFloat desired_price /\ q = PInt desired_size
  /\ exists w mid_prices w' current_price,
       get_price api w = (Ret mid_prices, w')
       /\ subscript mid_prices (trade_side self) = Ret current_price
       /\ improves action desired_price current_price = true.
Proof.
  intros Hin.
  destruct (handle_order_side_issued clock api self desired_price desired_size
              action orders st)
    as [(n & ex & st1 & _ & _ & Hnew) | (st1 & Hscan & [Hnew | Hplace])].
  - rewrite Hnew in Hin. apply cancel_of_not_place in Hin. discriminate Hin.
  - rewrite Hnew in Hin. apply in_app_iff in Hin. destruct Hin as [Hin | [Hin | []]].
    + apply cancel_of_not_place in Hin. discriminate Hin.
    + discriminate Hin.
  - destruct Hplace as (_ & mid_prices & st2 & current_price & Hr & Hsub & Hi & Hnew).
    rewrite Hnew in Hin. apply in_app_iff in Hin.
    destruct Hin as [Hin | [Hin | [Hin | []]]].
    + apply cancel_of_not_place in Hin. discriminate Hin.
    + discriminate Hin.
    + injection Hin as <- <- <- <- <-.
      repeat split.
      exists (world st1), mid_prices, (world st2), current_price.
      repeat split; try assumption. apply refetched_price. exact Hr.
Qed.

(** A cancel of the pass names one of the orders it was given. *)
Lemma pass_cancel (id : string) :
  In (CancelOrder id) (issued pass st) ->
  exists o, In o orders /\ order_id o = id.
Proof.
  intros Hin.
  assert (Hext : forall l,
             incl l (extraneous self desired_price desired_size None orders) ->
             In (CancelOrder id) (map cancel_of l) ->
             exists o, In o orders /\ order_id o = id).
  { intros l Hl H. apply in_map_iff in H. destruct H as (o & Ho & Hino).
    exists o. split.
    - apply (@extraneous_incl self desired_price desired_size orders). apply Hl. exact Hino.
    - injection Ho as ->. reflexivity. }
  assert (Hfirst : forall n (l : list order), incl (firstn n l) l).
  { intros n l x Hx. rewrite <- (firstn_skipn n l). apply in_app_iff. left. exact Hx. }
  destruct (handle_order_side_issued clock api self desired_price desired_size
              action orders st)
    as [(n & ex & st1 & _ & _ & Hnew) | (st1 & Hscan & [Hnew | Hplace])].
  - rewrite Hnew in Hin. eapply Hext; [apply Hfirst | exact Hin].
  - rewrite Hnew in Hin. apply in_app_iff in Hin. destruct Hin as [Hin | [Hin | []]].
    + eapply Hext; [apply incl_refl | exact Hin].
    + discriminate Hin.
  - destruct Hplace as (_ & mid_prices & st2 & current_price & _ & _ & _ & Hnew).
    rewrite Hnew in Hin. apply in_app_iff in Hin.
    destruct Hin as [Hin | [Hin | [Hin | []]]].
    + eapply Hext; [apply incl_refl | exact Hin].
    + discriminate Hin.
    + discriminate Hin.
Qed.

End PassFacts.

(** X9. One pass of [handle_order_side] issues at most one [place_order]
    call and fetches the price at most once. *)
Theorem at_most_one_placement (W : Type) (clock : W -> R)
  (api : AbstractTradingAPI W) (self : params) (action : string)
  (orders : list order) (desired_price : R) (desired_size : Z) (st : state W) :
  (length (filter is_place
             (issued (handle_order_side clock api self action orders
                        desired_price desired_size) st)) <= 1)%nat
  /\ (length (filter is_get_price
                (issued (handle_order_side clock api self action orders
                           desired_price desired_size) st)) <= 1)%nat.
Proof.
  assert (Hgp : forall l, filter is_get_price (map cancel_of l) = [])
    by (induction l as [| o l IH]; [reflexivity | exact IH]).
  destruct (handle_order_side_issued clock api self desired_price desired_size
              action orders st)
    as [(n & ex & st1 & _ & _ & ->) | (st1 & _ & [-> | (_ & mp & st2 & cp & _ & _ & _ & ->)])];
    rewrite ?filter_app, ?filter_place_cancels, ?Hgp; cbn; lia.
Qed.

(** What [extraneous] is when no order passes the test. *)
Lemma extraneous_none_match (self : params) (desired_price : R) (desired_size : Z)
  (orders : list order) :
  Forall (fun x => matches self desired_price desired_size x = false) orders ->
  extraneous self desired_price desired_size None orders = orders.
Proof.
  induction 1 as [| x rest Hx _ IH]; cbn [extraneous]; [reflexivity |].
  rewrite Hx. f_equal. exact IH.
Qed.

(** X10. When [cancel_order] never raises, a pass cancels, in list order,
    every order of the side except the first one that passes the test of
    line 139 ([matches]): when an order [o] passes it and the orders [pre]
    before it do not, the cancels are those of [pre] and of every order
    behind [o], so that [o] and only [o] is spared; when no order passes
    it, the cancels are those of the whole side. *)
Theorem pass_cancels_all_but_first_match (W : Type) (clock : W -> R)
  (api : AbstractTradingAPI W) (self : params) (action : string)
  (orders : list order) (desired_price : R) (desired_size : Z) (st : state W) :
  (forall id, never_raises (cancel_order api id)) ->
  let cancels :=
    filter is_cancel
      (issued (handle_order_side clock api self action orders
                 desired_price desired_size) st) in
  (Forall (fun x => matches self desired_price desired_size x = false) orders ->
   cancels = map cancel_of orders)
  /\ (forall pre o post,
        orders = pre ++ o :: post ->
        Forall (fun x => matches self desired_price desired_size x = false) pre ->
        matches self desired_price desired_size o = true ->
        cancels = map cancel_of (pre ++ post)).
Proof.
  intros Hcancel cancels.
  assert (Hc : cancels
               = map cancel_of
                   (extraneous self desired_price desired_size None orders)).
  { unfold cancels.
    destruct (handle_order_side_issued clock api self desired_price desired_size
                action orders st)
      as [(n & ex & st1 & _ & Hscan & _)
         | (st1 & _ & [-> | (_ & mp & st2 & cp & _ & _ & _ & ->)])].
    + destruct (@scan_orders_returns W api self desired_price desired_size Hcancel
                  orders None st) as (k & st1' & Hret).
      rewrite Hret in Hscan. discriminate Hscan.
    + rewrite filter_app, filter_cancel_cancels. cbn. now rewrite app_nil_r.
    + rewrite filter_app, filter_cancel_cancels. cbn. now rewrite app_nil_r. }
  split.
  - intros Hnone. rewrite Hc. f_equal. apply extraneous_none_match. exact Hnone.
  - intros pre o post -> Hpre Ho. rewrite Hc. f_equal.
    apply (@first_match_kept self desired_price desired_size pre post o Hpre Ho).
Qed.

(** Against 0.45, of the buys at 46, 45 and 45 cents the first at 45 is the
    one spared. *)
Lemma pass_cancels_all_but_first_match_live :
  filter is_cancel
    (issued (handle_order_side (@stopped_clock _) live_api scenario_params "buy"
               [resting_buy "A" 46; resting_buy "B" 45; resting_buy "C" 45]
               0.45 10) start)
  = [CancelOrder "A"; CancelOrder "C"].
Proof.
  apply (proj2 (@pass_cancels_all_but_first_match unit (@stopped_clock _) live_api
                  scenario_params "buy"
                  [resting_buy "A" 46; resting_buy "B" 45; resting_buy "C" 45]
                  0.45 10 start live_cancel_never_raises)
           [resting_buy "A" 46] (resting_buy "B" 45) [resting_buy "C" 45]).
  - reflexivity.
  - constructor; [apply one_cent_away_no_match | constructor].
  - apply same_price_match.
Defined.

(** X11. A [cancel_order] that raises is not absorbed: when the first order of
    the side does not pass the test of line 139 (evaluated in binary64) and
    its cancel raises, the pass ends there with that exception, after this
    one call: the other orders are left alone, the price is not fetched and
    nothing is placed. *)
Theorem cancel_failure_aborts_pass (W : Type) (clock : W -> R)
  (api : AbstractTradingAPI W) (self : params) (action : string)
  (o : order) (rest : list order) (desired_price : R) (desired_size : Z)
  (st : state W) (e : exn) (w1 : W) :
  ~ (Rabs (Py.b64 (order_price self o - Py.b64 desired_price)) < Py.b64 0.01
     /\ remaining_count o = desired_size) ->
  cancel_order api (order_id o) (world st) = (Raise e, w1) ->
  handle_order_side clock api self action (o :: rest) desired_price desired_size st
  = (Raise e, {| calls := calls st ++ [CancelOrder (order_id o)]; world := w1 |}).
Proof.
  intros Hno Hc.
  assert (Hm : matches self desired_price desired_size o = false).
  { destruct (matches self desired_price desired_size o) eqn:E; [| reflexivity].
    apply matches_iff in E. contradiction. }
  unfold handle_order_side. cbn [scan_orders]. rewrite Hm.
  unfold io_bind. rewrite (call_step _ _ _ Hc). reflexivity.
Qed.

Lemma cancel_failure_aborts_pass_witness :
  handle_order_side (@stopped_clock _) cancel_raises_api scenario_params "buy"
    (resting_buy "A" 40 :: [resting_buy "B" 45]) 0.45 10 start
  = (Raise (RequestException "timeout"),
     {| calls := calls start ++ [CancelOrder (order_id (resting_buy "A" 40))];
        world := tt |}).
Proof.
  apply (@cancel_failure_aborts_pass unit (@stopped_clock _) cancel_raises_api
           scenario_params "buy" (resting_buy "A" 40) [resting_buy "B" 45]
           0.45 10 start (RequestException "timeout") tt).
  - intros H. apply matches_iff in H. rewrite far_price_unmatched in H.
    discriminate H.
  - reflexivity.
Defined.

(** ** The calls of [manage_orders] and of a tick *)

Ltac solve_extends :=
  repeat first
    [ apply manage_orders_extends
    | apply handle_order_side_extends
    | apply extends_call
    | apply extends_lift
    | apply extends_ret
    | apply extends_bind
    | match goal with
      | |- forall _, extends _ => intro
      | |- extends (match ?x with _ => _ end) => destruct x
      end ].

Section TickFacts.

Variable W : Type.
Variable clock : W -> R.
Variable api : AbstractTradingAPI W.
Variable self : params.

Lemma issued_call (A : Type) (c : api_call) (m : io W A) (st : state W) :
  issued (call c m) st = [c].
Proof.
  apply issued_app. unfold call. destruct (m (world st)). reflexivity.
Qed.

Lemma issued_lift (A : Type) (r : result A) (st : state W) :
  issued (@io_lift (state W) A r) st = [].
Proof. apply issued_app. cbn. now rewrite app_nil_r. Qed.

Lemma issued_bind_call (A B : Type) (c : api_call) (m : io W A)
  (f : A -> io (state W) B) (st : state W) :
  (forall a, extends (f a)) ->
  issued (io_bind (call c m) f) st
  = c :: match m (world st) with
         | (Ret a, w1) => issued (f a) {| calls := calls st ++ [c]; world := w1 |}
         | (Raise _, _) => []
         end.
Proof.
  intros Hf. rewrite issued_bind; [| apply extends_call | exact Hf].
  rewrite issued_call. unfold call.
  destruct (m (world st)) as [[a | e] w1]; reflexivity.
Qed.

Lemma issued_bind_lift (A B : Type) (r : result A) (f : A -> io (state W) B)
  (st : state W) :
  (forall a, extends (f a)) ->
  issued (io_bind (io_lift r) f) st
  = match r with
    | Ret a => issued (f a) st
    | Raise _ => []
    end.
Proof.
  intros Hf. rewrite issued_bind; [| apply extends_lift | exact Hf].
  rewrite issued_lift. unfold io_lift. destruct r; reflexivity.
Qed.

(** The sides [manage_orders] builds from the order list (lines 116-124). *)
Lemma manage_orders_issued (bid_price ask_price : R) (buy_size sell_size : Z)
  (st : state W) (c : api_call) :
  In c (issued (manage_orders clock api self bid_price ask_price buy_size sell_size) st) ->
  c = GetOrders
  \/ exists current_orders w1,
       get_orders api (world st) = (Ret current_orders, w1)
       /\ let on_side :=
            filter (fun o => String.eqb (side o) (trade_side self)) current_orders in
          (exists st1,
              In c (issued (handle_order_side clock api self "buy"
                              (filter (fun o => String.eqb (action o) "buy") on_side)
                              bid_price buy_size) st1))
          \/ (exists st2,
                In c (issued (handle_order_side clock api self "sell"
                                (filter (fun o => negb (String.eqb (action o) "buy")
                                                  && String.eqb (action o) "sell")
                                        on_side)
                                ask_price sell_size) st2)).
Proof.
  unfold manage_orders.
  rewrite issued_bind;
    [| apply extends_call
     | intros current_orders; cbv zeta;
       apply extends_bind; [apply handle_order_side_extends
                           | intros _; apply handle_order_side_extends]].
  rewrite issued_call. intros [<- | Hin]; [left; reflexivity |]. right.
  unfold call in Hin.
  destruct (get_orders api (world st)) as [[current_orders | e] w1]; [| destruct Hin].
  exists current_orders, w1. split; [reflexivity |]. cbv beta iota zeta in Hin |- *.
  cbn [app] in Hin.
  rewrite issued_bind in Hin;
    [| apply handle_order_side_extends | intros _; apply handle_order_side_extends].
  apply in_app_iff in Hin. destruct Hin as [Hin | Hin].
  - left. eexists. exact Hin.
  - right.
    match type of Hin with
    | In _ match ?x with _ => _ end => destruct x as [[u | e] st2]
    end; [| destruct Hin].
    eexists. exact Hin.
Qed.

(** The calls of a tick: the price, the position, then those of
    [manage_orders] on the quote and the sizes computed in between. *)
Lemma tick_issued (current_time : R) (st : state W) :
  issued (tick clock api self current_time) st = [GetPrice]
  \/ issued (tick clock api self current_time) st = [GetPrice; GetPosition]
  \/ exists mid_price inventory bid_price ask_price st1,
       calculate_asymmetric_quotes self mid_price inventory current_time
       = Ret (bid_price, ask_price)
       /\ issued (tick clock api self current_time) st
          = [GetPrice; GetPosition]
            ++ issued (manage_orders clock api self bid_price ask_price
                         (fst (calculate_order_sizes self inventory))
                         (snd (calculate_order_sizes self inventory))) st1.
Proof.
  unfold tick.
  rewrite issued_bind_call by solve_extends.
  destruct (get_price api (world st)) as [[mid_prices | e] w1]; [| left; reflexivity].
  rewrite issued_bind_lift by solve_extends.
  destruct (subscript mid_prices (trade_side self)) as [mid_price | e];
    [| left; reflexivity].
  rewrite issued_bind_call by solve_extends. cbn [world].
  destruct (get_position api w1) as [[reply | e] w2]; [| right; left; reflexivity].
  rewrite issued_bind_lift by solve_extends.
  destruct (as_number reply) as [inventory | e]; [| right; left; reflexivity].
  rewrite issued_bind_lift by solve_extends.
  destruct (calculate_reservation_price self mid_price inventory current_time)
    as [r | e]; [| right; left; reflexivity].
  rewrite issued_bind_lift by solve_extends.
  destruct (calculate_asymmetric_quotes self mid_price inventory current_time)
    as [[bid_price ask_price] | e] eqn:Eq; [| right; left; reflexivity].
  right. right. exists mid_price, inventory, bid_price, ask_price. eexists.
  split; [exact Eq |].
  destruct (calculate_order_sizes self inventory) as [buy_size sell_size].
  reflexivity.
Qed.

End TickFacts.

Ltac run_venue :=
  lazy beta iota zeta delta [io_ret io_bind io_raise call io_lift try_except
    live_api book_api null_price_api cancel_raises_api
    cancel_order get_price place_order get_orders get_position world calls
    start subscript trade_side scenario_params zero_limit_params fst snd app
    length skipn order_id side action resting_buy other_side_order
    order_expiration max_position as_number filter negb andb
    String.eqb Ascii.eqb Bool.eqb].

Ltac run_venue_in H :=
  lazy beta iota zeta delta [io_ret io_bind io_raise call io_lift try_except
    live_api book_api null_price_api cancel_raises_api
    cancel_order get_price place_order get_orders get_position world calls
    start subscript trade_side scenario_params zero_limit_params fst snd app
    length skipn order_id side action resting_buy other_side_order
    order_expiration max_position as_number filter negb andb
    String.eqb Ascii.eqb Bool.eqb] in H.

Lemma live_sell_improves : improves "sell" 0.55 0.5 = true.
Proof. apply improves_iff. right. split; [reflexivity | lra]. Qed.

(** One round of [manage_orders] on the two-sided book. *)
Lemma book_round :
  issued (manage_orders (@stopped_clock _) book_api scenario_params
            0.45 0.55 10 10) start
  = [GetOrders; CancelOrder "A"; GetPrice;
     PlaceOrder "buy" "yes" (PFloat 0.45) (PInt 10) (Some 1700003600%Z);
     GetPrice;
     PlaceOrder "sell" "yes" (PFloat 0.55) (PInt 10) (Some 1700003600%Z)].
Proof.
  pose proof (far_price_unmatched "A") as Hfar. run_venue_in Hfar.
  unfold issued, manage_orders, handle_order_side. run_venue.
  cbn [scan_orders]. rewrite Hfar. run_venue.
  rewrite live_buy_improves. run_venue.
  rewrite live_sell_improves. run_venue.
  rewrite !stopped_clock_int. reflexivity.
Qed.

(** X12. [manage_orders] only cancels orders of the traded side: every
    [cancel_order] it issues names an order of the list [get_orders]
    returned whose side is [trade_side] and whose action is buy or sell. *)
Theorem manage_orders_cancels_own_side (W : Type) (clock : W -> R)
  (api : AbstractTradingAPI W) (self : params) (bid_price ask_price : R)
  (buy_size sell_size : Z) (st : state W) (id : string) :
  In (CancelOrder id)
     (issued (manage_orders clock api self bid_price ask_price buy_size sell_size) st) ->
  exists current_orders w1 o,
    get_orders api (world st) = (Ret current_orders, w1)
    /\ In o current_orders
    /\ order_id o = id
    /\ side o = trade_side self
    /\ (action o = "buy"%string \/ action o = "sell"%string).
Proof.
  intros Hin. apply manage_orders_issued in Hin.
  destruct Hin as [Hin | (current_orders & w1 & Hget & Hin)]; [discriminate Hin |].
  exists current_orders, w1. cbv zeta in Hin.
  destruct Hin as [[st1 Hin] | [st2 Hin]];
    apply pass_cancel in Hin; destruct Hin as (o & Ho & Hid);
    apply filter_In in Ho; destruct Ho as [Ho Hact];
    apply filter_In in Ho; destruct Ho as [Ho Hside];
    exists o; repeat split; try assumption; try (apply String.eqb_eq; exact Hside).
  - left. apply String.eqb_eq. exact Hact.
  - right. apply andb_true_iff in Hact. apply String.eqb_eq. apply Hact.
Qed.

Lemma manage_orders_cancels_own_side_book :
  exists current_orders w1 o,
    get_orders book_api (world start) = (Ret current_orders, w1)
    /\ In o current_orders
    /\ order_id o = "A"%string
    /\ side o = trade_side scenario_params
    /\ (action o = "buy"%string \/ action o = "sell"%string).
Proof.
  apply (@manage_orders_cancels_own_side unit (@stopped_clock _) book_api
           scenario_params 0.45 0.55 10 10 start "A").
  rewrite book_round. right. left. reflexivity.
Defined.

Lemma quotes_clamped (self : params) (mid_price t : R) (inventory : Z)
  (bid_price ask_price : R) :
  calculate_asymmetric_quotes self mid_price inventory t = Ret (bid_price, ask_price) ->
  0 <= bid_price /\ ask_price <= 1.
Proof.
  unfold calculate_asymmetric_quotes.
  destruct (asymmetric_spreads self mid_price inventory t) as [[[r bs] asp] | e];
    [| discriminate].
  cbn [Py.bind]. intros H. injection H as <- <-.
  split; [apply max_lower_l | apply min_upper_l].
Qed.

Lemma order_sizes_positive (self : params) (inventory : Z) :
  (1 <= fst (calculate_order_sizes self inventory))%Z
  /\ (1 <= snd (calculate_order_sizes self inventory))%Z.
Proof.
  unfold calculate_order_sizes. destruct (0 <? inventory)%Z; cbn [fst snd]; lia.
Qed.

Lemma subscript_member (mid_prices : price_reply) (key : string) (current_price : R) :
  subscript mid_prices key = Ret current_price ->
  exists yes no,
    mid_prices = Some (yes, no) /\ (current_price = yes \/ current_price = no).
Proof.
  destruct mid_prices as [[yes no] |]; [| discriminate]. cbn [subscript].
  destruct (String.eqb key "yes");
    [| destruct (String.eqb key "no"); [| discriminate]];
    intros H; injection H as <-; exists yes, no; split; auto.
Qed.

Lemma scenario_quotes :
  calculate_asymmetric_quotes scenario_params 0.5 0 0
  = Ret (scenario_bid, scenario_ask).
Proof.
  unfold calculate_asymmetric_quotes. rewrite scenario_spreads. reflexivity.
Qed.

Lemma scenario_bid_below_mid : scenario_bid < 0.5 < scenario_ask.
Proof.
  assert (Hs : 0.01 <= scenario_spread) by (unfold scenario_spread; apply max_lower_r).
  unfold scenario_bid, scenario_ask, Py.max, Py.min. split.
  - destruct (Rlt_dec (0.5 - scenario_spread / 2) 0.5);
      destruct (Rlt_dec 0 _); lra.
  - destruct (Rlt_dec 0.5 (0.5 + scenario_spread / 2)); [| lra].
    destruct (Rlt_dec _ 1); lra.
Qed.

(** The tick of the scenario on the live venue with an empty book. *)
Lemma scenario_tick :
  issued (tick (@stopped_clock _) live_api scenario_params 0) start
  = [GetPrice; GetPosition; GetOrders; GetPrice;
     PlaceOrder "buy" "yes" (PFloat scenario_bid) (PInt 100) (Some 1700003600%Z);
     GetPrice;
     PlaceOrder "sell" "yes" (PFloat scenario_ask) (PInt 10) (Some 1700003600%Z)].
Proof.
  destruct (@reservation_price_returns scenario_params) with (mid_price := 0.5)
    (inventory := 0%Z) (t := 0) as [r Er]; [cbn; discriminate | cbn; lra |].
  assert (Hb : improves "buy" scenario_bid 0.5 = true).
  { apply improves_iff. left. split; [reflexivity | apply scenario_bid_below_mid]. }
  assert (Ha : improves "sell" scenario_ask 0.5 = true).
  { apply improves_iff. right. split; [reflexivity | apply scenario_bid_below_mid]. }
  unfold tick.
  rewrite issued_bind_call by solve_extends. cbn [live_api get_price io_ret world].
  rewrite issued_bind_lift by solve_extends.
  cbn [subscript trade_side scenario_params String.eqb Ascii.eqb Bool.eqb].
  rewrite issued_bind_call by solve_extends. cbn [live_api get_position io_ret world].
  rewrite issued_bind_lift by solve_extends. cbn [as_number].
  rewrite issued_bind_lift by solve_extends. fold scenario_params. rewrite Er.
  rewrite issued_bind_lift by solve_extends. rewrite scenario_quotes.
  rewrite scenario_order_sizes.
  unfold issued, manage_orders, handle_order_side.
  run_venue. cbn [scan_orders]. run_venue.
  rewrite Hb. run_venue. cbn [scan_orders]. run_venue.
  rewrite Ha. run_venue.
  rewrite !stopped_clock_int. reflexivity.
Qed.

(** X13. Every order a tick places is a buy or a sell on the traded side
    with a size of at least one, at a bid that is not negative or an ask
    that is not above one; when moreover the venue's prices lie in [0,1], a
    buy is placed at a price in [0,1) and a sell at a price in (0,1]. *)
Theorem tick_places_inside_market (W : Type) (clock : W -> R)
  (api : AbstractTradingAPI W) (self : params) (current_time : R) (st : state W)
  (a s : string) (p q : num) (e : option Z) :
  In (PlaceOrder a s p q e) (issued (tick clock api self current_time) st) ->
  s = trade_side self
  /\ exists price size,
       p = PFloat price /\ q = PInt size /\ (1 <= size)%Z
       /\ ((a = "buy"%string /\ 0 <= price) \/ (a = "sell"%string /\ price <= 1))
       /\ ((forall w yes no w',
              get_price api w = (Ret (Some (yes, no)), w') ->
              0 <= yes <= 1 /\ 0 <= no <= 1) ->
           (a = "buy"%string /\ 0 <= price < 1)
           \/ (a = "sell"%string /\ 0 < price <= 1)).
Proof.
  intros Hin.
  destruct (tick_issued clock api self current_time st)
    as [E | [E | (mid_price & inventory & bid_price & ask_price & st1 & Hq & E)]];
    rewrite E in Hin.
  - destruct Hin as [Hin | []]. discriminate Hin.
  - destruct Hin as [Hin | [Hin | []]]; discriminate Hin.
  - destruct Hin as [Hin | [Hin | Hin]]; [discriminate Hin | discriminate Hin |].
    cbn [app] in Hin.
    destruct (@quotes_clamped _ _ _ _ _ _ Hq) as [Hbid Hask].
    destruct (order_sizes_positive self inventory) as [Hbuy Hsell].
    apply manage_orders_issued in Hin.
    destruct Hin as [Hin | (current_orders & w1 & _ & Hin)]; [discriminate Hin |].
    cbv zeta in Hin.
    destruct Hin as [[st2 Hin] | [st2 Hin]];
      apply pass_placement in Hin;
      destruct Hin as (-> & -> & -> & -> & w & mid_prices & w' & current_price
                       & Hget & Hsub & Himp);
      (split; [reflexivity |]);
      destruct (@subscript_member _ _ _ Hsub) as (yes & no & -> & Hcur);
      apply improves_iff in Himp;
      do 2 eexists; (split; [reflexivity |]); (split; [reflexivity |]);
      (split; [assumption |]).
    + split; [left; split; [reflexivity | exact Hbid] |].
      intros Hprices. destruct (Hprices _ _ _ _ Hget) as [Hyes Hno].
      left. split; [reflexivity |].
      destruct Himp as [[_ Hlt] | [Hne _]]; [| discriminate Hne].
      destruct Hcur as [-> | ->]; lra.
    + split; [right; split; [reflexivity | exact Hask] |].
      intros Hprices. destruct (Hprices _ _ _ _ Hget) as [Hyes Hno].
      right. split; [reflexivity |].
      destruct Himp as [[Hne _] | [_ Hlt]]; [discriminate Hne |].
      destruct Hcur as [-> | ->]; lra.
Qed.

(** The buy of the scenario's tick on the live venue, whose prices are
    0.50: it is on the traded side, of size 100, at a bid in [0,1). *)
Lemma tick_places_inside_market_scenario :
  "yes"%string = trade_side scenario_params
  /\ (1 <= 100)%Z
  /\ 0 <= scenario_bid < 1.
Proof.
  destruct (@tick_places_inside_market unit (@stopped_clock _) live_api
              scenario_params 0 start "buy" "yes" (PFloat scenario_bid) (PInt 100)
              (Some 1700003600%Z))
    as (Hside & price & size & Hp & Hq & Hsize & _ & Hprice).
  - rewrite scenario_tick. do 4 right. left. reflexivity.
  - injection Hp as <-. injection Hq as <-.
    split; [exact Hside |]. split; [exact Hsize |].
    destruct Hprice as [[_ Hb] | [Hs _]].
    + intros w yes no w' H. injection H as <- <- _. lra.
    + exact Hb.
    + discriminate Hs.
Defined.

Lemma pass_call_kinds (W : Type) (clock : W -> R) (api : AbstractTradingAPI W)
  (self : params) (action : string) (orders : list order) (desired_price : R)
  (desired_size : Z) (st : state W) (c : api_call) :
  In c (issued (handle_order_side clock api self action orders desired_price
                  desired_size) st) ->
  is_cancel c || is_get_price c || is_place c = true.
Proof.
  assert (Hc : forall l, In c (map cancel_of l) ->
                         is_cancel c || is_get_price c || is_place c = true).
  { intros l H. apply in_map_iff in H. destruct H as (o & <- & _). reflexivity. }
  intros Hin.
  destruct (handle_order_side_issued clock api self desired_price desired_size
              action orders st)
    as [(n & ex & st1 & _ & _ & Hnew)
       | (st1 & _ & [Hnew | (_ & mp & st2 & cp & _ & _ & _ & Hnew)])];
    rewrite Hnew in Hin.
  - eapply Hc. exact Hin.
  - apply in_app_iff in Hin. destruct Hin as [Hin | [<- | []]];
      [eapply Hc; exact Hin | reflexivity].
  - apply in_app_iff in Hin. destruct Hin as [Hin | [<- | [<- | []]]];
      [eapply Hc; exact Hin | reflexivity | reflexivity].
Qed.

Lemma manage_orders_head (W : Type) (clock : W -> R) (api : AbstractTradingAPI W)
  (self : params) (bid_price ask_price : R) (buy_size sell_size : Z)
  (st : state W) :
  exists rest,
    issued (manage_orders clock api self bid_price ask_price buy_size sell_size) st
    = GetOrders :: rest
    /\ forall c, In c rest -> is_cancel c || is_get_price c || is_place c = true.
Proof.
  unfold manage_orders.
  rewrite issued_bind_call
    by (intros current_orders; cbv zeta;
        apply extends_bind; [apply handle_order_side_extends
                            | intros _; apply handle_order_side_extends]).
  eexists. split; [reflexivity |].
  destruct (get_orders api (world st)) as [[current_orders | e] w1];
    [| intros c []].
  cbv zeta. intros c Hin.
  rewrite issued_bind in Hin;
    [| apply handle_order_side_extends | intros _; apply handle_order_side_extends].
  apply in_app_iff in Hin. destruct Hin as [Hin | Hin].
  - eapply pass_call_kinds. exact Hin.
  - match type of Hin with
    | In _ match ?x with _ => _ end => destruct x as [[u | e] st2]
    end; [| destruct Hin].
    eapply pass_call_kinds. exact Hin.
Qed.

(** X14. A tick calls the interface in a fixed order: the price first, the
    position second, the order list third, each of the last two once at
    most; whatever follows is a cancel, a price fetch or a placement. *)
Theorem tick_fetches_first (W : Type) (clock : W -> R)
  (api : AbstractTradingAPI W) (self : params) (current_time : R) (st : state W) :
  issued (tick clock api self current_time) st = [GetPrice]
  \/ issued (tick clock api self current_time) st = [GetPrice; GetPosition]
  \/ exists rest,
       issued (tick clock api self current_time) st
       = GetPrice :: GetPosition :: GetOrders :: rest
       /\ forall c, In c rest ->
                    is_cancel c || is_get_price c || is_place c = true.
Proof.
  destruct (tick_issued clock api self current_time st)
    as [E | [E | (mid_price & inventory & bid_price & ask_price & st1 & _ & E)]].
  - left. exact E.
  - right. left. exact E.
  - right. right.
    destruct (manage_orders_head clock api self bid_price ask_price
                (fst (calculate_order_sizes self inventory))
                (snd (calculate_order_sizes self inventory)) st1)
      as (rest & Hrest & Hkinds).
    exists rest. split; [| exact Hkinds]. rewrite E, Hrest. reflexivity.
Qed.

(** X15. With [max_position = 0] a tick that got the price and the position
    raises [ZeroDivisionError] right after them: the order list is not
    fetched and no order is cancelled or placed. *)
Theorem tick_zero_limit (W : Type) (clock : W -> R)
  (api : AbstractTradingAPI W) (self : params) (current_time : R) (st : state W)
  (mid_prices : price_reply) (mid_price : R) (inventory : Z) (w1 w2 : W) :
  max_position self = 0%Z ->
  get_price api (world st) = (Ret mid_prices, w1) ->
  subscript mid_prices (trade_side self) = Ret mid_price ->
  get_position api w1 = (Ret (PosInt inventory), w2) ->
  tick clock api self current_time st
  = (Raise ZeroDivisionError,
     {| calls := (calls st ++ [GetPrice]) ++ [GetPosition]; world := w2 |}).
Proof.
  intros Hm E1 Es E2. unfold tick, io_bind. rewrite (call_step _ _ _ E1).
  unfold io_lift at 1. rewrite Es.
  match goal with
  | |- context [call GetPosition ?m ?s] =>
      rewrite (@call_step _ _ GetPosition m s (Ret (PosInt inventory)) w2 E2)
  end.
  unfold io_lift at 1. cbn [as_number].
  unfold io_lift at 1.
  unfold calculate_reservation_price, calculate_dynamic_gamma.
  rewrite Hm, div_zero. reflexivity.
Qed.

Lemma tick_zero_limit_witness :
  tick (@stopped_clock _) live_api zero_limit_params 0 start
  = (Raise ZeroDivisionError,
     {| calls := (calls start ++ [GetPrice]) ++ [GetPosition]; world := tt |}).
Proof.
  apply (@tick_zero_limit unit (@stopped_clock _) live_api zero_limit_params 0
           start (Some (0.5, 0.5)) 0.5 0%Z tt tt); reflexivity.
Defined.

(** X16. With a horizon [T <= 0] and a clock that does not go back, the
    loop of [run] ends at its first test: no tick runs and the interface is
    never called. *)
Theorem run_nonpositive_horizon (W : Type) (clock : W -> R) (elapse : W -> W)
  (sleep : R -> W -> W) (api : AbstractTradingAPI W) (self : params)
  (fuel : nat) (dt : R) (st : state W) :
  (forall w, clock w <= clock (elapse w)) ->
  T self <= 0 ->
  run clock elapse sleep api self (S fuel) dt st
  = (Ret (Some tt),
     {| calls := calls st; world := elapse (elapse (world st)) |}).
Proof.
  intros Hmono HT. unfold run. cbn [run_loop]. unfold io_bind, time_time.
  cbn [world calls].
  pose proof (Hmono (elapse (world st))) as H.
  destruct (Rlt_dec (clock (elapse (elapse (world st))) - clock (elapse (world st)))
              (T self)) as [Hlt | _]; [lra | reflexivity].
Qed.

Lemma run_nonpositive_horizon_witness :
  run (@stopped_clock _) (@no_elapse _) (@no_sleep _) live_api
    zero_horizon_params 3 1 start
  = (Ret (Some tt),
     {| calls := calls start; world := no_elapse (no_elapse (world start)) |}).
Proof.
  apply (@run_nonpositive_horizon unit (@stopped_clock _) (@no_elapse _)
           (@no_sleep _) live_api zero_horizon_params 2 1 start).
  - intros w. unfold stopped_clock. lra.
  - cbn. lra.
Defined.

(** X17. [run] has no handler of its own: when the loop is entered and the
    first tick raises, [run] ends with that exception in the state the tick
    left, with no sleep and no further tick. *)
Theorem run_stops_at_first_failure (W : Type) (clock : W -> R) (elapse : W -> W)
  (sleep : R -> W -> W) (api : AbstractTradingAPI W) (self : params)
  (fuel : nat) (dt : R) (st st' : state W) (e : exn) :
  let w1 := elapse (world st) in
  let w2 := elapse w1 in
  let w3 := elapse w2 in
  clock w2 - clock w1 < T self ->
  tick clock api self (clock w3 - clock w1) {| calls := calls st; world := w3 |}
  = (Raise e, st') ->
  run clock elapse sleep api self (S fuel) dt st = (Raise e, st').
Proof.
  intros w1 w2 w3 HT Htick. unfold run. cbn [run_loop].
  unfold io_bind at 1. unfold time_time at 1. cbn [world calls].
  unfold io_bind at 1. unfold time_time at 1. cbn [world calls].
  fold w1. fold w2.
  destruct (Rlt_dec (clock w2 - clock w1) (T self)) as [_ | N]; [| contradiction].
  unfold io_bind at 1. unfold time_time at 1. cbn [world calls]. fold w3.
  unfold io_bind at 1. rewrite Htick. reflexivity.
Qed.

Lemma run_stops_at_first_failure_null_price :
  run (@stopped_clock _) (@no_elapse _) (@no_sleep _) null_price_api
    scenario_params 5 1 start
  = (Raise TypeError, {| calls := [GetPrice]; world := tt |}).
Proof.
  apply (@run_stops_at_first_failure unit (@stopped_clock _) (@no_elapse _)
           (@no_sleep _) null_price_api scenario_params 4 1 start).
  - unfold stopped_clock. cbn. lra.
  - reflexivity.
Defined.

(** ** Further facts on the venue client *)

Lemma cents_in_range (cents : Z) (x : R) :
  Rabs (IZR cents - x) <= 1 / 2 -> 0 <= x <= 100 -> (0 <= cents <= 100)%Z.
Proof.
  intros Hc Hx.
  assert (Hb : - (1 / 2) <= IZR cents - x <= 1 / 2)
    by (unfold Rabs in Hc; destruct (Rcase_abs (IZR cents - x)); lra).
  split.
  - apply Z.lt_succ_r. apply lt_IZR. rewrite succ_IZR. lra.
  - apply Z.lt_succ_r. apply lt_IZR. rewrite succ_IZR. lra.
Qed.

Lemma fold_net_position (market : string) (positions : list position_entry) :
  forall total,
    fold_left
      (fun total p =>
         if String.eqb (ticker p) market then (total + position p)%Z else total)
      positions total
    = (total + net_position market positions)%Z.
Proof.
  unfold net_position.
  induction positions as [| p rest IH]; intros total; cbn [fold_left filter].
  - cbn. lia.
  - rewrite IH. destruct (String.eqb (ticker p) market); cbn [map fold_right]; lia.
Qed.

Section DecodingFacts.

Variable W : Type.
Variable clock : W -> R.
Variable sign : string -> W -> result string.
Variable send : request -> io W body.
Variable self : client.

(** The request goes through at [w]: the signer signs and the transport
    answers [data], leaving the world at [w']. *)
Variable w w' : W.
Variable data : body.
Hypothesis signs : forall msg, exists sig, sign msg w = Ret sig.
Hypothesis answers : forall rq, send rq w = (Ret data, w').

Ltac answered :=
  unfold try_except, io_bind, io_ret, io_raise;
  rewrite signed_headers_message; cbv zeta;
  match goal with
  | |- context [sign ?m w] => destruct (signs m) as [sig Esig]; rewrite Esig
  end;
  rewrite answers.

Lemma get_position_answered :
  kalshi_get_position clock sign send self w
  = (Ret (PosInt match data with
                 | PositionsBody (Some l) => net_position (market_ticker self) l
                 | _ => 0%Z
                 end), w').
Proof.
  unfold kalshi_get_position. answered.
  rewrite fold_net_position.
  destruct data as [[l |] | | | |]; reflexivity.
Qed.

Lemma get_price_answered :
  kalshi_get_price clock sign send self w
  = match data with
    | MarketBody yes_bid yes_ask no_bid no_ask =>
        (Ret (Some (round2 ((IZR yes_bid / 100 + IZR yes_ask / 100) / 2),
                    round2 ((IZR no_bid / 100 + IZR no_ask / 100) / 2))), w')
    | _ => (Raise NameError, w')
    end.
Proof.
  unfold kalshi_get_price. answered. destruct data; reflexivity.
Qed.

Lemma place_order_answered (action side : string) (count price : num)
  (expiration_ts : option Z) :
  kalshi_place_order clock sign send self action side count price expiration_ts w
  = (Ret match data with
         | OrderBody order_id => Some order_id
         | _ => None
         end, w').
Proof.
  unfold kalshi_place_order. answered. destruct data; reflexivity.
Qed.

Lemma cancel_order_answered (order_id : string) :
  kalshi_cancel_order clock sign send self order_id w = (Ret true, w').
Proof. unfold kalshi_cancel_order. answered. reflexivity. Qed.

Lemma get_orders_answered :
  kalshi_get_orders clock sign send self w
  = (Ret match data with
         | OrdersBody (Some l) => l
         | _ => []
         end, w').
Proof.
  unfold kalshi_get_orders. answered. destruct data as [| | [l |] | |]; reflexivity.
Qed.

End DecodingFacts.

(** X18. [get_price] never returns the null sentinel: it returns a pair of
    prices, or raises [NameError] from its handler; and it raises
    [NameError] whenever its signed request raises (the signer or the
    transport), in particular when no request can complete, and whenever
    the response has no market. *)
Theorem get_price_never_null (W : Type) (clock : W -> R)
  (sign : string -> W -> result string) (send : request -> io W body)
  (self : client) (w : W) :
  ((exists yes no w',
       kalshi_get_price clock sign send self w = (Ret (Some (yes, no)), w'))
   \/ (exists w', kalshi_get_price clock sign send self w = (Raise NameError, w')))
  /\ (request_fails sign send w ->
      fst (kalshi_get_price clock sign send self w) = Raise NameError)
  /\ (forall e w',
        signed_request clock sign send self "GET"
          ("/trade-api/v2/markets/" ++ market_ticker self ++ "/") None w
        = (Raise e, w') ->
        kalshi_get_price clock sign send self w = (Raise NameError, w'))
  /\ (forall data w',
        signed_request clock sign send self "GET"
          ("/trade-api/v2/markets/" ++ market_ticker self ++ "/") None w
        = (Ret data, w') ->
        (forall yes_bid yes_ask no_bid no_ask,
            data <> MarketBody yes_bid yes_ask no_bid no_ask) ->
        kalshi_get_price clock sign send self w = (Raise NameError, w')).
Proof.
  split; [| split; [| split]].
  - unfold kalshi_get_price, try_except, io_bind, io_ret, io_raise.
    rewrite signed_headers_message. cbv zeta.
    match goal with
    | |- context [sign ?m w] => destruct (sign m w) as [sig | e1]
    end; [| right; eexists; reflexivity].
    match goal with
    | |- context [send ?rq w] => destruct (send rq w) as [[data | e2] w']
    end; [| right; eexists; reflexivity].
    destruct data; try (right; eexists; reflexivity).
    left. do 3 eexists. reflexivity.
  - unfold kalshi_get_price, try_except, io_bind, io_ret, io_raise.
    rewrite signed_headers_message. cbv zeta.
    match goal with
    | |- context [sign ?m w] => destruct (sign m w) as [sig | e1] eqn:Esign
    end; [| reflexivity].
    match goal with
    | |- context [send ?rq w] => destruct (send rq w) as [[data | e2] w'] eqn:Esend
    end; [| reflexivity].
    intros [H | H]; exfalso.
    + match type of Esign with
      | sign ?m w = _ => specialize (H m); rewrite Esign in H; exact H
      end.
    + match type of Esend with
      | send ?rq w = _ => specialize (H rq); rewrite Esend in H; exact H
      end.
  - intros e w'. apply get_price_caught.
  - intros data w'. apply get_price_no_market.
Qed.

(** With the venue unreachable, and on a venue that answers without a
    market, [get_price] raises [NameError]. *)
Lemma get_price_never_null_witness :
  kalshi_get_price (@stopped_clock _) (@constant_signer _) failing_send
    demo_client tt = (Raise NameError, tt)
  /\ kalshi_get_price (@stopped_clock _) (@constant_signer _)
       (constant_send OtherBody) demo_client tt = (Raise NameError, tt).
Proof.
  split.
  - apply (proj1 (proj2 (proj2
             (@get_price_never_null unit (@stopped_clock _) (@constant_signer _)
                failing_send demo_client tt)))
             (RequestException "connection refused") tt).
    reflexivity.
  - apply (proj2 (proj2 (proj2
             (@get_price_never_null unit (@stopped_clock _) (@constant_signer _)
                (constant_send OtherBody) demo_client tt)))
             OtherBody tt).
    + reflexivity.
    + intros yes_bid yes_ask no_bid no_ask H. discriminate H.
Defined.

(** X19. When the market request goes through, [get_price] returns on each
    side a whole number of cents within half a cent of the average of that
    side's bid and ask; with bid and ask between 0 and 100 cents the price
    lies in [0,1]. *)
Theorem get_price_mid (W : Type) (clock : W -> R)
  (sign : string -> W -> result string) (send : request -> io W body)
  (self : client) (w w' : W) (yes_bid yes_ask no_bid no_ask : Z) :
  (forall msg, exists sig, sign msg w = Ret sig) ->
  (forall rq, send rq w = (Ret (MarketBody yes_bid yes_ask no_bid no_ask), w')) ->
  exists cents_yes cents_no : Z,
    kalshi_get_price clock sign send self w
    = (Ret (Some (IZR cents_yes / 100, IZR cents_no / 100)), w')
    /\ Rabs (IZR cents_yes - (IZR yes_bid + IZR yes_ask) / 2) <= 1 / 2
    /\ Rabs (IZR cents_no - (IZR no_bid + IZR no_ask) / 2) <= 1 / 2
    /\ ((0 <= yes_bid <= 100)%Z -> (0 <= yes_ask <= 100)%Z ->
        0 <= IZR cents_yes / 100 <= 1)
    /\ ((0 <= no_bid <= 100)%Z -> (0 <= no_ask <= 100)%Z ->
        0 <= IZR cents_no / 100 <= 1).
Proof.
  intros Hsign Hsend.
  rewrite (@get_price_answered W clock sign send self w w' _ Hsign Hsend).
  unfold round2.
  replace ((IZR yes_bid / 100 + IZR yes_ask / 100) / 2 * 100)
    with ((IZR yes_bid + IZR yes_ask) / 2) by field.
  replace ((IZR no_bid / 100 + IZR no_ask / 100) / 2 * 100)
    with ((IZR no_bid + IZR no_ask) / 2) by field.
  do 2 eexists. split; [reflexivity |].
  pose proof (round_half_even_close ((IZR yes_bid + IZR yes_ask) / 2)) as Hy.
  pose proof (round_half_even_close ((IZR no_bid + IZR no_ask) / 2)) as Hn.
  assert (Hunit : forall bid ask cents,
            Rabs (IZR cents - (IZR bid + IZR ask) / 2) <= 1 / 2 ->
            (0 <= bid <= 100)%Z -> (0 <= ask <= 100)%Z ->
            0 <= IZR cents / 100 <= 1).
  { intros bid ask cents Hc [Hb1 Hb2] [Ha1 Ha2].
    apply IZR_le in Hb1, Hb2, Ha1, Ha2.
    assert (Hr : (0 <= cents <= 100)%Z)
      by (apply (@cents_in_range cents ((IZR bid + IZR ask) / 2) Hc); lra).
    destruct Hr as [Hr1 Hr2]. apply IZR_le in Hr1, Hr2. lra. }
  repeat split; try assumption; intros; eapply Hunit; eassumption.
Qed.

Lemma get_price_mid_witness :
  exists cents_yes cents_no : Z,
    kalshi_get_price (@stopped_clock _) (@constant_signer _)
      (constant_send (MarketBody 49 52 48 51)) demo_client tt
    = (Ret (Some (IZR cents_yes / 100, IZR cents_no / 100)), tt)
    /\ Rabs (IZR cents_yes - (IZR 49 + IZR 52) / 2) <= 1 / 2
    /\ Rabs (IZR cents_no - (IZR 48 + IZR 51) / 2) <= 1 / 2
    /\ ((0 <= 49 <= 100)%Z -> (0 <= 52 <= 100)%Z -> 0 <= IZR cents_yes / 100 <= 1)
    /\ ((0 <= 48 <= 100)%Z -> (0 <= 51 <= 100)%Z -> 0 <= IZR cents_no / 100 <= 1).
Proof.
  apply (@get_price_mid unit (@stopped_clock _) (@constant_signer _)
           (constant_send (MarketBody 49 52 48 51)) demo_client tt tt 49 52 48 51).
  - intros msg. eexists. reflexivity.
  - intros rq. reflexivity.
Defined.

(** X20. When the positions request goes through, [get_position] returns the
    sum of the positions listed for the client's ticker, other tickers being
    ignored; a response without the list gives 0. *)
Theorem get_position_sums_ticker (W : Type) (clock : W -> R)
  (sign : string -> W -> result string) (send : request -> io W body)
  (self : client) (w w' : W) (data : body) :
  (forall msg, exists sig, sign msg w = Ret sig) ->
  (forall rq, send rq w = (Ret data, w')) ->
  kalshi_get_position clock sign send self w
  = (Ret (PosInt match data with
                 | PositionsBody (Some positions) =>
                     fold_right Z.add 0%Z
                       (map position
                          (filter (fun p => String.eqb (ticker p) (market_ticker self))
                                  positions))
                 | _ => 0%Z
                 end), w').
Proof.
  intros Hsign Hsend.
  exact (@get_position_answered W clock sign send self w w' data Hsign Hsend).
Qed.

Lemma get_position_sums_ticker_witness :
  kalshi_get_position (@stopped_clock _) (@constant_signer _)
    (constant_send
       (PositionsBody
          (Some [{| ticker := "KXDEMO"; position := 7 |};
                 {| ticker := "OTHER"; position := 100 |};
                 {| ticker := "KXDEMO"; position := -3 |}])))
    demo_client tt
  = (Ret (PosInt 4), tt).
Proof.
  apply (@get_position_sums_ticker unit (@stopped_clock _) (@constant_signer _)
           (constant_send
              (PositionsBody
                 (Some [{| ticker := "KXDEMO"; position := 7 |};
                        {| ticker := "OTHER"; position := 100 |};
                        {| ticker := "KXDEMO"; position := -3 |}])))
           demo_client tt tt
           (PositionsBody
              (Some [{| ticker := "KXDEMO"; position := 7 |};
                     {| ticker := "OTHER"; position := 100 |};
                     {| ticker := "KXDEMO"; position := -3 |}]))).
  - intros msg. eexists. reflexivity.
  - intros rq. reflexivity.
Defined.

(** X21. When the request goes through, [cancel_order] reports [True]
    whatever the response holds, [place_order] returns the order id of the
    response and [None] when the response has none, and [get_orders] returns
    the listed orders and the empty list when the response has no list. *)
Theorem answered_requests (W : Type) (clock : W -> R)
  (sign : string -> W -> result string) (send : request -> io W body)
  (self : client) (w w' : W) (data : body) :
  (forall msg, exists sig, sign msg w = Ret sig) ->
  (forall rq, send rq w = (Ret data, w')) ->
  (forall order_id,
      kalshi_cancel_order clock sign send self order_id w = (Ret true, w'))
  /\ (forall action side count price expiration_ts,
        kalshi_place_order clock sign send self action side count price
          expiration_ts w
        = (Ret match data with
               | OrderBody order_id => Some order_id
               | _ => None
               end, w'))
  /\ kalshi_get_orders clock sign send self w
     = (Ret match data with
            | OrdersBody (Some orders) => orders
            | _ => []
            end, w').
Proof.
  intros Hsign Hsend. repeat split; intros.
  - exact (@cancel_order_answered W clock sign send self w w' data Hsign Hsend _).
  - exact (@place_order_answered W clock sign send self w w' data Hsign Hsend
             _ _ _ _ _).
  - exact (@get_orders_answered W clock sign send self w w' data Hsign Hsend).
Qed.

Lemma answered_requests_witness :
  (forall order_id,
      kalshi_cancel_order (@stopped_clock _) (@constant_signer _)
        (constant_send OtherBody) demo_client order_id tt = (Ret true, tt))
  /\ (forall action side count price expiration_ts,
        kalshi_place_order (@stopped_clock _) (@constant_signer _)
          (constant_send OtherBody) demo_client action side count price
          expiration_ts tt
        = (Ret None, tt))
  /\ kalshi_get_orders (@stopped_clock _) (@constant_signer _)
       (constant_send OtherBody) demo_client tt
     = (Ret [], tt).
Proof.
  apply (@answered_requests unit (@stopped_clock _) (@constant_signer _)
           (constant_send OtherBody) demo_client tt tt OtherBody).
  - intros msg. eexists. reflexivity.
  - intros rq. reflexivity.
Defined.

(** The two fields that depend on the numeric arguments. *)
Lemma payload_shape (self : client) (action side : string) (count price : num)
  (expiration_ts : option Z) :
  dict_get (place_order_payload self action side count price expiration_ts) "count"
  = Some (JNum count)
  /\ dict_get (place_order_payload self action side count price expiration_ts)
       (if String.eqb side "yes" then "yes_price" else "no_price")
     = Some (JNum (PInt (Py.num_int (Py.num_times_100 price)))).
Proof.
  unfold place_order_payload.
  destruct (String.eqb side "yes"); destruct expiration_ts as [ts |];
    split; reflexivity.
Qed.

(** The cents of line 271 for the floats 0.45 and 0.29: the rounded
    products are 45.0 and 28.999999999999996. *)
Lemma cents_of_0_45 : Py.num_int (Py.num_times_100 (PFloat 0.45)) = 45%Z.
Proof.
  cbn [Py.num_times_100 Py.num_int]. rewrite b64_0_45_times_100.
  apply int_of_Z; [lia | lra].
Qed.

Lemma cents_of_0_29 : Py.num_int (Py.num_times_100 (PFloat 0.29)) = 28%Z.
Proof.
  cbn [Py.num_times_100 Py.num_int]. rewrite b64_0_29_times_100.
  apply int_of_Z; [lia | lra].
Qed.

(** X22. The order payload always carries ticker, action, side, count and
    type, with only the action lowercased; it carries exactly one price
    field, [yes_price] when the side is the string yes and [no_price] for any
    other side, holding [int(price * 100)] (the truncated binary64 product
    for a float: 45 for 0.45 and 28 for 0.29; a hundred times an integer),
    and an expiration only when one is given. *)
Theorem payload_fields (self : client) (action side : string) (count price : num)
  (expiration_ts : option Z) :
  let payload := place_order_payload self action side count price expiration_ts in
  let cents := JNum (PInt (Py.num_int (Py.num_times_100 price))) in
  dict_get payload "ticker" = Some (JStr (market_ticker self))
  /\ dict_get payload "action" = Some (JStr (lower action))
  /\ dict_get payload "side" = Some (JStr side)
  /\ dict_get payload "count" = Some (JNum count)
  /\ dict_get payload "type" = Some (JStr "limit")
  /\ (if String.eqb side "yes"
      then dict_get payload "yes_price" = Some cents
           /\ dict_get payload "no_price" = None
      else dict_get payload "no_price" = Some cents
           /\ dict_get payload "yes_price" = None)
  /\ dict_get payload "expiration_ts"
     = match expiration_ts with
       | Some ts => Some (JNum (PInt ts))
       | None => None
       end
  /\ (forall z, Py.num_int (Py.num_times_100 (PInt z)) = (z * 100)%Z)
  /\ (forall r,
        Py.num_int (Py.num_times_100 (PFloat r))
        = Py.int (Py.b64 (Py.b64 r * 100)))
  /\ Py.num_int (Py.num_times_100 (PFloat 0.45)) = 45%Z
  /\ Py.num_int (Py.num_times_100 (PFloat 0.29)) = 28%Z.
Proof.
  unfold place_order_payload.
  destruct (String.eqb side "yes"); destruct expiration_ts as [ts |];
    cbv zeta; repeat split; try reflexivity;
    first [exact cents_of_0_45 | exact cents_of_0_29].
Qed.

(** X23. An order handed to the interface as the strategy does it (the price
    third, as a float, the size fourth, as an integer) is sent by the venue
    client in one POST whose payload has the price as [count] and a hundred
    times the size as its price field. *)
Theorem interface_order_is_sent_swapped (clock : list request -> R)
  (self : client) (action side : string) (price : R) (size : Z)
  (expiration_ts : option Z) (sent : list request) :
  exists rq payload,
    snd (place_order
           (KalshiTradingAPI clock (@constant_signer _) recording_send self)
           action side (PFloat price) (PInt size) expiration_ts sent)
    = sent ++ [rq]
    /\ method rq = "POST"%string
    /\ json rq = Some payload
    /\ dict_get payload "count" = Some (JNum (PFloat price))
    /\ dict_get payload (if String.eqb side "yes" then "yes_price" else "no_price")
       = Some (JNum (PInt (size * 100))).
Proof.
  do 2 eexists. split; [reflexivity |]. cbn [method json].
  split; [reflexivity |]. split; [reflexivity |].
  exact (payload_shape self action side (PFloat price) (PInt size) expiration_ts).
Qed.

Lemma append_single_nonempty (p : string) (c : ascii) :
  (p ++ String c EmptyString)%string <> EmptyString.
Proof. destruct p; discriminate. Qed.

(** X24. [rstrip] removes trailing copies of the character and nothing else:
    the argument is the result followed by copies of the character, and the
    result does not end with it.  So the [base_url] kept by [__init__] never
    ends with a slash. *)
Theorem rstrip_spec (c : ascii) (s : string) :
  (exists n, s = (rstrip c s ++ replicate n c)%string)
  /\ (forall p, rstrip c s <> (p ++ String c EmptyString)%string)
  /\ (forall ticker key p,
        base_url (init_client ticker key s) <> (p ++ String "/" EmptyString)%string).
Proof.
  assert (H : (exists n, s = (rstrip c s ++ replicate n c)%string)
              /\ forall p, rstrip c s <> (p ++ String c EmptyString)%string).
  { induction s as [| a s' [[n IHn] IHe]].
    - split; [exists 0%nat; reflexivity |].
      intros p H. symmetry in H. exact (append_single_nonempty _ _ H).
    - cbn [rstrip]. destruct (rstrip c s') as [| b r] eqn:Er.
      + destruct (Ascii.eqb_spec a c) as [-> | Hac].
        * split; [exists (S n); cbn; rewrite IHn at 1; reflexivity |].
          intros p H. symmetry in H. exact (append_single_nonempty _ _ H).
        * split; [exists n; cbn; rewrite IHn at 1; reflexivity |].
          intros [| a' p'] H; cbn in H.
          -- injection H as H. contradiction.
          -- injection H as _ H. symmetry in H.
             exact (append_single_nonempty _ _ H).
      + split; [exists n; cbn; rewrite IHn at 1; reflexivity |].
        intros [| a' p'] H; cbn in H.
        * discriminate H.
        * injection H as _ H. exact (IHe p' H). }
  destruct H as [H1 H2]. split; [exact H1 | split; [exact H2 |]].
  clear H1 H2. intros ticker key p. cbn [init_client base_url].
  revert p. induction s as [| a s' IH]; intros p.
  - intros H. symmetry in H. exact (append_single_nonempty _ _ H).
  - cbn [rstrip]. destruct (rstrip "/" s') as [| b r] eqn:Er.
    + destruct (Ascii.eqb_spec a "/"%char) as [-> | Hac].
      * intros H. symmetry in H. exact (append_single_nonempty _ _ H).
      * destruct p as [| a' p']; cbn; intros H.
        -- injection H as H. contradiction.
        -- injection H as _ H. symmetry in H.
           exact (append_single_nonempty _ _ H).
    + destruct p as [| a' p']; cbn; intros H.
      * discriminate H.
      * injection H as _ H. exact (IH p' H).
Qed.

(** X25. With a [trade_side] that is neither yes nor no, a tick that gets a
    price raises [KeyError] right after its first call: nothing else is
    fetched and no order is touched. *)
Theorem tick_unknown_side (W : Type) (clock : W -> R)
  (api : AbstractTradingAPI W) (self : params) (current_time : R) (st : state W)
  (yes no : R) (w1 : W) :
  trade_side self <> "yes"%string ->
  trade_side self <> "no"%string ->
  get_price api (world st) = (Ret (Some (yes, no)), w1) ->
  tick clock api self current_time st
  = (Raise KeyError, {| calls := calls st ++ [GetPrice]; world := w1 |}).
Proof.
  intros Hy Hn E. unfold tick, io_bind. rewrite (call_step _ _ _ E).
  unfold io_lift at 1. cbn [subscript].
  destruct (String.eqb_spec (trade_side self) "yes") as [Ey | _]; [contradiction |].
  destruct (String.eqb_spec (trade_side self) "no") as [En | _]; [contradiction |].
  reflexivity.
Qed.

Lemma tick_unknown_side_witness :
  tick (@stopped_clock _) live_api capital_side_params 0 start
  = (Raise KeyError, {| calls := calls start ++ [GetPrice]; world := tt |}).
Proof.
  apply (@tick_unknown_side unit (@stopped_clock _) live_api capital_side_params
           0 start 0.5 0.5 tt).
  - cbn. discriminate.
  - cbn. discriminate.
  - reflexivity.
Defined.
